(** * The ACME web front end (wfe/web-front-end.go)

    A shallow embedding of the request-authentication function [verifyPOST],
    the error classifier ([statusCodeFromError], [sendError]) and the
    resource handlers of the web front end, followed by the properties the
    specification states about them.

    Conventions of the embedding:
    - a Go [(T, error)] result whose value is only used when the error is nil
      is a sum [T + error]; where the code keeps the value next to the error
      ([GetRegistrationByKey]) it is a pair [T * option error];
    - a Go pointer that may be nil is an [option];
    - the collaborators behind interfaces (storage, registration authority)
      and the library calls (JOSE, JSON, X.509, key policy) are fields of
      records, so that every property is proved for all implementations;
    - handlers run in a state monad that threads the nonce registry, the
      response being written, the per-request log event and the sequence of
      collaborator calls, and that can also end in a run-time panic. *)

From Stdlib Require Import ZArith List String Ascii Bool Lia.
From Stdlib Require Import DecimalString.
From Stdlib Require DecimalFacts DecimalPos.
From Stdlib.Strings Require Import Byte.
Import ListNotations.

Local Open Scope Z_scope.

(** ** Basic data *)

Definition bytes := list byte.

Fixpoint bytes_Equal (a b : bytes) : bool :=
  match a, b with
  | [], [] => true
  | x :: a', y :: b' => Byte.eqb x y && bytes_Equal a' b'
  | _, _ => false
  end.

(** [%d] of an integer. *)
Definition fmt_d (z : Z) : string := NilZero.string_of_int (Z.to_int z).

(** The character [c] occurs in [s]. *)
Fixpoint hasChar (c : ascii) (s : string) : bool :=
  match s with
  | EmptyString => false
  | String d s' => Ascii.eqb d c || hasChar c s'
  end.

Definition percent : ascii := ascii_of_nat 37.

(** Paths are the ACME-spec identified URL path-segments for various methods *)
Definition DirectoryPath : string := "/directory".
Definition NewRegPath : string := "/acme/new-reg".
Definition RegPath : string := "/acme/reg/".
Definition NewAuthzPath : string := "/acme/new-authz".
Definition AuthzPath : string := "/acme/authz/".
Definition ChallengePath : string := "/acme/challenge/".
Definition NewCertPath : string := "/acme/new-cert".
Definition CertPath : string := "/acme/cert/".
Definition RevokeCertPath : string := "/acme/revoke-cert".
Definition TermsPath : string := "/terms".
Definition IssuerPath : string := "/acme/issuer-cert".
Definition BuildIDPath : string := "/build".

(** net/http status codes used by the front end. *)
Definition StatusOK : Z := 200.
Definition StatusCreated : Z := 201.
Definition StatusAccepted : Z := 202.
Definition StatusBadRequest : Z := 400.
Definition StatusForbidden : Z := 403.
Definition StatusNotFound : Z := 404.
Definition StatusMethodNotAllowed : Z := 405.
Definition StatusConflict : Z := 409.
Definition StatusLengthRequired : Z := 411.
Definition StatusPreconditionFailed : Z := 412.
Definition StatusInternalServerError : Z := 500.
Definition StatusNotImplemented : Z := 501.

(** StatusRateLimited is not in net/http *)
Definition StatusRateLimited : Z := 429.
(** statusBadNonce is used to force sendError to send the proper error type.
    The source writes the literal [0400], which Go reads in base eight. *)
Definition statusBadNonce : Z := 4 * 8 * 8.

(** ** Errors of package core

    A Go error value is its dynamic type and its message.  [OtherError]
    stands for every error type the front end does not know by name (errors
    of the JSON decoder, of the key policy, of the database driver). *)

Inductive ErrorType : Type :=
| MalformedRequestError
| NotSupportedError
| SyntaxError
| UnauthorizedError
| NotFoundError
| LengthRequiredError
| SignatureValidationError
| InternalServerError
| RateLimitedError
| BadNonceError
| NoSuchRegistrationError
| OtherError.

Record error : Type := mkError { etype : ErrorType; emsg : string }.

Definition isNoSuchRegistration (e : error) : bool :=
  match etype e with NoSuchRegistrationError => true | _ => false end.

(** ** Keys, registrations, authorizations, certificates *)

Inductive PublicKey : Type :=
| RSAPublicKey (modulus exponent : Z)
| ECDSAPublicKey (curve : string) (x y : Z).

(** [jose.JsonWebKey]; its [Key] field is an interface value, nil in the
    zero value of the struct. *)
Record JsonWebKey : Type := mkJWK {
  Key : option PublicKey;
  KeyID : string;
  Algorithm : string
}.

Definition zeroJsonWebKey : JsonWebKey := mkJWK None EmptyString EmptyString.

Record Registration : Type := mkRegistration {
  reg_ID : Z;
  reg_Key : JsonWebKey;
  reg_Contact : list string;
  reg_Agreement : string;
  reg_InitialIP : option string
}.

Record Challenge : Type := mkChallenge {
  chal_ID : Z;
  chal_Type : string;
  chal_Status : string;
  chal_URI : string;
  chal_Token : string;
  chal_AccountKey : option JsonWebKey
}.

Record Authorization : Type := mkAuthorization {
  authz_ID : string;
  authz_Identifier : string;
  authz_RegistrationID : Z;
  authz_Status : string;
  authz_Expires : option Z;
  authz_Challenges : list Challenge
}.

Record Certificate : Type := mkCertificate {
  cert_RegistrationID : Z;
  cert_DER : bytes
}.

Inductive OCSPStatus : Type := OCSPStatusGood | OCSPStatusRevoked.

Record CertificateStatus : Type := mkCertificateStatus {
  cs_Status : OCSPStatus
}.

(** The fields of a parsed [x509.Certificate] the front end reads. *)
Record x509_Certificate : Type := mkX509 {
  SerialNumber : Z;
  x509_PublicKey : PublicKey;
  DNSNames : list string
}.

Record CertificateRequest : Type := mkCertificateRequest {
  csr_Bytes : bytes;
  csr_PublicKey : PublicKey;
  csr_DNSNames : list string
}.

(** Modelled from the spec: [Authorization.FindChallenge] is a method of
    package core; the spec gives it as a linear scan of the challenge list
    for the challenge ID, with the sentinel -1 when it is not found. *)
Fixpoint FindChallenge_from (i : Z) (cs : list Challenge) (challengeID : Z) : Z :=
  match cs with
  | [] => -1
  | c :: cs' =>
      if chal_ID c =? challengeID then i
      else FindChallenge_from (i + 1) cs' challengeID
  end.

Definition FindChallenge (authz : Authorization) (challengeID : Z) : Z :=
  FindChallenge_from 0 (authz_Challenges authz) challengeID.

(** ACME resource names; [core.AcmeResource] is a string type, and these
    are the names the ACME protocol gives the resources. *)
Definition AcmeResource := string.
Definition ResourceNewReg : AcmeResource := "new-reg"%string.
Definition ResourceNewAuthz : AcmeResource := "new-authz"%string.
Definition ResourceNewCert : AcmeResource := "new-cert"%string.
Definition ResourceRevokeCert : AcmeResource := "revoke-cert"%string.
Definition ResourceRegistration : AcmeResource := "reg"%string.
Definition ResourceChallenge : AcmeResource := "challenge"%string.

(** ** The signed envelope, the request and the response *)

Record JoseHeader : Type := mkJoseHeader {
  hdr_JsonWebKey : option JsonWebKey;
  hdr_Nonce : string;
  hdr_Algorithm : string
}.

Record Signature : Type := mkSignature { Header : JoseHeader }.

(** [jose.JsonWebSignature]: the payload is private to the library and is
    only handed out by [Verify]; [jws_raw] stands for the protected bytes. *)
Record JsonWebSignature : Type := mkJWS {
  Signatures : list Signature;
  jws_raw : bytes
}.

Inductive RequestBody : Type :=
| NoBody                      (* request.Body == nil *)
| UnreadableBody              (* ioutil.ReadAll fails *)
| ReadableBody (b : bytes).

Record Request : Type := mkRequest {
  Method : string;
  URL_Path : string;
  req_Header : list (string * string);
  Body : RequestBody;
  RemoteAddr : string
}.

Fixpoint Header_lookup (h : list (string * string)) (k : string) : option string :=
  match h with
  | [] => None
  | (k', v) :: h' => if String.eqb k' k then Some v else Header_lookup h' k
  end.

(** [textproto.CanonicalMIMEHeaderKey]: a name made of header-field
    characters gets an upper-case letter at its start and after each hyphen
    and lower-case letters elsewhere; any other name is returned unchanged. *)
Definition validHeaderFieldByte (c : ascii) : bool :=
  let n := nat_of_ascii c in
  ((48 <=? n) && (n <=? 57) || (65 <=? n) && (n <=? 90) || (97 <=? n) && (n <=? 122)
   || existsb (Nat.eqb n) [33; 35; 36; 37; 38; 39; 42; 43; 45; 46; 94; 95; 96; 124; 126])%nat.

Fixpoint allValidHeaderFieldBytes (s : string) : bool :=
  match s with
  | EmptyString => true
  | String c s' => validHeaderFieldByte c && allValidHeaderFieldBytes s'
  end.

Fixpoint canonicalLetters (upper : bool) (s : string) : string :=
  match s with
  | EmptyString => EmptyString
  | String c s' =>
      let n := nat_of_ascii c in
      let c' :=
        if (upper && (97 <=? n) && (n <=? 122))%nat then ascii_of_nat (n - 32)
        else if (negb upper && (65 <=? n) && (n <=? 90))%nat then ascii_of_nat (n + 32)
        else c in
      String c' (canonicalLetters (Ascii.eqb c' (ascii_of_nat 45)) s')
  end.

Definition CanonicalMIMEHeaderKey (k : string) : string :=
  if allValidHeaderFieldBytes k then canonicalLetters true k else k.

(** [Header.Get(k)]: the value stored under the canonical form of [k], or
    the empty string.  The server stores the headers of a request under
    their canonical names; a direct index [Header[k]] is [Header_lookup]. *)
Definition Header_Get (h : list (string * string)) (k : string) : string :=
  match Header_lookup h (CanonicalMIMEHeaderKey k) with
  | Some v => v
  | None => EmptyString
  end.

Inductive ProblemType : Type :=
| MalformedProblem
| UnauthorizedProblem
| ServerInternalProblem
| RateLimitedProblem
| BadNonceProblem.

(** Modelled from the spec: the values of the problem-type constants of
    package core are not part of the front end; the spec names the tags. *)
Definition problemTag (t : ProblemType) : string :=
  match t with
  | MalformedProblem => "malformed"
  | UnauthorizedProblem => "unauthorized"
  | ServerInternalProblem => "server-internal"
  | RateLimitedProblem => "rate-limited"
  | BadNonceProblem => "bad-nonce"
  end.

Definition ProblemType_eqb (a b : ProblemType) : bool :=
  match a, b with
  | MalformedProblem, MalformedProblem
  | UnauthorizedProblem, UnauthorizedProblem
  | ServerInternalProblem, ServerInternalProblem
  | RateLimitedProblem, RateLimitedProblem
  | BadNonceProblem, BadNonceProblem => true
  | _, _ => false
  end.

Record ProblemDetails : Type := mkProblem {
  prob_Type : ProblemType;
  prob_Detail : string
}.

(** What a handler hands to the encoder and writes to the client. *)
Inductive ResponseBody : Type :=
| BodyProblem (p : ProblemDetails)
| BodyProblemFallback
| BodyRegistration (r : Registration)
| BodyAuthorization (a : Authorization)
| BodyChallenge (c : Challenge)
| BodyDER (b : bytes).

Record Response : Type := mkResponse {
  resp_Header : list (string * string);
  resp_Code : option Z;
  resp_Body : list ResponseBody
}.

Definition emptyResponse : Response := mkResponse [] None [].

(** The second argument of [sendError] has type [interface{}]. *)
Inductive Detail : Type :=
| DetailNil
| DetailError (e : error)
| DetailString (s : string)
| DetailInt (z : Z)
| DetailKey (k : option JsonWebKey).

Inductive LogValue : Type :=
| LogString (s : string)
| LogInt (z : Z)
| LogStrings (l : list string)
| LogTime (t : option Z)
| LogStatus (s : OCSPStatus).

Record requestEvent : Type := mkRequestEvent {
  Errors : list string;
  Requester : Z;
  Contacts : list string;
  Extra : list (string * LogValue)
}.

Definition emptyRequestEvent : requestEvent := mkRequestEvent [] 0 [] [].

(** ** Collaborators

    [core.StorageGetter] and [core.RegistrationAuthority] are interfaces;
    a handler sees one answer per call. *)

Record StorageGetter : Type := mkSA {
  GetRegistrationByKey : JsonWebKey -> Registration * option error;
  GetAuthorization : string -> Authorization + error;
  GetCertificate : string -> Certificate + error;
  GetCertificateStatus : string -> CertificateStatus + error
}.

Record RegistrationAuthority : Type := mkRA {
  NewRegistration_RA : Registration -> Registration + error;
  NewAuthorization_RA : Authorization -> Z -> Authorization + error;
  NewCertificate_RA : CertificateRequest -> Z -> Certificate + error;
  UpdateRegistration : Registration -> Registration -> Registration + error;
  UpdateAuthorization : Authorization -> Z -> Challenge -> Authorization + error;
  RevokeCertificateWithReg : x509_Certificate -> Z -> Z -> option error
}.

(** Functions of other packages that the front end calls.  [checkAlgorithm]
    belongs to package wfe but is declared in another file; it yields a
    metric name and an error. *)
Record Library : Type := mkLibrary {
  jose_ParseSigned : bytes -> JsonWebSignature + error;
  jose_Verify : JsonWebSignature -> JsonWebKey -> bytes + error;
  checkAlgorithm : JsonWebKey -> JsonWebSignature -> string * option error;
  core_GoodKey : option PublicKey -> option error;
  core_KeyDigestEquals : option JsonWebKey -> PublicKey -> bool;
  core_SerialToString : Z -> string;
  core_ValidSerial : string -> bool;
  x509_ParseCertificate : bytes -> x509_Certificate + error;
  (* json.Unmarshal into struct { Resource string }: the field is the empty
     string when the payload has no resource member *)
  json_Unmarshal_resource : bytes -> string + error;
  json_Unmarshal_Registration : bytes -> Registration + error;
  json_Unmarshal_Authorization : bytes -> Authorization + error;
  json_Unmarshal_Challenge : bytes -> Challenge + error;
  json_Unmarshal_CertificateRequest : bytes -> CertificateRequest + error;
  json_Unmarshal_RevokeRequest : bytes -> bytes + error;
  json_Marshal : ResponseBody -> option error;
  net_ParseIP : string -> option string;
  net_SplitHostPort : string -> string + error;
  (* the text fmt prints for a value under the verb %s *)
  fmt_s : Detail -> string;
  (* the text fmt.Sprintf(format) prints, without operands, for a format
     that holds a verb *)
  fmt_verbs : string -> string;
  (* the text fmt prints for a string under the verb %#v *)
  fmt_sharp_v : string -> string
}.

(** [fmt.Sprintf(format)] without operands: a format without [%] is printed
    as it is. *)
Definition fmt_Sprintf (l : Library) (format : string) : string :=
  if hasChar percent format then fmt_verbs l format else format.

Record WebFrontEndImpl : Type := mkWFE {
  RA : RegistrationAuthority;
  SA : StorageGetter;
  lib : Library;
  clk_Now : Z;
  (* URL configuration parameters *)
  BaseURL : string;
  NewReg : string;
  RegBase : string;
  NewAuthz : string;
  AuthzBase : string;
  ChallengeBase : string;
  NewCert : string;
  CertBase : string;
  (* URL to the current subscriber agreement *)
  SubscriberAgreementURL : string
}.

(** ** Observable calls

    Every call that leaves the handler is recorded, in order.  Two events
    are not calls but marks of a point in [verifyPOST]: [NonceExtract],
    where the nonce is read from the header of the envelope, and
    [ResourceCheck], where the resource field of the decoded payload is
    looked at. *)

Inductive Event : Type :=
| StatsInc (stat : string)
| LogAudit (msg : string)
| LogWarning (msg : string)
| LogDebug (msg : string)
| Call_GetRegistrationByKey (k : JsonWebKey)
| Call_GetAuthorization (id : string)
| Call_GetCertificate (serial : string)
| Call_GetCertificateStatus (serial : string)
| Call_NewRegistration (init : Registration)
| Call_NewAuthorization (init : Authorization) (regID : Z)
| Call_NewCertificate (csr : CertificateRequest) (regID : Z)
| Call_UpdateRegistration (base update : Registration)
| Call_UpdateAuthorization (authz : Authorization) (index : Z) (update : Challenge)
| Call_RevokeCertificateWithReg (cert : x509_Certificate) (code : Z) (regID : Z)
| Call_GoodKey (k : option PublicKey)
| Call_checkAlgorithm (k : JsonWebKey)
| Call_Verify (k : JsonWebKey) (ok : bool)
| NonceExtract (nonce : string)
| Call_NonceValid (nonce : string) (ok : bool)
| ResourceCheck (resource : string).

(** Calls to the storage and to the registration authority. *)
Definition isBackendCall (e : Event) : bool :=
  match e with
  | Call_GetRegistrationByKey _ | Call_GetAuthorization _
  | Call_GetCertificate _ | Call_GetCertificateStatus _
  | Call_NewRegistration _ | Call_NewAuthorization _ _
  | Call_NewCertificate _ _ | Call_UpdateRegistration _ _
  | Call_UpdateAuthorization _ _ _
  | Call_RevokeCertificateWithReg _ _ _ => true
  | _ => false
  end.

(** ** State and monad *)

Record State : Type := mkState {
  nonceService : list string;       (* the nonces issued and not yet used *)
  response : Response;
  logEvent : requestEvent;
  calls : list Event
}.

Definition initState (nonces : list string) : State :=
  mkState nonces emptyResponse emptyRequestEvent [].

Inductive Outcome (A : Type) : Type :=
| Done (a : A)
| Panic (reason : string).
Arguments Done {A} a.
Arguments Panic {A} reason.

Definition M (A : Type) : Type := State -> Outcome A * State.

Definition ret {A} (a : A) : M A := fun s => (Done a, s).

Definition bind {A B} (m : M A) (k : A -> M B) : M B :=
  fun s => match m s with
           | (Done a, s') => k a s'
           | (Panic r, s') => (Panic r, s')
           end.

Definition panic {A} (reason : string) : M A := fun s => (Panic reason, s).

Declare Scope go_scope.
Delimit Scope go_scope with go.
Notation "x <- m ;; k" := (bind m (fun x => k))
  (at level 61, m at next level, right associativity) : go_scope.
Notation "m ;; k" := (bind m (fun _ => k))
  (at level 61, right associativity) : go_scope.
Local Open Scope go_scope.

Definition emit (e : Event) : M unit :=
  fun s => (Done tt, mkState (nonceService s) (response s) (logEvent s) (calls s ++ [e])).

Definition modifyResponse (f : Response -> Response) : M unit :=
  fun s => (Done tt, mkState (nonceService s) (f (response s)) (logEvent s) (calls s)).

Definition modifyLogEvent (f : requestEvent -> requestEvent) : M unit :=
  fun s => (Done tt, mkState (nonceService s) (response s) (f (logEvent s)) (calls s)).

Definition stats_Inc (stat : string) : M unit := emit (StatsInc stat).

(** [logEvent.AddError(format, operands...)] appends the formatted text to
    the errors of the log event; [AddError] takes that text.  Where the
    source passes a literal format with operands, the text is the literal
    with the text of each operand in place of its verb; where it passes a
    computed string as the format, the text is [fmt_Sprintf] of it. *)
Definition AddError (msg : string) : M unit :=
  modifyLogEvent (fun l => mkRequestEvent (Errors l ++ [msg]) (Requester l) (Contacts l) (Extra l)).

Definition setRequester (id : Z) : M unit :=
  modifyLogEvent (fun l => mkRequestEvent (Errors l) id (Contacts l) (Extra l)).

Definition setContacts (c : list string) : M unit :=
  modifyLogEvent (fun l => mkRequestEvent (Errors l) (Requester l) c (Extra l)).

Definition setExtra (k : string) (v : LogValue) : M unit :=
  modifyLogEvent (fun l => mkRequestEvent (Errors l) (Requester l) (Contacts l) ((k, v) :: Extra l)).

(** [http.Header.Set], [http.Header.Add], [WriteHeader] and [Write].  The
    names the front end sets or adds are literals in canonical form, which
    [Set] and [Add] store unchanged. *)
Definition Header_Set (k v : string) : M unit :=
  modifyResponse (fun r =>
    mkResponse (filter (fun kv => negb (String.eqb (fst kv) k)) (resp_Header r) ++ [(k, v)])
               (resp_Code r) (resp_Body r)).

Definition Header_Add (k v : string) : M unit :=
  modifyResponse (fun r => mkResponse (resp_Header r ++ [(k, v)]) (resp_Code r) (resp_Body r)).

Definition WriteHeader (code : Z) : M unit :=
  modifyResponse (fun r =>
    mkResponse (resp_Header r)
               (match resp_Code r with Some c => Some c | None => Some code end)
               (resp_Body r)).

Definition Write (b : ResponseBody) : M unit :=
  modifyResponse (fun r =>
    mkResponse (resp_Header r)
               (match resp_Code r with Some c => Some c | None => Some StatusOK end)
               (resp_Body r ++ [b])).

(** Modelled from the spec: the nonce registry is declared in package core.
    The spec gives [Valid] as the check that a nonce is issued and not yet
    used, which consumes the nonce when it succeeds. *)
Fixpoint remove_nonce (n : string) (l : list string) : list string :=
  match l with
  | [] => []
  | m :: l' => if String.eqb m n then l' else m :: remove_nonce n l'
  end.

Definition nonceService_Valid (n : string) : M bool :=
  fun s =>
    let ok := existsb (String.eqb n) (nonceService s) in
    (Done ok,
     mkState (if ok then remove_nonce n (nonceService s) else nonceService s)
             (response s) (logEvent s) (calls s ++ [Call_NonceValid n ok])).

(** ** The error classifier *)

Definition statusCodeFromError (err : Detail) : Z :=
  (* Populate these as needed.  We probably should trim the error list in util.go *)
  match err with
  | DetailError e =>
      match etype e with
      | MalformedRequestError => StatusBadRequest
      | NotSupportedError => StatusNotImplemented
      | SyntaxError => StatusBadRequest
      | UnauthorizedError => StatusForbidden
      | NotFoundError => StatusNotFound
      | LengthRequiredError => StatusLengthRequired
      | SignatureValidationError => StatusBadRequest
      | InternalServerError => StatusInternalServerError
      | RateLimitedError => StatusRateLimited
      | BadNonceError => statusBadNonce
      | _ => StatusInternalServerError
      end
  | _ => StatusInternalServerError
  end.

(** The [switch code] of [sendError]: the problem type and the status that
    is written. *)
Definition classifyCode (code : Z) : ProblemType * Z :=
  if (code =? StatusPreconditionFailed) || (code =? StatusForbidden) then
    (UnauthorizedProblem, code)
  else if (code =? StatusConflict) || (code =? StatusMethodNotAllowed)
          || (code =? StatusNotFound) || (code =? StatusBadRequest)
          || (code =? StatusLengthRequired) then
    (MalformedProblem, code)
  else if code =? StatusRateLimited then
    (RateLimitedProblem, code)
  else if code =? statusBadNonce then
    (BadNonceProblem, StatusBadRequest)
  else (* Either http.StatusInternalServerError or an unexpected code *)
    (ServerInternalProblem, code).

(** Notify the client of an error condition and log it for audit purposes. *)
Definition sendError (wfe : WebFrontEndImpl) (msg : string) (detail : Detail)
    (code : Z) : M unit :=
  let ptype := fst (classifyCode code) in
  let code := snd (classifyCode code) in
  (* Record details to the log event *)
  AddError (fmt_Sprintf (lib wfe) msg);;
  (* Only audit log internal errors so users cannot purposefully cause
     auditable events. *)
  pdetail <-
    (if ProblemType_eqb ptype ServerInternalProblem then
       emit (LogAudit ("Internal error - " ++ msg ++ " - " ++ fmt_s (lib wfe) detail)%string);;
       ret msg
     else if negb (statusCodeFromError detail =? StatusInternalServerError) then
       (* If not an internal error and problem is a custom error type *)
       ret (msg ++ " :: " ++ fmt_s (lib wfe) detail)%string
     else ret msg);;
  let problem := mkProblem ptype pdetail in
  problemDoc <-
    (match json_Marshal (lib wfe) (BodyProblem problem) with
     | Some err =>
         emit (LogAudit ("Could not marshal error message: " ++ emsg err)%string);;
         ret BodyProblemFallback
     | None => ret (BodyProblem problem)
     end);;
  Header_Set "Content-Type" "application/problem+json";;
  WriteHeader code;;
  Write problemDoc;;
  stats_Inc ("WFE.HTTP.ErrorCodes." ++ fmt_d code)%string;;
  stats_Inc ("WFE.HTTP.ProblemTypes." ++ problemTag ptype)%string.

Definition link (url relation : string) : string :=
  ("<" ++ url ++ ">;rel=" ++ String (ascii_of_nat 34) relation
     ++ String (ascii_of_nat 34) EmptyString)%string.

(** ** The envelope verifier *)

Definition unknownKey : string := "No registration exists matching provided key".
Definition malformedJWS : string := "Unable to read/verify body".

Definition VerifyResult : Type := (bytes * option JsonWebKey * Registration * option error)%type.

(** verifyPOST reads and parses the request body, looks up the Registration
    corresponding to its JWK, verifies the JWS signature, checks that the
    resource field is present and correct in the JWS protected header, and
    returns the JWS payload bytes, the key used to verify, and the
    corresponding Registration (or error).  If regCheck is false, verifyPOST
    will still try to look up a registration object, and will return it if
    found.  However, if no registration object is found, verifyPOST will
    attempt to verify the JWS using the key in the JWS headers, and return the
    key plus a dummy registration if successful. *)
Definition verifyPOST (wfe : WebFrontEndImpl) (request : Request)
    (regCheck : bool) (resource : AcmeResource) : M VerifyResult :=
  let reg := mkRegistration 0 zeroJsonWebKey [] EmptyString None in
  match Header_lookup (req_Header request) "Content-Length" with
  | None =>
      let err := mkError LengthRequiredError "Content-Length header is required for POST." in
      stats_Inc "WFE.HTTP.ClientErrors.LengthRequiredError";;
      AddError "missing Content-Length header on POST";;
      ret ([], None, reg, Some err)
  | Some _ =>
  (* Read body *)
  match Body request with
  | NoBody =>
      let err := mkError MalformedRequestError "No body on POST" in
      stats_Inc "WFE.Errors.NoPOSTBody";;
      AddError "no body on POST";;
      ret ([], None, reg, Some err)
  | UnreadableBody =>
      let err := mkError InternalServerError "unable to read request body" in
      stats_Inc "WFE.Errors.UnableToReadRequestBody";;
      AddError "unable to read request body";;
      ret ([], None, reg, Some err)
  | ReadableBody bodyBytes =>
  let body := bodyBytes in
  (* Parse as JWS *)
  match jose_ParseSigned (lib wfe) body with
  | inr err =>
      let puberr := mkError SignatureValidationError "Parse error reading JWS" in
      stats_Inc "WFE.Errors.UnableToParseJWS";;
      AddError ("could not JSON parse body into JWS: " ++ emsg err)%string;;
      ret ([], None, reg, Some puberr)
  | inl parsedJws =>
  (* Verify JWS *)
  let nsig := Z.of_nat (List.length (Signatures parsedJws)) in
  if nsig >? 1 then
    let err := mkError SignatureValidationError "Too many signatures in POST body" in
    stats_Inc "WFE.Errors.TooManyJWSSignaturesInPOST";;
    AddError ("too many signatures in POST body: " ++ fmt_d nsig)%string;;
    ret ([], None, reg, Some err)
  else if nsig =? 0 then
    let err := mkError SignatureValidationError "POST JWS not signed" in
    stats_Inc "WFE.Errors.JWSNotSignedInPOST";;
    AddError "no signatures in POST body";;
    ret ([], None, reg, Some err)
  else
  match Signatures parsedJws with
  | [] => panic "index out of range"
  | sig0 :: _ =>
  match hdr_JsonWebKey (Header sig0) with
  | None =>
      let err := mkError SignatureValidationError "No JWK in JWS header" in
      stats_Inc "WFE.Errors.NoJWKInJWSSignatureHeader";;
      AddError "no JWK in JWS signature header in POST body";;
      ret ([], None, reg, Some err)
  | Some submittedKey =>
  emit (Call_GetRegistrationByKey submittedKey);;
  let reg := fst (GetRegistrationByKey (SA wfe) submittedKey) in
  let err := snd (GetRegistrationByKey (SA wfe) submittedKey) in
  (* Special case: If no registration was found, but regCheck is false, use an
     empty registration and the submitted key. The caller is expected to do
     some validation on the returned key. *)
  resolved <-
    (match err with
     | Some e =>
         if isNoSuchRegistration e && negb regCheck then
           (* When looking up keys from the registrations DB, we can be
              confident they are "good". But when we are verifying against any
              submitted key, we want to check its quality before doing the
              verify. *)
           emit (Call_GoodKey (Key submittedKey));;
           match core_GoodKey (lib wfe) (Key submittedKey) with
           | Some err =>
               stats_Inc "WFE.Errors.JWKRejectedByGoodKey";;
               AddError ("JWK in request was rejected by GoodKey: " ++ emsg err)%string;;
               ret (inr err)
           | None => ret (inl submittedKey)
           end
         else
           (* For all other errors, or if regCheck is true, return error
              immediately. *)
           stats_Inc "WFE.Errors.UnableToGetRegistrationByKey";;
           AddError ("unable to fetch registration by the given JWK: " ++ emsg e)%string;;
           ret (inr e)
     | None =>
         (* If the lookup was successful, use that key. *)
         setRequester (reg_ID reg);;
         setContacts (reg_Contact reg);;
         ret (inl (reg_Key reg))
     end);;
  match resolved with
  | inr err => ret ([], None, reg, Some err)
  | inl key =>
  emit (Call_checkAlgorithm key);;
  match checkAlgorithm (lib wfe) key parsedJws with
  | (statName, Some err) =>
      stats_Inc statName;;
      ret ([], None, reg, Some err)
  | (_, None) =>
  match jose_Verify (lib wfe) parsedJws key with
  | inr err =>
      let puberr := mkError SignatureValidationError "JWS verification error" in
      emit (Call_Verify key false);;
      stats_Inc "WFE.Errors.JWSVerificationFailed";;
      AddError ("verification of JWS with the JWK failed: " ++ emsg err ++ "; body: "
                ++ string_of_list_byte (firstn 100 body))%string;;
      ret ([], None, reg, Some puberr)
  | inl payload =>
  emit (Call_Verify key true);;
  (* Check that the request has a known anti-replay nonce.  The source also
     tests [err != nil] here, which cannot hold after a successful Verify. *)
  let nonce := hdr_Nonce (Header sig0) in
  emit (NonceExtract nonce);;
  if (String.length nonce =? 0)%nat then
    stats_Inc "WFE.Errors.JWSMissingNonce";;
    AddError "JWS is missing an anti-replay nonce";;
    ret ([], None, reg, Some (mkError BadNonceError "JWS has no anti-replay nonce"))
  else
  valid <- nonceService_Valid nonce;;
  if negb valid then
    stats_Inc "WFE.Errors.JWSInvalidNonce";;
    AddError "JWS has an invalid anti-replay nonce";;
    ret ([], None, reg, Some (mkError BadNonceError "JWS has invalid anti-replay nonce"))
  else
  (* Check that the "resource" field is present and has the correct value *)
  match json_Unmarshal_resource (lib wfe) payload with
  | inr err =>
      stats_Inc "WFE.Errors.UnparsableJWSPayload";;
      AddError ("unable to JSON parse resource from JWS payload: " ++ emsg err)%string;;
      ret ([], None, reg,
           Some (mkError SignatureValidationError "Request payload did not parse as JSON"))
  | inl parsedResource =>
  emit (ResourceCheck parsedResource);;
  if String.eqb parsedResource EmptyString then
    stats_Inc "WFE.Errors.NoResourceInJWSPayload";;
    AddError "JWS request payload does not specifiy a resource";;
    ret ([], None, reg,
         Some (mkError MalformedRequestError "Request payload does not specify a resource"))
  else if negb (String.eqb resource parsedResource) then
    stats_Inc "WFE.Errors.MismatchedResourceInJWSPayload";;
    AddError "JWS request payload does not match resource";;
    ret ([], None, reg,
         Some (mkError MalformedRequestError
                 ("JWS resource payload does not match the HTTP resource: "
                  ++ parsedResource ++ " != " ++ resource)%string))
  else
    ret (payload, Some key, reg, None)
  end end end end end end end end end.

(** ** String helpers of the Go library *)

Definition slash : ascii := ascii_of_nat 47.
Definition newline : ascii := ascii_of_nat 10.

(** The text after the last slash that stands before the first line break,
    when there is such a slash. *)
Fixpoint afterLastSlash (s : string) : option string :=
  match s with
  | EmptyString => None
  | String c s' =>
      if Ascii.eqb c newline then None
      else match afterLastSlash s' with
           | Some r => Some r
           | None => if Ascii.eqb c slash then Some s' else None
           end
  end.

(** The ID is always the last slash-separated token in the path: the source
    deletes the match of the regular expression [^.*/], in which the dot
    does not match a line break. *)
Definition parseIDFromPath (path : string) : string :=
  match afterLastSlash path with
  | Some r => r
  | None => path
  end.

(** [strings.Split(s, "/")] *)
Fixpoint strings_Split_slash (s : string) : list string :=
  match s with
  | EmptyString => [EmptyString]
  | String c s' =>
      if Ascii.eqb c slash then EmptyString :: strings_Split_slash s'
      else match strings_Split_slash s' with
           | h :: t => String c h :: t
           | [] => [String c EmptyString]
           end
  end.

Definition digitValue (c : ascii) : option Z :=
  let n := nat_of_ascii c in
  if ((48 <=? n) && (n <=? 57))%nat then Some (Z.of_nat (n - 48)) else None.

Fixpoint parseDigits (acc : Z) (s : string) : option Z :=
  match s with
  | EmptyString => Some acc
  | String c s' =>
      match digitValue c with
      | Some d => parseDigits (10 * acc + d) s'
      | None => None
      end
  end.

(** [strconv.ParseInt(s, 10, 64)]: an optional sign, then one or more
    decimal digits, the value within the signed 64-bit range; [None] stands
    for its syntax and range errors. *)
Definition strconv_ParseInt (s : string) : option Z :=
  match s with
  | EmptyString => None
  | String c s' =>
      let neg := Ascii.eqb c (ascii_of_nat 45) in
      let rest := if Ascii.eqb c (ascii_of_nat 43) || neg then s' else s in
      match rest with
      | EmptyString => None
      | _ =>
          match parseDigits 0 rest with
          | None => None
          | Some un =>
              if neg then (if un >? 2 ^ 63 then None else Some (- un))
              else (if un >=? 2 ^ 63 then None else Some un)
          end
      end
  end.

(** [s[n:]]; the caller checks the bound. *)
Fixpoint string_drop (n : nat) (s : string) : string :=
  match n, s with
  | O, _ => s
  | S n', String _ s' => string_drop n' s'
  | S _, EmptyString => EmptyString
  end.

(** Dereference of a pointer: a nil pointer stops the handler. *)
Definition deref {A} (p : option A) : M A :=
  match p with
  | Some a => ret a
  | None => panic "invalid memory address or nil pointer dereference"
  end.

(** [l[i]] on a slice. *)
Definition index {A} (l : list A) (i : Z) : M A :=
  if i <? 0 then panic "index out of range"
  else match nth_error l (Z.to_nat i) with
       | Some a => ret a
       | None => panic "index out of range"
       end.

(** ** Resource handlers *)

(** NewRegistration is used by clients to submit a new registration/account *)
Definition NewRegistration (wfe : WebFrontEndImpl) (request : Request) : M unit :=
  r <- verifyPOST wfe request false ResourceNewReg;;
  let '(body, key, _, err) := r in
  match err with
  | Some err =>
      (* verifyPOST handles its own setting of logEvent.Errors *)
      sendError wfe malformedJWS (DetailError err) (statusCodeFromError (DetailError err))
  | None =>
  key <- deref key;;
  emit (Call_GetRegistrationByKey key);;
  match GetRegistrationByKey (SA wfe) key with
  | (existingReg, None) =>
      Header_Set "Location" (RegBase wfe ++ fmt_d (reg_ID existingReg))%string;;
      sendError wfe "Registration key is already in use" DetailNil StatusConflict
  | (_, Some _) =>
  match json_Unmarshal_Registration (lib wfe) body with
  | inr err => sendError wfe "Error unmarshaling JSON" (DetailError err) StatusBadRequest
  | inl init =>
  if (0 <? String.length (reg_Agreement init))%nat
     && negb (String.eqb (reg_Agreement init) (SubscriberAgreementURL wfe)) then
    let msg := ("Provided agreement URL [" ++ reg_Agreement init
                ++ "] does not match current agreement URL ["
                ++ SubscriberAgreementURL wfe ++ "]")%string in
    sendError wfe msg DetailNil StatusBadRequest
  else
  let realIP := net_ParseIP (lib wfe) (Header_Get (req_Header request) "X-Real-IP") in
  ip <-
    (match realIP with
     | Some ip => ret (Some ip)
     | None =>
         match net_SplitHostPort (lib wfe) (RemoteAddr request) with
         | inl host => ret (net_ParseIP (lib wfe) host)
         | inr _ =>
             AddError ("Couldn't parse RemoteAddr: " ++ RemoteAddr request)%string;;
             sendError wfe "couldn't parse the remote (that is, the client's) address"
                       DetailNil StatusInternalServerError;;
             ret None
         end
     end);;
  match realIP, net_SplitHostPort (lib wfe) (RemoteAddr request) with
  | None, inr _ => ret tt
  | _, _ =>
  let init := mkRegistration (reg_ID init) key (reg_Contact init) (reg_Agreement init) ip in
  emit (Call_NewRegistration init);;
  match NewRegistration_RA (RA wfe) init with
  | inr err =>
      AddError ("unable to create new registration: " ++ emsg err)%string;;
      sendError wfe "Error creating new registration" (DetailError err)
                (statusCodeFromError (DetailError err))
  | inl reg =>
  setRequester (reg_ID reg);;
  setContacts (reg_Contact reg);;
  let regURL := (RegBase wfe ++ fmt_d (reg_ID reg))%string in
  match json_Marshal (lib wfe) (BodyRegistration reg) with
  | Some err =>
      (* StatusInternalServerError because we just created this registration,
         it should be OK. *)
      AddError ("unable to marshal registration: " ++ emsg err)%string;;
      sendError wfe "Error marshaling registration" (DetailError err) StatusInternalServerError
  | None =>
  Header_Add "Location" regURL;;
  Header_Set "Content-Type" "application/json";;
  Header_Add "Link" (link (NewAuthz wfe) "next");;
  (if (0 <? String.length (SubscriberAgreementURL wfe))%nat then
     Header_Add "Link" (link (SubscriberAgreementURL wfe) "terms-of-service")
   else ret tt);;
  WriteHeader StatusCreated;;
  Write (BodyRegistration reg)
  end end end end end end.

(** prepChallengeForDisplay takes a core.Challenge and prepares it for
    display to the client by filling in its URI field and clearing its
    AccountKey and ID fields. *)
Definition prepChallengeForDisplay (wfe : WebFrontEndImpl) (authz : Authorization)
    (challenge : Challenge) : Challenge :=
  mkChallenge
    0 (* 0 is considered "empty" for the purpose of the JSON omitempty tag. *)
    (chal_Type challenge)
    (chal_Status challenge)
    (ChallengeBase wfe ++ authz_ID authz ++ "/" ++ fmt_d (chal_ID challenge))%string
    (chal_Token challenge)
    None.

(** prepAuthorizationForDisplay takes a core.Authorization and prepares it
    for display to the client by clearing its ID and RegistrationID fields,
    and preparing all its challenges. *)
Definition prepAuthorizationForDisplay (wfe : WebFrontEndImpl) (authz : Authorization)
    : Authorization :=
  mkAuthorization
    EmptyString
    (authz_Identifier authz)
    0
    (authz_Status authz)
    (authz_Expires authz)
    (map (prepChallengeForDisplay wfe authz) (authz_Challenges authz)).

(** The answer of a handler to a failed [verifyPOST] when it tells an
    unknown account apart from the other failures. *)
Definition sendVerifyError (wfe : WebFrontEndImpl) (err : error) (otherCode : Z) : M unit :=
  let respMsg := if isNoSuchRegistration err then unknownKey else malformedJWS in
  let respCode := if isNoSuchRegistration err then StatusForbidden else otherCode in
  sendError wfe respMsg (DetailError err) respCode.

(** NewAuthorization is used by clients to submit a new ID Authorization *)
Definition NewAuthorization (wfe : WebFrontEndImpl) (request : Request) : M unit :=
  r <- verifyPOST wfe request true ResourceNewAuthz;;
  let '(body, _, currReg, err) := r in
  match err with
  | Some err =>
      (* verifyPOST handles its own setting of logEvent.Errors *)
      sendVerifyError wfe err (statusCodeFromError (DetailError err))
  | None =>
  (* Any version of the agreement is acceptable here. *)
  if String.eqb (reg_Agreement currReg) EmptyString then
    sendError wfe "Must agree to subscriber agreement before any further actions"
              DetailNil StatusForbidden
  else
  match json_Unmarshal_Authorization (lib wfe) body with
  | inr err =>
      AddError ("unable to JSON unmarshal Authorization: " ++ emsg err)%string;;
      sendError wfe "Error unmarshaling JSON" (DetailError err) StatusBadRequest
  | inl init =>
  setExtra "Identifier" (LogString (authz_Identifier init));;
  (* Create new authz and return *)
  emit (Call_NewAuthorization init (reg_ID currReg));;
  match NewAuthorization_RA (RA wfe) init (reg_ID currReg) with
  | inr err =>
      AddError ("unable to create new authz: " ++ emsg err)%string;;
      sendError wfe "Error creating new authz" (DetailError err)
                (statusCodeFromError (DetailError err))
  | inl authz =>
  setExtra "AuthzID" (LogString (authz_ID authz));;
  (* Make a URL for this authz, then blow away the ID and RegID before
     serializing *)
  let authzURL := (AuthzBase wfe ++ authz_ID authz)%string in
  let authz := prepAuthorizationForDisplay wfe authz in
  match json_Marshal (lib wfe) (BodyAuthorization authz) with
  | Some err =>
      (* StatusInternalServerError because we generated the authz, it should
         be OK *)
      sendError wfe "Error marshaling authz" (DetailError err) StatusInternalServerError
  | None =>
  Header_Add "Location" authzURL;;
  Header_Add "Link" (link (NewCert wfe) "next");;
  Header_Set "Content-Type" "application/json";;
  WriteHeader StatusCreated;;
  Write (BodyAuthorization authz)
  end end end end.

(** RevokeCertificate is used by clients to request the revocation of a cert. *)
Definition RevokeCertificate (wfe : WebFrontEndImpl) (request : Request) : M unit :=
  (* We don't ask verifyPOST to verify there is a correponding registration,
     because anyone with the right private key can revoke a certificate. *)
  r <- verifyPOST wfe request false ResourceRevokeCert;;
  let '(body, requestKey, registration, err) := r in
  match err with
  | Some err =>
      (* verifyPOST handles its own setting of logEvent.Errors *)
      sendError wfe malformedJWS (DetailError err) (statusCodeFromError (DetailError err))
  | None =>
  match json_Unmarshal_RevokeRequest (lib wfe) body with
  | inr err =>
      AddError (fmt_Sprintf (lib wfe)
                  ("Couldn't unmarshal in revoke request " ++ string_of_list_byte body))%string;;
      sendError wfe "Unable to read/verify body" (DetailError err) StatusBadRequest
  | inl certificateDER =>
  match x509_ParseCertificate (lib wfe) certificateDER with
  | inr err =>
      AddError ("unable to parse revoke certificate DER: " ++ emsg err)%string;;
      sendError wfe "Unable to read/verify body" (DetailError err) StatusBadRequest
  | inl providedCert =>
  let serial := core_SerialToString (lib wfe) (SerialNumber providedCert) in
  setExtra "ProvidedCertificateSerial" (LogString serial);;
  emit (Call_GetCertificate serial);;
  match GetCertificate (SA wfe) serial with
  | inr err => sendError wfe "No such certificate" (DetailError err) StatusNotFound
  | inl cert =>
  if negb (bytes_Equal (cert_DER cert) certificateDER) then
    sendError wfe "No such certificate" DetailNil StatusNotFound
  else
  match x509_ParseCertificate (lib wfe) (cert_DER cert) with
  | inr err =>
      (* InternalServerError because this is a failure to decode from our DB. *)
      sendError wfe "Invalid certificate" (DetailError err) StatusInternalServerError
  | inl parsedCertificate =>
  setExtra "RetrievedCertificateSerial"
           (LogString (core_SerialToString (lib wfe) (SerialNumber parsedCertificate)));;
  setExtra "RetrievedCertificateDNSNames" (LogStrings (DNSNames parsedCertificate));;
  emit (Call_GetCertificateStatus serial);;
  match GetCertificateStatus (SA wfe) serial with
  | inr err =>
      AddError ("unable to get certificate status: " ++ emsg err)%string;;
      sendError wfe "Certificate status not yet available" (DetailError err) StatusNotFound
  | inl certStatus =>
  setExtra "CertificateStatus" (LogStatus (cs_Status certStatus));;
  match cs_Status certStatus with
  | OCSPStatusRevoked =>
      AddError ("Certificate already revoked: " ++ fmt_sharp_v (lib wfe) serial)%string;;
      sendError wfe "Certificate already revoked" (DetailString EmptyString) StatusConflict
  | OCSPStatusGood =>
  (* TODO: Implement method of revocation by authorizations on account. *)
  if negb (core_KeyDigestEquals (lib wfe) requestKey (x509_PublicKey parsedCertificate)
           || (reg_ID registration =? cert_RegistrationID cert)) then
    sendError wfe
      "Revocation request must be signed by private key of cert to be revoked, or by the account key of the account that issued it."
      (DetailKey requestKey)
      StatusForbidden
  else
  (* Use revocation code 0, meaning "unspecified" *)
  emit (Call_RevokeCertificateWithReg parsedCertificate 0 (reg_ID registration));;
  match RevokeCertificateWithReg (RA wfe) parsedCertificate 0 (reg_ID registration) with
  | Some err =>
      AddError ("failed to revoke certificate: " ++ emsg err)%string;;
      sendError wfe "Failed to revoke certificate" (DetailError err)
                (statusCodeFromError (DetailError err))
  | None =>
      emit (LogDebug ("Revoked " ++ serial)%string);;
      WriteHeader StatusOK
  end end end end end end end end.

(** NewCertificate is used by clients to request the issuance of a cert for
    an authorized identifier. *)
Definition NewCertificate (wfe : WebFrontEndImpl) (request : Request) : M unit :=
  r <- verifyPOST wfe request true ResourceNewCert;;
  let '(body, _, reg, err) := r in
  match err with
  | Some err =>
      (* verifyPOST handles its own setting of logEvent.Errors *)
      sendVerifyError wfe err (statusCodeFromError (DetailError err))
  | None =>
  if String.eqb (reg_Agreement reg) EmptyString then
    sendError wfe "Must agree to subscriber agreement before any further actions"
              DetailNil StatusForbidden
  else
  match json_Unmarshal_CertificateRequest (lib wfe) body with
  | inr err =>
      AddError ("unable to JSON unmarshal CertificateRequest: " ++ emsg err)%string;;
      sendError wfe "Error unmarshaling certificate request" (DetailError err) StatusBadRequest
  | inl certificateRequest =>
  emit (LogAudit "Certificate request");;
  (* Check that the key in the CSR is good. *)
  emit (Call_GoodKey (Some (csr_PublicKey certificateRequest)));;
  match core_GoodKey (lib wfe) (Some (csr_PublicKey certificateRequest)) with
  | Some err =>
      AddError ("CSR public key failed GoodKey: " ++ emsg err)%string;;
      sendError wfe "Invalid key in certificate request" (DetailError err) StatusBadRequest
  | None =>
  setExtra "CSRDNSNames" (LogStrings (csr_DNSNames certificateRequest));;
  (* Create new certificate and return *)
  emit (Call_NewCertificate certificateRequest (reg_ID reg));;
  match NewCertificate_RA (RA wfe) certificateRequest (reg_ID reg) with
  | inr err =>
      AddError ("unable to create new cert: " ++ emsg err)%string;;
      sendError wfe "Error creating new cert" (DetailError err)
                (statusCodeFromError (DetailError err))
  | inl cert =>
  (* Make a URL for this certificate. *)
  match x509_ParseCertificate (lib wfe) (cert_DER cert) with
  | inr err =>
      AddError ("unable to parse certificate: " ++ emsg err)%string;;
      sendError wfe "Error creating new cert" (DetailError err) StatusBadRequest
  | inl parsedCertificate =>
  let serial := SerialNumber parsedCertificate in
  let certURL := (CertBase wfe ++ core_SerialToString (lib wfe) serial)%string in
  Header_Add "Location" certURL;;
  Header_Add "Link" (link (BaseURL wfe ++ IssuerPath) "up");;
  Header_Set "Content-Type" "application/pkix-cert";;
  WriteHeader StatusCreated;;
  Write (BodyDER (cert_DER cert))
  end end end end end.

Definition getChallenge (wfe : WebFrontEndImpl) (request : Request)
    (authz : Authorization) (challenge : Challenge) : M unit :=
  let challenge := prepChallengeForDisplay wfe authz challenge in
  match json_Marshal (lib wfe) (BodyChallenge challenge) with
  | Some err =>
      (* InternalServerError because this is a failure to decode data passed
         in by the caller, which got it from the DB. *)
      AddError ("unable to marshal challenge: " ++ emsg err)%string;;
      sendError wfe "Failed to marshal challenge" (DetailError err) StatusInternalServerError
  | None =>
  let authzURL := (AuthzBase wfe ++ authz_ID authz)%string in
  Header_Add "Location" (chal_URI challenge);;
  Header_Set "Content-Type" "application/json";;
  Header_Add "Link" (link authzURL "up");;
  WriteHeader StatusAccepted;;
  Write (BodyChallenge challenge)
  end.

Definition postChallenge (wfe : WebFrontEndImpl) (request : Request)
    (authz : Authorization) (challengeIndex : Z) : M unit :=
  r <- verifyPOST wfe request true ResourceChallenge;;
  let '(body, _, currReg, err) := r in
  match err with
  | Some err =>
      (* verifyPOST handles its own setting of logEvent.Errors *)
      sendVerifyError wfe err StatusBadRequest
  | None =>
  if String.eqb (reg_Agreement currReg) EmptyString then
    sendError wfe
      "Registration didn't agree to subscriber agreement before any further actions"
      DetailNil StatusForbidden
  else
  (* Check that the registration ID matching the key used matches the
     registration ID on the authz object *)
  if negb (reg_ID currReg =? authz_RegistrationID authz) then
    AddError ("User registration id: " ++ fmt_d (reg_ID currReg)
              ++ " != Authorization registration id: "
              ++ fmt_d (authz_RegistrationID authz))%string;;
    sendError wfe "User registration ID doesn't match registration ID in authorization"
              (DetailString EmptyString) StatusForbidden
  else
  match json_Unmarshal_Challenge (lib wfe) body with
  | inr err =>
      AddError ("error JSON unmarshalling challenge response: " ++ emsg err)%string;;
      sendError wfe "Error unmarshaling challenge response" (DetailError err) StatusBadRequest
  | inl challengeUpdate =>
  (* Ask the RA to update this authorization *)
  emit (Call_UpdateAuthorization authz challengeIndex challengeUpdate);;
  match UpdateAuthorization (RA wfe) authz challengeIndex challengeUpdate with
  | inr err =>
      AddError ("unable to update challenge: " ++ emsg err)%string;;
      sendError wfe "Unable to update challenge" (DetailError err)
                (statusCodeFromError (DetailError err))
  | inl updatedAuthorization =>
  (* assumption: UpdateAuthorization does not modify order of challenges *)
  challenge <- index (authz_Challenges updatedAuthorization) challengeIndex;;
  let challenge := prepChallengeForDisplay wfe authz challenge in
  match json_Marshal (lib wfe) (BodyChallenge challenge) with
  | Some err =>
      (* StatusInternalServerError because we made the challenges, they
         should be OK *)
      AddError ("failed to marshal challenge: " ++ emsg err)%string;;
      sendError wfe "Failed to marshal challenge" (DetailError err) StatusInternalServerError
  | None =>
  let authzURL := (AuthzBase wfe ++ authz_ID authz)%string in
  Header_Add "Location" (chal_URI challenge);;
  Header_Set "Content-Type" "application/json";;
  Header_Add "Link" (link authzURL "up");;
  WriteHeader StatusAccepted;;
  Write (BodyChallenge challenge)
  end end end end.

(** The rejection of an authorization that is past its expiry, as the
    Challenge and Authorization handlers both write it: the test accepts a
    nil expiry, and the message is then formatted from [*authz.Expires]. *)
Definition isExpired (wfe : WebFrontEndImpl) (authz : Authorization) : bool :=
  match authz_Expires authz with
  | None => true
  | Some expires => expires <? clk_Now wfe
  end.

Definition rejectExpired (wfe : WebFrontEndImpl) (authz : Authorization) : M unit :=
  expires <- deref (authz_Expires authz);;
  let msg := ("Authorization " ++ authz_ID authz ++ " expired in the past ("
              ++ fmt_d expires ++ ")")%string in
  sendError wfe "Expired authorization" (DetailString msg) StatusNotFound.

(** Challenge handles POST requests to challenge URLs.  Such requests are
    clients' responses to the server's challenges. *)
Definition Challenge_handler (wfe : WebFrontEndImpl) (request : Request) : M unit :=
  let notFound :=
    sendError wfe "No such registration" (DetailString (URL_Path request)) StatusNotFound in
  (* Challenge URIs are of the form /acme/challenge/<auth id>/<challenge id>.
     Here we parse out the id components. *)
  if (String.length (URL_Path request) <? String.length ChallengePath)%nat then
    panic "slice bounds out of range"
  else
  let slug := strings_Split_slash (string_drop (String.length ChallengePath) (URL_Path request)) in
  match slug with
  | [authorizationID; challengeIDStr] =>
  match strconv_ParseInt challengeIDStr with
  | None => notFound
  | Some challengeID =>
  setExtra "AuthorizationID" (LogString authorizationID);;
  setExtra "ChallengeID" (LogInt challengeID);;
  emit (Call_GetAuthorization authorizationID);;
  match GetAuthorization (SA wfe) authorizationID with
  | inr _ => notFound
  | inl authz =>
  (* After expiring, challenges are inaccessible *)
  if isExpired wfe authz then rejectExpired wfe authz
  else
  (* Check that the requested challenge exists within the authorization *)
  let challengeIndex := FindChallenge authz challengeID in
  if challengeIndex =? -1 then notFound
  else
  challenge <- index (authz_Challenges authz) challengeIndex;;
  setExtra "ChallengeType" (LogString (chal_Type challenge));;
  setExtra "AuthorizationRegistrationID" (LogInt (authz_RegistrationID authz));;
  setExtra "AuthorizationIdentifier" (LogString (authz_Identifier authz));;
  setExtra "AuthorizationStatus" (LogString (authz_Status authz));;
  setExtra "AuthorizationExpires" (LogTime (authz_Expires authz));;
  if String.eqb (Method request) "GET" || String.eqb (Method request) "HEAD" then
    getChallenge wfe request authz challenge
  else if String.eqb (Method request) "POST" then
    postChallenge wfe request authz challengeIndex
  else ret tt
  end end
  | _ => notFound
  end.

(** Registration is used by a client to submit an update to their
    registration.  (The handler is [Registration] in the source; the record
    of that name is taken by the data model.) *)
Definition Registration_handler (wfe : WebFrontEndImpl) (request : Request) : M unit :=
  r <- verifyPOST wfe request true ResourceRegistration;;
  let '(body, _, currReg, err) := r in
  match err with
  | Some err =>
      (* verifyPOST handles its own setting of logEvent.Errors *)
      sendVerifyError wfe err (statusCodeFromError (DetailError err))
  | None =>
  (* Requests to this handler should have a path that leads to a known
     registration *)
  let idStr := parseIDFromPath (URL_Path request) in
  match strconv_ParseInt idStr with
  | None =>
      AddError ("registration ID must be an integer, was "
                ++ fmt_sharp_v (lib wfe) idStr)%string;;
      sendError wfe "Registration ID must be an integer"
                (DetailError (mkError OtherError "strconv.ParseInt")) StatusBadRequest
  | Some id =>
  if id <=? 0 then
    AddError ("Registration ID must be a positive non-zero integer, was " ++ fmt_d id)%string;;
    sendError wfe "Registration ID must be a positive non-zero integer"
              (DetailInt id) StatusBadRequest
  else if negb (id =? reg_ID currReg) then
    AddError ("Request signing key did not match registration key: "
              ++ fmt_d id ++ " != " ++ fmt_d (reg_ID currReg))%string;;
    sendError wfe "Request signing key did not match registration key"
              (DetailString EmptyString) StatusForbidden
  else
  match json_Unmarshal_Registration (lib wfe) body with
  | inr err =>
      AddError ("unable to JSON parse registration: " ++ emsg err)%string;;
      sendError wfe "Error unmarshaling registration" (DetailError err) StatusBadRequest
  | inl update =>
  if (0 <? String.length (reg_Agreement update))%nat
     && negb (String.eqb (reg_Agreement update) (SubscriberAgreementURL wfe)) then
    let msg := ("Provided agreement URL [" ++ reg_Agreement update
                ++ "] does not match current agreement URL ["
                ++ SubscriberAgreementURL wfe ++ "]")%string in
    AddError (fmt_Sprintf (lib wfe) msg);;
    sendError wfe msg DetailNil StatusBadRequest
  else
  (* Registration objects contain a JWK object, which must be non-nil. We
     know the key of the updated registration object is going to be the same
     as the key of the current one, so we set it here. *)
  let update := mkRegistration (reg_ID update) (reg_Key currReg) (reg_Contact update)
                               (reg_Agreement update) (reg_InitialIP update) in
  (* Ask the RA to update this authorization. *)
  emit (Call_UpdateRegistration currReg update);;
  match UpdateRegistration (RA wfe) currReg update with
  | inr err =>
      AddError ("unable to update registration: " ++ emsg err)%string;;
      sendError wfe "Unable to update registration" (DetailError err)
                (statusCodeFromError (DetailError err))
  | inl updatedReg =>
  match json_Marshal (lib wfe) (BodyRegistration updatedReg) with
  | Some err =>
      (* StatusInternalServerError because we just generated the reg, it
         should be OK *)
      AddError ("unable to marshal updated registration: " ++ emsg err)%string;;
      sendError wfe "Failed to marshal registration" (DetailError err)
                StatusInternalServerError
  | None =>
  Header_Set "Content-Type" "application/json";;
  Header_Add "Link" (link (NewAuthz wfe) "next");;
  (if (0 <? String.length (SubscriberAgreementURL wfe))%nat then
     Header_Add "Link" (link (SubscriberAgreementURL wfe) "terms-of-service")
   else ret tt);;
  WriteHeader StatusAccepted;;
  Write (BodyRegistration updatedReg)
  end end end end end.

(** Authorization is used by clients to submit an update to one of their
    authorizations.  (The handler is [Authorization] in the source.) *)
Definition Authorization_handler (wfe : WebFrontEndImpl) (request : Request) : M unit :=
  (* Requests to this handler should have a path that leads to a known authz *)
  let id := parseIDFromPath (URL_Path request) in
  emit (Call_GetAuthorization id);;
  match GetAuthorization (SA wfe) id with
  | inr err =>
      AddError ("No such authorization at id " ++ id)%string;;
      sendError wfe "Unable to find authorization" (DetailError err) StatusNotFound
  | inl authz =>
  setExtra "AuthorizationID" (LogString (authz_ID authz));;
  setExtra "AuthorizationRegistrationID" (LogInt (authz_RegistrationID authz));;
  setExtra "AuthorizationIdentifier" (LogString (authz_Identifier authz));;
  setExtra "AuthorizationStatus" (LogString (authz_Status authz));;
  setExtra "AuthorizationExpires" (LogTime (authz_Expires authz));;
  (* After expiring, authorizations are inaccessible *)
  if isExpired wfe authz then rejectExpired wfe authz
  else
  let authz := prepAuthorizationForDisplay wfe authz in
  match json_Marshal (lib wfe) (BodyAuthorization authz) with
  | Some err =>
      (* InternalServerError because this is a failure to decode from our DB. *)
      AddError ("Failed to JSON marshal authz: " ++ emsg err)%string;;
      sendError wfe "Failed to JSON marshal authz" (DetailError err) StatusInternalServerError
  | None =>
  Header_Add "Link" (link (NewCert wfe) "next");;
  Header_Set "Content-Type" "application/json";;
  WriteHeader StatusOK;;
  Write (BodyAuthorization authz)
  end end.

(** A handler run on a fresh response and log event, with the given nonces
    issued. *)
Definition run {A} (m : M A) (nonces : list string) : Outcome A * State :=
  m (initState nonces).

(** ** The certificate handler and the generic wrapper *)

(** [strings.HasPrefix(s, p)] *)
Fixpoint strings_HasPrefix (s p : string) : bool :=
  match p, s with
  | EmptyString, _ => true
  | String c p', String d s' => Ascii.eqb c d && strings_HasPrefix s' p'
  | String _ _, EmptyString => false
  end.

(** [strings.Join(l, ", ")] *)
Fixpoint strings_Join_comma (l : list string) : string :=
  match l with
  | [] => EmptyString
  | [x] => x
  | x :: rest => (x ++ ", " ++ strings_Join_comma rest)%string
  end.

Definition addNoCacheHeader : M unit :=
  Header_Add "Cache-Control" "public, max-age=0, no-cache".

(** [addCacheHeader]; [age] is the text that the verb [%.f] prints for the
    number of seconds (a float in the source). *)
Definition addCacheHeader (age : string) : M unit :=
  Header_Add "Cache-Control" ("public, max-age=" ++ age)%string.

(** Certificate is used by clients to request a copy of their current
    certificate.  [certCacheAge] is the text of
    [wfe.CertCacheDuration.Seconds()] under [%.f]. *)
Definition Certificate_handler (wfe : WebFrontEndImpl) (certCacheAge : string)
    (request : Request) : M unit :=
  let path := URL_Path request in
  (* Certificate paths consist of the CertBase path, plus exactly sixteen hex
     digits. *)
  if negb (strings_HasPrefix path CertPath) then
    AddError ("this request path should not have gotten to Certificate: " ++ path)%string;;
    sendError wfe "Certificate not found" (DetailString path) StatusNotFound;;
    addNoCacheHeader
  else
  let serial := string_drop (String.length CertPath) path in
  if negb (core_ValidSerial (lib wfe) serial) then
    AddError ("certificate serial provided was not valid: " ++ serial)%string;;
    sendError wfe "Certificate not found" (DetailString serial) StatusNotFound;;
    addNoCacheHeader
  else
  setExtra "RequestedSerial" (LogString serial);;
  emit (Call_GetCertificate serial);;
  match GetCertificate (SA wfe) serial with
  | inr err =>
      AddError ("unable to get certificate by serial id " ++ serial ++ ": " ++ emsg err)%string;;
      if strings_HasPrefix (emsg err) "gorp: multiple rows returned" then
        sendError wfe "Multiple certificates with same short serial" (DetailError err)
                  StatusConflict
      else
        addNoCacheHeader;;
        sendError wfe "Certificate not found" (DetailError err) StatusNotFound
  | inl cert =>
  addCacheHeader certCacheAge;;
  (* TODO Content negotiation *)
  Header_Set "Content-Type" "application/pkix-cert";;
  Header_Add "Link" (link IssuerPath "up");;
  WriteHeader StatusOK;;
  Write (BodyDER (cert_DER cert))
  end.

(** setCORSHeaders() tells the client that CORS is acceptable for this
    request.  If allowMethods is empty the request is assumed to be a CORS
    actual request and no Access-Control-Allow-Methods header will be sent.
    [allowOrigins] is the field [wfe.AllowOrigins]; [matchOrigin] is the loop
    over it, which stops at the first entry that is "*" or the origin. *)
Fixpoint matchOrigin (allowOrigins : list string) (reqOrigin : string) : M bool :=
  match allowOrigins with
  | [] => ret false
  | ao :: rest =>
      if String.eqb ao "*" then
        Header_Set "Access-Control-Allow-Origin" "*";;
        ret true
      else if String.eqb ao reqOrigin then
        Header_Set "Vary" "Origin";;
        Header_Set "Access-Control-Allow-Origin" ao;;
        ret true
      else matchOrigin rest reqOrigin
  end.

Definition setCORSHeaders (allowOrigins : list string) (request : Request)
    (allowMethods : string) : M unit :=
  let reqOrigin := Header_Get (req_Header request) "Origin" in
  if String.eqb reqOrigin EmptyString then
    (* This is not a CORS request. *)
    ret tt
  else
  (* Allow CORS if the current origin (or "*") is listed as an allowed origin
     in config.  Otherwise, disallow by returning without setting any CORS
     headers. *)
  allow <- matchOrigin allowOrigins reqOrigin;;
  if negb allow then ret tt
  else
  (if negb (String.eqb allowMethods EmptyString) then
     (* For an OPTIONS request: allow all methods handled at this URL. *)
     Header_Set "Access-Control-Allow-Methods" allowMethods
   else ret tt);;
  Header_Set "Access-Control-Expose-Headers" "Link, Replay-Nonce";;
  Header_Set "Access-Control-Max-Age" "86400".

(** [methodsMap[m]] for the map built from the list of methods. *)
Definition methodAllowed (methods : list string) (m : string) : bool :=
  existsb (String.eqb m) methods.

(** Options responds to an HTTP OPTIONS request. *)
Definition Options (allowOrigins : list string) (request : Request)
    (methodsStr : string) (methods : list string) : M unit :=
  (* Every OPTIONS request gets an Allow header with a list of supported
     methods. *)
  Header_Set "Allow" methodsStr;;
  (* CORS preflight requests get additional headers. *)
  let reqMethod := Header_Get (req_Header request) "Access-Control-Request-Method" in
  let reqMethod := if String.eqb reqMethod EmptyString then "GET"%string else reqMethod in
  if methodAllowed methods reqMethod then
    setCORSHeaders allowOrigins request methodsStr
  else ret tt.

(** The methods a route accepts: HEAD is allowed for any resource that
    allows GET. *)
Definition routeMethods (methods : list string) : list string :=
  if methodAllowed methods "GET" && negb (methodAllowed methods "HEAD")
  then methods ++ ["HEAD"%string]
  else methods.

(** Modelled from the spec: [nonceService.Nonce()] belongs to package core;
    the spec gives it as the issue of a fresh single-use token, which may
    fail.  [fresh] is the token it draws, or its error. *)
Definition nonceService_Nonce (fresh : string + error) : M (string + error) :=
  fun s =>
    match fresh with
    | inl nonce =>
        (Done (inl nonce),
         mkState (nonceService s ++ [nonce]) (response s) (logEvent s) (calls s))
    | inr err => (Done (inr err), s)
    end.

(** [BodylessResponseWriter] wraps http.ResponseWriter, discarding anything
    written to the body: what the handler writes to the body is dropped, the
    headers and the status it sets are kept.  The status kept is the one the
    handler's run leaves, which is what the client receives from a handler
    that writes its status before its body or writes no status at all (the
    server then sends 200); the properties below use the wrapper's body
    only, and its status only after [sendError], which writes the status
    first. *)
Definition bodyless {A} (h : M A) : M A :=
  fun s =>
    let r := h s in
    (fst r,
     mkState (nonceService (snd r))
             (mkResponse (resp_Header (response (snd r)))
                         (resp_Code (response (snd r)))
                         (resp_Body (response s)))
             (logEvent (snd r)) (calls (snd r))).

(** The handler that [HandleFunc] registers for a route: the wrapper around
    the handler [h] of the route, for the listed methods. *)
Definition HandleFunc (wfe : WebFrontEndImpl) (allowOrigins : list string)
    (fresh : string + error) (h : Request -> M unit) (methods : list string)
    (request : Request) : M unit :=
  let methods := routeMethods methods in
  let methodsStr := strings_Join_comma methods in
  (* We do not propagate errors here, because (1) they should be transient,
     and (2) they fail closed. *)
  n <- nonceService_Nonce fresh;;
  (match n with
   | inl nonce => Header_Set "Replay-Nonce" nonce
   | inr _ => ret tt
   end);;
  if String.eqb (Method request) "OPTIONS" then
    Options allowOrigins request methodsStr methods
  else
  (* Whether or not we're sending a 405 error, we should comply with HTTP
     spec by not sending a body. *)
  let writer := fun (m : M unit) =>
    if String.eqb (Method request) "HEAD" then bodyless m else m in
  if negb (methodAllowed methods (Method request)) then
    Header_Set "Allow" methodsStr;;
    writer (sendError wfe "Method not allowed" (DetailString (Method request))
                      StatusMethodNotAllowed)
  else
    setCORSHeaders allowOrigins request EmptyString;;
    (* Call the wrapped handler. *)
    writer (h request).

(** ** A small deployment

    One concrete storage, authority and library, on which the general
    statements below are instantiated.  A request body is read as: the
    number of signatures, a key selector, a nonce selector, and then the
    payload; the first payload byte selects the resource. *)

Module Fixture.

Definition key1 : JsonWebKey := mkJWK (Some (RSAPublicKey 3233 17)) "k1" "RS256".
Definition key2 : JsonWebKey := mkJWK (Some (RSAPublicKey 2773 17)) "k2" "RS256".

Definition PublicKey_eqb (a b : PublicKey) : bool :=
  match a, b with
  | RSAPublicKey n e, RSAPublicKey n' e' => (n =? n') && (e =? e')
  | ECDSAPublicKey c x y, ECDSAPublicKey c' x' y' =>
      String.eqb c c' && (x =? x') && (y =? y')
  | _, _ => false
  end.

Definition JsonWebKey_eqb (a b : JsonWebKey) : bool :=
  match Key a, Key b with
  | Some p, Some q => PublicKey_eqb p q
  | None, None => true
  | _, _ => false
  end && String.eqb (KeyID a) (KeyID b).

Definition agreementURL : string := "http://example.invalid/terms".

Definition reg1 : Registration :=
  mkRegistration 1 key1 ["mailto:person@example.invalid"%string] agreementURL None.

Definition noReg : Registration := mkRegistration 0 zeroJsonWebKey [] EmptyString None.

Definition chalA : Challenge := mkChallenge 23 "dns" "pending" EmptyString "token" (Some key1).

Definition authzValid : Authorization :=
  mkAuthorization "valid" "example.invalid" 1 "pending" (Some 2000) [chalA].

Definition authzNoExpiry : Authorization :=
  mkAuthorization "noexp" "example.invalid" 1 "pending" None [chalA].

(** Two stored certificates of account 1: serial 10 with the public key of
    [key1], serial 11 with the public key of [key2]. *)
Definition storedDER : bytes := [x0a; x01].
Definition otherDER : bytes := [x0b; x02].

Definition sa : StorageGetter :=
  mkSA
    (fun k => if JsonWebKey_eqb k key1 then (reg1, None)
              else (noReg, Some (mkError NoSuchRegistrationError "reg not found")))
    (fun id => if String.eqb id "valid" then inl authzValid
               else if String.eqb id "noexp" then inl authzNoExpiry
               else inr (mkError NotFoundError "no such authorization"))
    (fun serial => if String.eqb serial "10" then inl (mkCertificate 1 storedDER)
                   else if String.eqb serial "11" then inl (mkCertificate 1 otherDER)
                   else inr (mkError NotFoundError "no such certificate"))
    (fun _ => inl (mkCertificateStatus OCSPStatusGood)).

Definition ra : RegistrationAuthority :=
  mkRA
    (fun init => inl (mkRegistration 7 (reg_Key init) (reg_Contact init)
                                     (reg_Agreement init) (reg_InitialIP init)))
    (fun init regID => inl (mkAuthorization "fresh" (authz_Identifier init) regID
                                            "pending" (Some 3000) [chalA]))
    (fun csr regID => inl (mkCertificate regID storedDER))
    (fun base update => inl (mkRegistration (reg_ID base) (reg_Key base)
                                            (reg_Contact update) (reg_Agreement update)
                                            (reg_InitialIP base)))
    (fun authz index update => inl authz)
    (fun cert code regID => None).

(** The registered key as a client may submit it, with another algorithm
    name; the storage finds the registration of [key1] for it. *)
Definition key1Submitted : JsonWebKey := mkJWK (Some (RSAPublicKey 3233 17)) "k1" "none".

Definition selectKey (b : byte) : option JsonWebKey :=
  match b with
  | x00 => None
  | x01 => Some key1
  | x03 => Some key1Submitted
  | _ => Some key2
  end.

Definition selectNonce (b : byte) : string :=
  match b with
  | x00 => EmptyString
  | x01 => "nonce1"
  | _ => "stale"
  end.

Definition selectResource (payload : bytes) : string + error :=
  match payload with
  | x00 :: _ => inl EmptyString
  | x01 :: _ => inl ResourceNewReg
  | x02 :: _ => inl ResourceNewAuthz
  | x03 :: _ => inl ResourceNewCert
  | x04 :: _ => inl ResourceRevokeCert
  | x05 :: _ => inl ResourceRegistration
  | x06 :: _ => inl ResourceChallenge
  | _ => inr (mkError OtherError "invalid character")
  end.

(** The host of a host:port address: the text before its last colon. *)
Fixpoint beforeLastColon (s : string) : option string :=
  match s with
  | EmptyString => None
  | String c s' =>
      match beforeLastColon s' with
      | Some host => Some (String c host)
      | None => if Ascii.eqb c (ascii_of_nat 58) then Some EmptyString else None
      end
  end.

Definition library : Library :=
  mkLibrary
    (fun body =>
       match body with
       | n :: k :: c :: payload =>
           inl (mkJWS (repeat (mkSignature (mkJoseHeader (selectKey k) (selectNonce c) "RS256"))
                              (Byte.to_nat n))
                      payload)
       | _ => inr (mkError OtherError "square/go-jose: compact JWS format must have three parts")
       end)
    (fun jws key =>
       if String.eqb (KeyID key) "k1" || String.eqb (KeyID key) "k2" then inl (jws_raw jws)
       else inr (mkError OtherError "square/go-jose: error in cryptographic primitive"))
    (fun _ _ => (EmptyString, None))
    (fun k => match k with
              | Some (RSAPublicKey n _) =>
                  if n <? 1000 then Some (mkError MalformedRequestError "key too small")
                  else None
              | Some _ => None
              | None => Some (mkError MalformedRequestError "unknown key type")
              end)
    (fun k pub => match k with
                  | Some j => match Key j with
                              | Some p => PublicKey_eqb p pub
                              | None => false
                              end
                  | None => false
                  end)
    fmt_d
    (fun s => (String.length s =? 32)%nat)
    (fun der =>
       match der with
       | [s; k] =>
           inl (mkX509 (Z.of_nat (Byte.to_nat s))
                       (match k with
                        | x01 => RSAPublicKey 3233 17
                        | _ => RSAPublicKey 2773 17
                        end)
                       ["example.invalid"%string])
       | _ => inr (mkError OtherError "asn1: syntax error")
       end)
    selectResource
    (fun _ => inl (mkRegistration 0 key2 [] EmptyString None))
    (fun _ => inl (mkAuthorization EmptyString "example.invalid" 0 EmptyString None []))
    (fun _ => inl (mkChallenge 0 "dns" EmptyString EmptyString EmptyString None))
    (fun _ => inl (mkCertificateRequest [] (RSAPublicKey 3233 17) ["example.invalid"%string]))
    (fun payload => match payload with
                    | _ :: der => inl der
                    | [] => inr (mkError OtherError "unexpected end of JSON input")
                    end)
    (fun _ => None)
    (fun s => if String.eqb s EmptyString then None else Some s)
    (fun hostport => match beforeLastColon hostport with
                     | Some host => inl host
                     | None => inr (mkError OtherError "missing port in address")
                     end)
    (fun d => match d with
              | DetailError e => emsg e
              | DetailString s => s
              | DetailInt z => fmt_d z
              | _ => "%!s(<nil>)"%string
              end)
    (fun format => (format ++ "!(NOVERB)")%string)
    (fun text => String (ascii_of_nat 34) (text ++ String (ascii_of_nat 34) EmptyString)).

Definition wfe : WebFrontEndImpl :=
  mkWFE ra sa library 1000
        "http://localhost"
        "http://localhost/acme/new-reg"
        "http://localhost/acme/reg/"
        "http://localhost/acme/new-authz"
        "http://localhost/acme/authz/"
        "http://localhost/acme/challenge/"
        "http://localhost/acme/new-cert"
        "http://localhost/acme/cert/"
        agreementURL.

Definition post (path : string) (withLength : bool) (body : bytes) : Request :=
  mkRequest "POST" path
            (if withLength then [("Content-Length"%string, "4"%string)] else [])
            (ReadableBody body) "192.0.2.1:4000".

Definition get (path : string) : Request :=
  mkRequest "GET" path [] NoBody "192.0.2.1:4000".

(** One signature by the unregistered [key2], the nonce [nonce1], and a
    payload for the new-registration resource. *)
Definition newRegBody : bytes := [x01; x02; x01; x01].


(** Two signatures. *)
Definition twoSignaturesBody : bytes := [x02; x01; x01; x01].

(** One signature by the registered [key1], the nonce [nonce1], and a payload
    for the new-authorization resource. *)
Definition newAuthzBody : bytes := [x01; x01; x01; x02].

(** A revocation request: one signature by the key selected by [signer],
    the nonce [nonce1], the revoke-cert resource and the certificate. *)
Definition revokeBody (signer : byte) (der : bytes) : bytes :=
  [x01; signer; x01; x04] ++ der.

(** An account update: one signature under the registered key, the nonce
    [nonce1] and a payload for the reg resource.  The JSON library of the
    deployment decodes every registration with the foreign key [key2]. *)
Definition updateBody : bytes := [x01; x03; x01; x05].

End Fixture.

(** ** Predicates of the specification *)

(** A property of the state that a computation keeps. *)
Definition preserves (I : State -> Prop) {A} (m : M A) : Prop :=
  forall s, I s -> I (snd (m s)).

(** A challenge as a client may see it: no internal ID, no account key. *)
Definition cleared (c : Challenge) : Prop :=
  chal_ID c = 0 /\ chal_AccountKey c = None.

(** A response body as a client may see it. *)
Definition displayable (b : ResponseBody) : Prop :=
  match b with
  | BodyChallenge c => cleared c
  | BodyAuthorization a =>
      authz_ID a = EmptyString /\ authz_RegistrationID a = 0
      /\ Forall cleared (authz_Challenges a)
  | _ => True
  end.

Definition bodiesDisplayable (s : State) : Prop :=
  Forall displayable (resp_Body (response s)).

(** The problem document [sendError] builds, and the body it writes: the
    encoded document, or the fixed fallback when the encoder fails. *)
Definition problemFor (wfe : WebFrontEndImpl) (msg : string) (detail : Detail)
    (code : Z) : ProblemDetails :=
  let ptype := fst (classifyCode code) in
  mkProblem ptype
    (if ProblemType_eqb ptype ServerInternalProblem then msg
     else if negb (statusCodeFromError detail =? StatusInternalServerError)
          then (msg ++ " :: " ++ fmt_s (lib wfe) detail)%string
          else msg).

Definition problemDocument (wfe : WebFrontEndImpl) (msg : string) (detail : Detail)
    (code : Z) : ResponseBody :=
  match json_Marshal (lib wfe) (BodyProblem (problemFor wfe msg detail code)) with
  | Some _ => BodyProblemFallback
  | None => BodyProblem (problemFor wfe msg detail code)
  end.

(** The calls a run made to the storage and to the registration authority. *)
Definition backendCalls (s : State) : list Event := filter isBackendCall (calls s).

(** The error [verifyPOST] returns for a POST without Content-Length. *)
Definition lengthRequired : error :=
  mkError LengthRequiredError "Content-Length header is required for POST.".

(** The answer a handler gave: the status written and the bodies written. *)
Definition answer {A} (r : Outcome A * State) : option Z * list ResponseBody :=
  (resp_Code (response (snd r)), resp_Body (response (snd r))).

(** Calls to the registration authority. *)
Definition isAuthorityCall (e : Event) : bool :=
  match e with
  | Call_NewRegistration _ | Call_NewAuthorization _ _
  | Call_NewCertificate _ _ | Call_UpdateRegistration _ _
  | Call_UpdateAuthorization _ _ _
  | Call_RevokeCertificateWithReg _ _ _ => true
  | _ => false
  end.

Definition authorityCalls (s : State) : list Event := filter isAuthorityCall (calls s).

(** Classes of events in the trace of [verifyPOST]. *)
Definition isVerify (e : Event) : bool :=
  match e with Call_Verify _ _ => true | _ => false end.

Definition isVerifyOk (e : Event) : bool :=
  match e with Call_Verify _ true => true | _ => false end.

Definition isVerifyFailed (e : Event) : bool :=
  match e with Call_Verify _ false => true | _ => false end.

Definition isNonceStep (e : Event) : bool :=
  match e with NonceExtract _ | Call_NonceValid _ _ => true | _ => false end.

Definition isNonceOk (e : Event) : bool :=
  match e with Call_NonceValid _ true => true | _ => false end.

Definition isResourceCheck (e : Event) : bool :=
  match e with ResourceCheck _ => true | _ => false end.

Definition isGoodKey (e : Event) : bool :=
  match e with Call_GoodKey _ => true | _ => false end.

(** Every event of class [Q] in the trace comes after an event of class [P]. *)
Definition allPrecededBy (P Q : Event -> bool) (tr : list Event) : Prop :=
  forall pre e post,
    tr = pre ++ e :: post -> Q e = true -> exists e', In e' pre /\ P e' = true.

(** The same, decided by one pass over the trace; [seen] tells whether an
    event of class [P] has occurred. *)
Fixpoint precededBy (P Q : Event -> bool) (seen : bool) (tr : list Event) : bool :=
  match tr with
  | [] => true
  | e :: tr' => (if Q e then seen else true) && precededBy P Q (seen || P e) tr'
  end.

(** The request passes the steps of [verifyPOST] before the lookup: it has
    a Content-Length header and a readable body that parses as an envelope
    with the one signature [sig0], whose header carries [submittedKey]. *)
Definition reachesLookup (wfe : WebFrontEndImpl) (request : Request)
    (jws : JsonWebSignature) (sig0 : Signature) (submittedKey : JsonWebKey) : Prop :=
  exists cl body,
    Header_lookup (req_Header request) "Content-Length" = Some cl
    /\ Body request = ReadableBody body
    /\ jose_ParseSigned (lib wfe) body = inl jws
    /\ Signatures jws = [sig0]
    /\ hdr_JsonWebKey (Header sig0) = Some submittedKey.

(** The lookup of [submittedKey] resolves the verification key [key] and
    the registration [reg]: the stored key of the registration found, or the
    submitted key when there is no such registration, regCheck is false and
    the key-quality policy accepts it. *)
Definition resolvesKey (wfe : WebFrontEndImpl) (regCheck : bool)
    (submittedKey key : JsonWebKey) (reg : Registration) : Prop :=
  reg = fst (GetRegistrationByKey (SA wfe) submittedKey)
  /\ ((snd (GetRegistrationByKey (SA wfe) submittedKey) = None /\ key = reg_Key reg)
      \/ (exists e,
             snd (GetRegistrationByKey (SA wfe) submittedKey) = Some e
             /\ isNoSuchRegistration e = true
             /\ regCheck = false
             /\ core_GoodKey (lib wfe) (Key submittedKey) = None
             /\ key = submittedKey)).


(** The error a result of [verifyPOST] carries. *)
Definition errorOf (r : Outcome VerifyResult) : option ErrorType :=
  match r with
  | Done (_, _, _, Some e) => Some (etype e)
  | _ => None
  end.


(** ** Predicates for paths, headers and the wrapper *)

(** [strings.Join(l, "/")], the inverse of [strings.Split(s, "/")]. *)
Fixpoint strings_Join_slash (l : list string) : string :=
  match l with
  | [] => EmptyString
  | [x] => x
  | x :: rest => (x ++ String slash (strings_Join_slash rest))%string
  end.

(** The number of occurrences of [c] in [s]. *)
Fixpoint countChar (c : ascii) (s : string) : nat :=
  match s with
  | EmptyString => O
  | String d s' => ((if Ascii.eqb d c then 1 else 0) + countChar c s')%nat
  end.

(** What stays of a state when only headers are set. *)
Definition sameButHeaders (s s' : State) : Prop :=
  nonceService s' = nonceService s
  /\ resp_Code (response s') = resp_Code (response s)
  /\ resp_Body (response s') = resp_Body (response s)
  /\ logEvent s' = logEvent s
  /\ calls s' = calls s.

(** The nonces the wrapper issues for one request. *)
Definition issued (fresh : string + error) : list string :=
  match fresh with inl nonce => [nonce] | inr _ => [] end.

(** The state in which the wrapper of [HandleFunc] leaves the response
    before it looks at the method: the nonce is issued and announced in the
    Replay-Nonce header. *)
Definition withNonce (fresh : string + error) (s : State) : State :=
  match fresh with
  | inl nonce =>
      snd (Header_Set "Replay-Nonce" nonce
             (mkState (nonceService s ++ [nonce]) (response s) (logEvent s) (calls s)))
  | inr _ => s
  end.

(** * Properties *)

(** ** Reasoning about handlers *)

Lemma preserves_ret (I : State -> Prop) {A} (a : A) : preserves I (ret a).
Proof. intros s Hs. exact Hs. Qed.

Lemma preserves_panic (I : State -> Prop) {A} (r : string) : preserves I (@panic A r).
Proof. intros s Hs. exact Hs. Qed.

Lemma preserves_bind (I : State -> Prop) {A B} (m : M A) (k : A -> M B) :
  preserves I m -> (forall a, preserves I (k a)) -> preserves I (bind m k).
Proof.
  intros Hm Hk s Hs. unfold bind.
  specialize (Hm s Hs). destruct (m s) as [[a | r] s']; simpl in *.
  - apply Hk. exact Hm.
  - exact Hm.
Qed.

Lemma preserves_deref (I : State -> Prop) {A} (p : option A) : preserves I (deref p).
Proof. destruct p; [apply preserves_ret | apply preserves_panic]. Qed.

Lemma preserves_index (I : State -> Prop) {A} (l : list A) (i : Z) : preserves I (index l i).
Proof.
  unfold index. destruct (i <? 0); [apply preserves_panic |].
  destruct (nth_error l (Z.to_nat i)); [apply preserves_ret | apply preserves_panic].
Qed.

(** One step through a handler: sequencing, returns, and case analysis on
    whatever the code branches on; [leaf] closes the primitive operations. *)
Ltac preserves_step leaf :=
  lazymatch goal with
  | |- preserves _ (bind _ _) => apply preserves_bind; [ | intro ]
  | |- preserves _ (ret _) => apply preserves_ret
  | |- preserves _ (panic _) => apply preserves_panic
  | |- preserves _ (deref _) => apply preserves_deref
  | |- preserves _ (index _ _) => apply preserves_index
  | |- preserves _ (match ?x with _ => _ end) => destruct x eqn:?
  | |- _ => leaf
  end.

Ltac preserves_go leaf := repeat (preserves_step leaf).

(** *** The bodies written to the client *)

Ltac same_bodies := solve [ intros ? ? ; assumption ].

Lemma displayable_Write (b : ResponseBody) :
  displayable b -> preserves bodiesDisplayable (Write b).
Proof.
  intros Hb s Hs. unfold bodiesDisplayable in *. simpl.
  apply Forall_app. split; [exact Hs | constructor; [exact Hb | constructor]].
Qed.

Lemma displayable_sendError wfe msg detail code :
  preserves bodiesDisplayable (sendError wfe msg detail code).
Proof.
  intros s Hs. destruct s as [ns [hd cd bd] lg cs].
  unfold sendError, bodiesDisplayable in *.
  cbv [bind AddError modifyLogEvent Header_Set WriteHeader Write modifyResponse
       stats_Inc emit ret nonceService response logEvent calls
       resp_Header resp_Code resp_Body] in *.
  destruct (ProblemType_eqb _ _); [ | destruct (negb _) ];
    destruct (json_Marshal _ _); cbn [snd];
    (apply Forall_app; split; [exact Hs | repeat constructor]).
Qed.

Lemma displayable_verifyPOST wfe request regCheck resource :
  preserves bodiesDisplayable (verifyPOST wfe request regCheck resource).
Proof.
  unfold verifyPOST. preserves_go same_bodies.
Qed.

Lemma cleared_prepChallengeForDisplay wfe authz challenge :
  cleared (prepChallengeForDisplay wfe authz challenge).
Proof. split; reflexivity. Qed.

Lemma displayable_prepAuthorizationForDisplay wfe authz :
  displayable (BodyAuthorization (prepAuthorizationForDisplay wfe authz)).
Proof.
  simpl. repeat split.
  apply Forall_forall. intros c Hc. apply in_map_iff in Hc.
  destruct Hc as [c0 [<- _]]. apply cleared_prepChallengeForDisplay.
Qed.

Ltac displayable_leaf :=
  first
    [ same_bodies
    | apply displayable_sendError
    | apply displayable_verifyPOST
    | apply displayable_Write;
      first [ exact I
            | apply cleared_prepChallengeForDisplay
            | apply displayable_prepAuthorizationForDisplay ] ].

Lemma displayable_sendVerifyError wfe err code :
  preserves bodiesDisplayable (sendVerifyError wfe err code).
Proof. apply displayable_sendError. Qed.

Lemma displayable_getChallenge wfe request authz challenge :
  preserves bodiesDisplayable (getChallenge wfe request authz challenge).
Proof. unfold getChallenge. preserves_go displayable_leaf. Qed.

Lemma displayable_postChallenge wfe request authz challengeIndex :
  preserves bodiesDisplayable (postChallenge wfe request authz challengeIndex).
Proof.
  unfold postChallenge.
  preserves_go ltac:(first [ apply displayable_sendVerifyError | displayable_leaf ]).
Qed.

Lemma displayable_rejectExpired wfe authz :
  preserves bodiesDisplayable (rejectExpired wfe authz).
Proof. unfold rejectExpired. preserves_go displayable_leaf. Qed.

Lemma displayable_Challenge wfe request :
  preserves bodiesDisplayable (Challenge_handler wfe request).
Proof.
  unfold Challenge_handler.
  preserves_go ltac:(first [ apply displayable_getChallenge
                           | apply displayable_postChallenge
                           | apply displayable_rejectExpired
                           | displayable_leaf ]).
Qed.

Lemma displayable_NewAuthorization wfe request :
  preserves bodiesDisplayable (NewAuthorization wfe request).
Proof.
  unfold NewAuthorization.
  preserves_go ltac:(first [ apply displayable_sendVerifyError | displayable_leaf ]).
Qed.

Lemma displayable_Authorization wfe request :
  preserves bodiesDisplayable (Authorization_handler wfe request).
Proof.
  unfold Authorization_handler.
  preserves_go ltac:(first [ apply displayable_rejectExpired | displayable_leaf ]).
Qed.

(** C7. Every authorization or challenge body that the new-authorization,
    authorization-read, challenge-read and challenge-update paths write to
    the client has its internal identifiers cleared: a challenge has ID 0 and
    no account key, an authorization has an empty ID, registration ID 0 and
    only such challenges. *)
Theorem C7_bodies_have_internal_fields_cleared :
  forall (wfe : WebFrontEndImpl) (request : Request) (nonces : list string),
    (forall b, In b (resp_Body (response (snd (run (NewAuthorization wfe request) nonces)))) ->
               displayable b)
    /\ (forall b, In b (resp_Body (response (snd (run (Authorization_handler wfe request) nonces)))) ->
                  displayable b)
    /\ (forall b, In b (resp_Body (response (snd (run (Challenge_handler wfe request) nonces)))) ->
                  displayable b)
    /\ (forall authz challenge b,
           In b (resp_Body (response (snd (run (getChallenge wfe request authz challenge) nonces)))) ->
           displayable b)
    /\ (forall authz challengeIndex b,
           In b (resp_Body (response (snd (run (postChallenge wfe request authz challengeIndex) nonces)))) ->
           displayable b).
Proof.
  intros wfe request nonces.
  assert (H0 : bodiesDisplayable (initState nonces)) by constructor.
  repeat split; intros; unfold run in *;
    match goal with
    | H : In ?b (resp_Body (response (snd (?m _)))) |- _ =>
        let P := fresh in
        assert (P : preserves bodiesDisplayable m)
          by first [ apply displayable_NewAuthorization
                   | apply displayable_Authorization
                   | apply displayable_Challenge
                   | apply displayable_getChallenge
                   | apply displayable_postChallenge ];
        specialize (P _ H0); unfold bodiesDisplayable in P;
        rewrite Forall_forall in P; apply P; exact H
    end.
Qed.


(** ** The error classifier *)

Lemma sendError_spec wfe msg detail code s :
  let r := sendError wfe msg detail code s in
  fst r = Done tt
  /\ resp_Code (response (snd r))
     = match resp_Code (response s) with
       | Some c => Some c
       | None => Some (snd (classifyCode code))
       end
  /\ resp_Body (response (snd r))
     = resp_Body (response s) ++ [problemDocument wfe msg detail code]
  /\ backendCalls (snd r) = backendCalls s
  /\ nonceService (snd r) = nonceService s
  /\ authorityCalls (snd r) = authorityCalls s
  /\ exists tr, calls (snd r) = calls s ++ tr.
Proof.
  destruct s as [ns [hd cd bd] lg cs].
  unfold sendError, problemDocument, problemFor, backendCalls, authorityCalls.
  cbv [bind AddError modifyLogEvent Header_Set WriteHeader Write modifyResponse
       stats_Inc emit ret nonceService response logEvent calls
       resp_Header resp_Code resp_Body].
  destruct (ProblemType_eqb _ _); [ | destruct (negb _) ];
    destruct (json_Marshal _ _); cbn [fst snd];
    repeat rewrite filter_app; cbn [filter isBackendCall isAuthorityCall];
    repeat rewrite app_nil_r;
    destruct cd; repeat split; try reflexivity;
    eexists; repeat rewrite <- app_assoc; reflexivity.
Qed.

Lemma string_drop_app (p s : string) :
  string_drop (String.length p) (p ++ s) = s.
Proof. induction p as [ | c p IH]; simpl; [reflexivity | exact IH]. Qed.

Lemma length_app_ge (p s : string) :
  (String.length (p ++ s) <? String.length p)%nat = false.
Proof.
  apply Nat.ltb_ge. induction p as [ | c p IH]; simpl; lia.
Qed.

(** C10. A request to a challenge URL whose path after /acme/challenge/ does
    not split into exactly two slash-separated segments, or whose second
    segment is not a decimal 64-bit integer, is answered 404, and neither
    the storage nor the registration authority is called. *)
Theorem C10_malformed_challenge_path_is_404 :
  forall (wfe : WebFrontEndImpl) (request : Request) (nonces : list string)
         (suffix : string),
    URL_Path request = (ChallengePath ++ suffix)%string ->
    (List.length (strings_Split_slash suffix) <> 2%nat
     \/ exists a b, strings_Split_slash suffix = [a; b] /\ strconv_ParseInt b = None) ->
    fst (run (Challenge_handler wfe request) nonces) = Done tt
    /\ resp_Code (response (snd (run (Challenge_handler wfe request) nonces)))
       = Some StatusNotFound
    /\ backendCalls (snd (run (Challenge_handler wfe request) nonces)) = [].
Proof.
  intros wfe request nonces suffix Hpath Hbad.
  unfold run, Challenge_handler. rewrite Hpath.
  rewrite length_app_ge, string_drop_app.
  pose proof (sendError_spec wfe "No such registration"
                (DetailString (ChallengePath ++ suffix)) StatusNotFound
                (initState nonces)) as (Hdone & Hcode & _ & Hcalls & _ & _ & _).
  assert (Hgoal :
    fst (sendError wfe "No such registration"
           (DetailString (ChallengePath ++ suffix)) StatusNotFound (initState nonces))
      = Done tt
    /\ resp_Code (response (snd (sendError wfe "No such registration"
           (DetailString (ChallengePath ++ suffix)) StatusNotFound (initState nonces))))
       = Some StatusNotFound
    /\ backendCalls (snd (sendError wfe "No such registration"
           (DetailString (ChallengePath ++ suffix)) StatusNotFound (initState nonces)))
       = []).
  { repeat split; [exact Hdone | rewrite Hcode; reflexivity | rewrite Hcalls; reflexivity]. }
  destruct Hbad as [Hlen | (a & b & Hsplit & Hparse)].
  - destruct (strings_Split_slash suffix) as [ | x [ | y [ | z l]]];
      try exact Hgoal.
    exfalso. apply Hlen. reflexivity.
  - rewrite Hsplit, Hparse. exact Hgoal.
Qed.

Lemma C10_witness :
  fst (run (Challenge_handler Fixture.wfe (Fixture.get "/acme/challenge/valid/23/x")) [])
    = Done tt
  /\ resp_Code (response (snd (run (Challenge_handler Fixture.wfe
                                      (Fixture.get "/acme/challenge/valid/23/x")) [])))
     = Some StatusNotFound
  /\ backendCalls (snd (run (Challenge_handler Fixture.wfe
                               (Fixture.get "/acme/challenge/valid/23/x")) [])) = [].
Proof.
  apply (C10_malformed_challenge_path_is_404 Fixture.wfe
           (Fixture.get "/acme/challenge/valid/23/x") [] "valid/23/x").
  - reflexivity.
  - left. vm_compute. discriminate.
Defined.

(** ** Authorizations without an expiry *)

Lemma rejectExpired_nil wfe authz s :
  authz_Expires authz = None ->
  isExpired wfe authz = true
  /\ rejectExpired wfe authz s
     = (Panic "invalid memory address or nil pointer dereference", s).
Proof.
  intros He. unfold isExpired, rejectExpired. rewrite He. split; reflexivity.
Qed.

(** C9 (what the code does).  When the storage returns an authorization
    whose expiry is nil, the Authorization and Challenge handlers take the
    expiry-rejection branch and stop there with a nil pointer dereference:
    the 404 is never written. *)
Theorem C9_nil_expiry_faults :
  forall (wfe : WebFrontEndImpl) (authz : Authorization) (nonces : list string),
    authz_Expires authz = None ->
    (forall request,
        GetAuthorization (SA wfe) (parseIDFromPath (URL_Path request)) = inl authz ->
        fst (run (Authorization_handler wfe request) nonces)
          = Panic "invalid memory address or nil pointer dereference"
        /\ resp_Code (response (snd (run (Authorization_handler wfe request) nonces))) = None)
    /\ (forall request authorizationID challengeIDStr challengeID,
           URL_Path request
             = (ChallengePath ++ authorizationID ++ "/" ++ challengeIDStr)%string ->
           strings_Split_slash (authorizationID ++ "/" ++ challengeIDStr)
             = [authorizationID; challengeIDStr] ->
           strconv_ParseInt challengeIDStr = Some challengeID ->
           GetAuthorization (SA wfe) authorizationID = inl authz ->
           fst (run (Challenge_handler wfe request) nonces)
             = Panic "invalid memory address or nil pointer dereference"
           /\ resp_Code (response (snd (run (Challenge_handler wfe request) nonces))) = None).
Proof.
  intros wfe authz nonces He. split.
  - intros request Hget.
    unfold run, Authorization_handler. cbv [bind emit setExtra modifyLogEvent].
    rewrite Hget.
    destruct (rejectExpired_nil wfe authz (initState nonces) He) as [Hexp _].
    rewrite Hexp. unfold rejectExpired. rewrite He. simpl. split; reflexivity.
  - intros request authorizationID challengeIDStr challengeID Hpath Hsplit Hparse Hget.
    unfold run, Challenge_handler. rewrite Hpath.
    rewrite length_app_ge, string_drop_app, Hsplit, Hparse.
    cbv [bind emit setExtra modifyLogEvent]. rewrite Hget.
    destruct (rejectExpired_nil wfe authz (initState nonces) He) as [Hexp _].
    rewrite Hexp. unfold rejectExpired. rewrite He. simpl. split; reflexivity.
Qed.

Lemma C9_witness :
  fst (run (Authorization_handler Fixture.wfe (Fixture.get "/acme/authz/noexp")) [])
    = Panic "invalid memory address or nil pointer dereference"
  /\ fst (run (Challenge_handler Fixture.wfe (Fixture.get "/acme/challenge/noexp/23")) [])
       = Panic "invalid memory address or nil pointer dereference".
Proof.
  destruct (C9_nil_expiry_faults Fixture.wfe Fixture.authzNoExpiry [] eq_refl)
    as [Hauthz Hchal].
  split.
  - apply (Hauthz (Fixture.get "/acme/authz/noexp")). reflexivity.
  - apply (Hchal (Fixture.get "/acme/challenge/noexp/23") "noexp"%string "23"%string 23);
      reflexivity.
Defined.

(** ** Requests without a Content-Length header *)

Lemma verifyPOST_no_length wfe request regCheck resource s :
  Header_lookup (req_Header request) "Content-Length" = None ->
  exists s',
    verifyPOST wfe request regCheck resource s
      = (Done ([], None, mkRegistration 0 zeroJsonWebKey [] EmptyString None,
               Some lengthRequired), s')
    /\ response s' = response s
    /\ backendCalls s' = backendCalls s.
Proof.
  intros H. unfold verifyPOST. rewrite H.
  eexists. split; [reflexivity | ]. split; [reflexivity | ].
  unfold backendCalls. simpl. rewrite filter_app. simpl. apply app_nil_r.
Qed.

Lemma sendError_answer wfe msg detail code s :
  response s = emptyResponse ->
  answer (sendError wfe msg detail code s)
    = (Some (snd (classifyCode code)), [problemDocument wfe msg detail code]).
Proof.
  intros Hs. unfold answer.
  destruct (sendError_spec wfe msg detail code s) as (_ & Hc & Hb & _ & _ & _ & _).
  rewrite Hc, Hb, Hs. reflexivity.
Qed.

Ltac no_length_answer H :=
  let s' := fresh "s" in
  let Hv := fresh "Hv" in
  let Hr := fresh "Hr" in
  unfold run, bind;
  match goal with
  | |- context [verifyPOST ?w ?r ?c ?res (initState ?n)] =>
      destruct (verifyPOST_no_length w r c res (initState n) H) as (s' & Hv & Hr & _);
      rewrite Hv; try unfold sendVerifyError;
      cbn [isNoSuchRegistration lengthRequired etype];
      rewrite sendError_answer by exact Hr; reflexivity
  end.

(** C8 (as the code has it).  A POST without Content-Length is classified
    LengthRequired, which [statusCodeFromError] maps to 411 and [sendError]
    tags as malformed without changing the status: the new-registration,
    new-authorization, new-certificate, registration and revocation handlers
    answer 411 with the malformed problem type; the challenge-update handler,
    which answers 400 to every failure of verifyPOST other than an unknown
    account, answers 400 with the malformed problem type. *)
Theorem C8_length_required_is_411_malformed :
  forall (wfe : WebFrontEndImpl) (request : Request) (nonces : list string),
    Header_lookup (req_Header request) "Content-Length" = None ->
    let doc := problemDocument wfe malformedJWS (DetailError lengthRequired) in
    statusCodeFromError (DetailError lengthRequired) = StatusLengthRequired
    /\ classifyCode StatusLengthRequired = (MalformedProblem, StatusLengthRequired)
    /\ prob_Type (problemFor wfe malformedJWS (DetailError lengthRequired) StatusLengthRequired)
       = MalformedProblem
    /\ prob_Type (problemFor wfe malformedJWS (DetailError lengthRequired) StatusBadRequest)
       = MalformedProblem
    /\ answer (run (NewRegistration wfe request) nonces)
       = (Some StatusLengthRequired, [doc StatusLengthRequired])
    /\ answer (run (NewAuthorization wfe request) nonces)
       = (Some StatusLengthRequired, [doc StatusLengthRequired])
    /\ answer (run (NewCertificate wfe request) nonces)
       = (Some StatusLengthRequired, [doc StatusLengthRequired])
    /\ answer (run (Registration_handler wfe request) nonces)
       = (Some StatusLengthRequired, [doc StatusLengthRequired])
    /\ answer (run (RevokeCertificate wfe request) nonces)
       = (Some StatusLengthRequired, [doc StatusLengthRequired])
    /\ (forall authz challengeIndex,
           answer (run (postChallenge wfe request authz challengeIndex) nonces)
           = (Some StatusBadRequest, [doc StatusBadRequest])).
Proof.
  intros wfe request nonces H doc. subst doc.
  repeat split; try reflexivity; intros;
    first [ unfold NewRegistration; no_length_answer H
          | unfold NewAuthorization; no_length_answer H
          | unfold NewCertificate; no_length_answer H
          | unfold Registration_handler; no_length_answer H
          | unfold RevokeCertificate; no_length_answer H
          | unfold postChallenge; no_length_answer H ].
Qed.

Lemma C8_witness :
  Header_lookup (req_Header (Fixture.post NewRegPath false Fixture.newRegBody))
                "Content-Length" = None
  /\ answer (run (NewRegistration Fixture.wfe
                    (Fixture.post NewRegPath false Fixture.newRegBody)) ["nonce1"%string])
     = (Some StatusLengthRequired,
        [problemDocument Fixture.wfe malformedJWS (DetailError lengthRequired)
                         StatusLengthRequired]).
Proof.
  split; [reflexivity | ].
  apply (C8_length_required_is_411_malformed Fixture.wfe
           (Fixture.post NewRegPath false Fixture.newRegBody) ["nonce1"%string] eq_refl).
Defined.

(** C8 as stated fails: the new-registration handler answers a POST without
    Content-Length with status 411, not 400. *)
Lemma C8_counterexample :
  Header_lookup (req_Header (Fixture.post NewRegPath false Fixture.newRegBody))
                "Content-Length" = None
  /\ resp_Code (response (snd (run (NewRegistration Fixture.wfe
                                      (Fixture.post NewRegPath false Fixture.newRegBody))
                                   ["nonce1"%string])))
     = Some 411
  /\ resp_Code (response (snd (run (NewRegistration Fixture.wfe
                                      (Fixture.post NewRegPath false Fixture.newRegBody))
                                   ["nonce1"%string])))
     <> Some StatusBadRequest.
Proof.
  repeat split; try reflexivity. vm_compute. discriminate.
Qed.

(** ** Traces *)

Lemma precededBy_sound_gen (P Q : Event -> bool) (tr : list Event) :
  forall seen,
    precededBy P Q seen tr = true ->
    forall pre e post,
      tr = pre ++ e :: post -> Q e = true ->
      seen = true \/ exists e', In e' pre /\ P e' = true.
Proof.
  induction tr as [ | x tr IH]; intros seen Hc pre e post Heq HQ.
  - destruct pre; discriminate.
  - simpl in Hc. apply andb_true_iff in Hc. destruct Hc as [Hx Hrest].
    destruct pre as [ | y pre]; simpl in Heq; inversion Heq; subst.
    + rewrite HQ in Hx. left. exact Hx.
    + destruct (IH _ Hrest pre e post eq_refl HQ) as [Hs | (e' & Hin & HP)].
      * apply orb_true_iff in Hs. destruct Hs as [Hs | Hs].
        -- left. exact Hs.
        -- right. exists y. split; [left; reflexivity | exact Hs].
      * right. exists e'. split; [right; exact Hin | exact HP].
Qed.

Lemma precededBy_sound (P Q : Event -> bool) (tr : list Event) :
  precededBy P Q false tr = true -> allPrecededBy P Q tr.
Proof.
  intros Hc pre e post Heq HQ.
  destruct (precededBy_sound_gen P Q tr false Hc pre e post Heq HQ) as [Hf | H].
  - discriminate.
  - exact H.
Qed.

Lemma existsb_false_In {A} (P : A -> bool) (l : list A) :
  existsb P l = false -> forall x, In x l -> P x = false.
Proof.
  intros H x Hin. destruct (P x) eqn:HP; [ | reflexivity].
  assert (existsb P l = true) by (apply existsb_exists; exists x; auto).
  congruence.
Qed.

Lemma In_false_existsb {A} (P : A -> bool) (l : list A) :
  (forall x, In x l -> P x = false) -> existsb P l = false.
Proof.
  intros H. destruct (existsb P l) eqn:He; [ | reflexivity].
  apply existsb_exists in He. destruct He as (x & Hin & HP).
  rewrite (H x Hin) in HP. discriminate.
Qed.

(** ** Paths through verifyPOST *)

Ltac run_prims :=
  cbv [bind ret panic emit stats_Inc AddError setRequester setContacts setExtra
       modifyLogEvent modifyResponse nonceService_Valid deref index
       Header_Set Header_Add WriteHeader Write
       nonceService response logEvent calls Errors Requester Contacts Extra
       resp_Header resp_Code resp_Body fst snd negb andb orb].

(** Case analysis on the next thing the code branches on: the innermost
    scrutinee that is not itself a case analysis. *)
Ltac split_scrutinee :=
  match goal with
  | |- context [GetRegistrationByKey ?sa ?k] =>
      let reg := fresh "reg" in
      let err := fresh "err" in
      let H := fresh "Hlookup" in
      destruct (GetRegistrationByKey sa k) as [reg err] eqn:H
  | |- context [match ?x with _ => _ end] =>
      lazymatch x with
      | context [match _ with _ => _ end] => fail
      | negb ?b => destruct b eqn:?; cbn [negb]
      | andb ?a ?b => destruct a eqn:?; cbn [andb]
      | _ => destruct x eqn:?
      end
  end.

Ltac verify_paths s :=
  destruct s as [?ns ?resp [?errs ?rq ?ct ?ex] ?cs];
  unfold verifyPOST;
  repeat (run_prims; try split_scrutinee).

Lemma verifyPOST_frame wfe request regCheck resource s :
  response (snd (verifyPOST wfe request regCheck resource s)) = response s
  /\ authorityCalls (snd (verifyPOST wfe request regCheck resource s)) = authorityCalls s.
Proof.
  unfold authorityCalls. verify_paths s;
    (split; [reflexivity | ]);
    repeat rewrite filter_app; cbn [filter isAuthorityCall]; 
    repeat rewrite app_nil_r; reflexivity.
Qed.

Ltac expose_trace :=
  eexists; split;
  [ repeat rewrite <- app_assoc; cbn [app];
    first [ reflexivity | symmetry; apply app_nil_r ]
  | ].

(** C3. In every run of verifyPOST the nonce is read from the envelope and
    checked against the registry only after a signature verification that
    succeeded, never after one that failed; the registry is left untouched in
    a run without a successful verification; and the resource field is
    looked at only after the registry accepted the nonce. *)
Theorem C3_nonce_after_signature_before_resource :
  forall (wfe : WebFrontEndImpl) (request : Request) (regCheck : bool)
         (resource : AcmeResource) (s : State),
  exists tr,
    calls (snd (verifyPOST wfe request regCheck resource s)) = calls s ++ tr
    /\ allPrecededBy isVerifyOk isNonceStep tr
    /\ (forall e, In e tr -> isVerifyFailed e = true ->
        forall e', In e' tr -> isNonceStep e' = false)
    /\ ((forall e, In e tr -> isVerifyOk e = false) ->
        nonceService (snd (verifyPOST wfe request regCheck resource s)) = nonceService s)
    /\ allPrecededBy isNonceOk isResourceCheck tr.
Proof.
  intros wfe request regCheck resource s.
  verify_paths s; expose_trace;
    (split; [ apply precededBy_sound; reflexivity | ]);
    (split;
     [ intros ev1 Hin1 Hfail ev2 Hin2;
       match type of Hin1 with
       | In _ ?l =>
           first
             [ apply (existsb_false_In isNonceStep l); [ reflexivity | exact Hin2 ]
             | rewrite (existsb_false_In isVerifyFailed l eq_refl ev1 Hin1) in Hfail;
               discriminate ]
       end
     | ]);
    (split;
     [ intros Hno; apply In_false_existsb in Hno; cbn in Hno;
       first [ reflexivity | discriminate ]
     | apply precededBy_sound; reflexivity ]).
Qed.

(** Membership in an explicit trace, one event at a time. *)
Ltac in_cases H :=
  cbn [In] in H;
  repeat (destruct H as [H | H];
          [ first [ discriminate H | inversion H; subst; clear H ] | ]);
  try contradiction.

(** An envelope that passed the signature count has one signature. *)
Lemma one_signature (l : list Signature) (sig0 : Signature) :
  (Z.of_nat (List.length (sig0 :: l)) >? 1) = false -> l = [].
Proof.
  destruct l as [ | x l]; [ reflexivity | ].
  intros H. exfalso. cbn [List.length] in H.
  destruct (Z.gtb_spec (Z.of_nat (S (S (List.length l)))) 1); [ discriminate | lia ].
Qed.

Ltac single_signature :=
  match goal with
  | H : Signatures _ = _ :: ?l, G : (Z.of_nat (List.length (_ :: ?l)) >? 1) = false |- _ =>
      pose proof (one_signature _ _ G); subst l
  end.

Ltac reaches_lookup :=
  unfold reachesLookup; eexists; eexists;
  repeat (split; [ first [ eassumption | reflexivity ] | ]);
  first [ eassumption | reflexivity ].

(** Every verification in a run of verifyPOST, and every successful run. *)
Lemma verify_calls wfe request regCheck resource s :
  exists tr,
    calls (snd (verifyPOST wfe request regCheck resource s)) = calls s ++ tr
    /\ (forall key ok,
           In (Call_Verify key ok) tr ->
           exists jws sig0 submittedKey,
             reachesLookup wfe request jws sig0 submittedKey
             /\ In (Call_GetRegistrationByKey submittedKey) tr
             /\ ((snd (GetRegistrationByKey (SA wfe) submittedKey) = None
                  /\ key = reg_Key (fst (GetRegistrationByKey (SA wfe) submittedKey))
                  /\ forall pk, ~ In (Call_GoodKey pk) tr)
                 \/ (exists e,
                        snd (GetRegistrationByKey (SA wfe) submittedKey) = Some e
                        /\ isNoSuchRegistration e = true
                        /\ regCheck = false
                        /\ core_GoodKey (lib wfe) (Key submittedKey) = None
                        /\ key = submittedKey
                        /\ allPrecededBy isGoodKey isVerify tr))
             /\ snd (checkAlgorithm (lib wfe) key jws) = None
             /\ (ok = true <-> exists payload, jose_Verify (lib wfe) jws key = inl payload))
    /\ (forall payload key reg,
           fst (verifyPOST wfe request regCheck resource s)
             = Done (payload, key, reg, None) ->
           exists jws sig0 submittedKey k,
             reachesLookup wfe request jws sig0 submittedKey
             /\ key = Some k
             /\ resolvesKey wfe regCheck submittedKey k reg
             /\ snd (checkAlgorithm (lib wfe) k jws) = None
             /\ jose_Verify (lib wfe) jws k = inl payload
             /\ In (Call_Verify k true) tr).
Proof.
  verify_paths s; expose_trace;
    (split;
     [ intros key ok Hin; in_cases Hin
     | intros payload key registration Hres; try discriminate Hres;
       inversion Hres; subst; clear Hres ]);
    single_signature;
    repeat match goal with |- exists _, _ => eexists end;
    (split; [ reaches_lookup | ]).
  all: try (split; [ cbn [In]; left; reflexivity | ]).
  all: try (split; [ reflexivity | ]).
  all: unfold resolvesKey; rewrite Hlookup; cbn [fst snd].
  all: (split;
        [ first
            [ left; repeat split; try reflexivity;
              intros pk Hpk; in_cases Hpk
            | right; eexists; repeat split; try reflexivity; try assumption;
              apply precededBy_sound; reflexivity
            | split; [ reflexivity | ];
              first [ left; split; reflexivity
                    | right; eexists; repeat split; try reflexivity; assumption ] ]
        | ]).
  all: (split;
        [ match goal with H : checkAlgorithm _ _ _ = _ |- _ => rewrite H end; reflexivity
        | ]).
  all: first
         [ split; [ eassumption | ]; cbn [In]; tauto
         | split; [ intros _; eexists; eassumption | reflexivity ]
         | split; [ discriminate | intros [p Hp]; congruence ] ].
Qed.



(** ** The resource field *)







(** ** The number of signatures *)

(** C5 (as the code has it).  A request whose body parses as an envelope
    with no signature or with more than one is rejected, and the only thing
    verifyPOST does beside is to count one metric: it calls neither the
    storage nor any other collaborator, and leaves the nonce registry
    untouched.  The error is SignatureValidation when the request carries a
    Content-Length header; without the header the request is rejected even
    earlier, as LengthRequired. *)
Theorem C5_signature_count :
  forall (wfe : WebFrontEndImpl) (request : Request) (regCheck : bool)
         (resource : AcmeResource) (s : State) (body : bytes) (jws : JsonWebSignature),
    Body request = ReadableBody body ->
    jose_ParseSigned (lib wfe) body = inl jws ->
    List.length (Signatures jws) <> 1%nat ->
    (exists stat,
        calls (snd (verifyPOST wfe request regCheck resource s))
          = calls s ++ [StatsInc stat])
    /\ backendCalls (snd (verifyPOST wfe request regCheck resource s)) = backendCalls s
    /\ nonceService (snd (verifyPOST wfe request regCheck resource s)) = nonceService s
    /\ (errorOf (fst (verifyPOST wfe request regCheck resource s))
          = Some SignatureValidationError
        \/ errorOf (fst (verifyPOST wfe request regCheck resource s))
          = Some LengthRequiredError)
    /\ (Header_lookup (req_Header request) "Content-Length" <> None ->
        errorOf (fst (verifyPOST wfe request regCheck resource s))
          = Some SignatureValidationError).
Proof.
  intros wfe request regCheck resource s body jws HB HP Hn.
  destruct s as [ns resp [errs rq ct ex] cs].
  unfold backendCalls, verifyPOST.
  destruct (Header_lookup (req_Header request) "Content-Length") as [cl | ] eqn:HCL.
  - rewrite HB, HP.
    destruct (Z.gtb_spec (Z.of_nat (List.length (Signatures jws))) 1) as [Hgt | Hle];
      [ | destruct (Z.eqb_spec (Z.of_nat (List.length (Signatures jws))) 0) as [Hz | Hnz];
          [ | exfalso; lia ] ];
      run_prims; rewrite filter_app; cbn [filter isBackendCall]; rewrite app_nil_r;
      (split; [ eexists; reflexivity | ]);
      repeat split; try reflexivity; try (left; reflexivity).
  - run_prims; rewrite filter_app; cbn [filter isBackendCall]; rewrite app_nil_r;
      (split; [ eexists; reflexivity | ]);
      repeat split; try reflexivity; try (right; reflexivity).
    intros H. congruence.
Qed.

Lemma C5_witness :
  errorOf (fst (verifyPOST Fixture.wfe
                  (Fixture.post NewRegPath true Fixture.twoSignaturesBody)
                  false ResourceNewReg (initState ["nonce1"%string])))
    = Some SignatureValidationError
  /\ backendCalls (snd (verifyPOST Fixture.wfe
                          (Fixture.post NewRegPath true Fixture.twoSignaturesBody)
                          false ResourceNewReg (initState ["nonce1"%string]))) = [].
Proof.
  destruct (C5_signature_count Fixture.wfe
              (Fixture.post NewRegPath true Fixture.twoSignaturesBody)
              false ResourceNewReg (initState ["nonce1"%string])
              Fixture.twoSignaturesBody
              (mkJWS (repeat (mkSignature (mkJoseHeader (Some Fixture.key1) "nonce1" "RS256")) 2)
                     [x01])
              eq_refl eq_refl)
    as (_ & Hcalls & _ & _ & Herr).
  - simpl. discriminate.
  - split; [ apply Herr; discriminate | exact Hcalls ].
Defined.

(** C5 as stated fails: the body parses as an envelope with two signatures,
    but the request has no Content-Length header and verifyPOST returns a
    LengthRequired error, not a SignatureValidation one. *)
Lemma C5_counterexample :
  Body (Fixture.post NewRegPath false Fixture.twoSignaturesBody)
    = ReadableBody Fixture.twoSignaturesBody
  /\ (exists jws,
         jose_ParseSigned (lib Fixture.wfe) Fixture.twoSignaturesBody = inl jws
         /\ List.length (Signatures jws) = 2%nat)
  /\ errorOf (fst (verifyPOST Fixture.wfe
                     (Fixture.post NewRegPath false Fixture.twoSignaturesBody)
                     false ResourceNewReg (initState ["nonce1"%string])))
     = Some LengthRequiredError
  /\ errorOf (fst (verifyPOST Fixture.wfe
                     (Fixture.post NewRegPath false Fixture.twoSignaturesBody)
                     false ResourceNewReg (initState ["nonce1"%string])))
     <> Some SignatureValidationError.
Proof.
  split; [ reflexivity | ].
  split; [ eexists; split; reflexivity | ].
  split; [ reflexivity | vm_compute; discriminate ].
Qed.

(** ** Revocation *)

Lemma bytes_Equal_refl (a : bytes) : bytes_Equal a a = true.
Proof.
  induction a as [ | x a IH]; simpl; [reflexivity | ].
  rewrite IH. rewrite (Byte.byte_dec_lb (x := x) (y := x) eq_refl). reflexivity.
Qed.

Lemma bytes_Equal_eq (a b : bytes) : bytes_Equal a b = true <-> a = b.
Proof.
  split.
  - revert b. induction a as [ | x a IH]; destruct b as [ | y b]; simpl;
      try discriminate; [reflexivity | ].
    intros H. apply andb_true_iff in H. destruct H as [Hx Hab].
    apply Byte.byte_dec_bl in Hx. rewrite (IH b Hab), Hx. reflexivity.
  - intros ->. apply bytes_Equal_refl.
Qed.

Ltac run_prims_in H :=
  cbv [bind ret panic emit stats_Inc AddError setRequester setContacts setExtra
       modifyLogEvent modifyResponse nonceService_Valid deref index
       Header_Set Header_Add WriteHeader Write
       nonceService response logEvent calls Errors Requester Contacts Extra
       resp_Header resp_Code resp_Body fst snd negb andb orb] in H.

(** The state after [sendError], through its specification: [H] says that
    the final state is the one [sendError] leaves. *)
Ltac use_sendError_spec H :=
  match type of H with
  | _ = (let (_, y) := sendError ?w ?m ?d ?c ?S in y) =>
      let Hcode := fresh "Hcode" in
      let Hauth := fresh "Hauth" in
      destruct (sendError_spec w m d c S) as (_ & Hcode & _ & _ & _ & Hauth & _);
      unfold snd in Hcode, Hauth; rewrite <- H in Hcode, Hauth;
      cbn [response resp_Code emptyResponse] in Hcode;
      unfold authorityCalls at 2 in Hauth; cbn [calls] in Hauth;
      repeat rewrite filter_app in Hauth
  end.

(** C1. For a revocation request whose envelope verifies, whose certificate
    is byte-identical to the certificate stored under its serial, and whose
    stored status is not revoked: the revocation is forwarded to the
    registration authority exactly when the verification key of the
    requester has the digest of the public key in the certificate or the
    account ID of the requester is the one that owns the certificate;
    otherwise the handler answers 403 and the authority is not called. *)
Theorem C1_revocation_authorization :
  forall (wfe : WebFrontEndImpl) (request : Request) (nonces : list string)
         (body : bytes) (requestKey : option JsonWebKey) (registration : Registration)
         (der : bytes) (provided : x509_Certificate) (stored : Certificate)
         (status : CertificateStatus),
    fst (run (verifyPOST wfe request false ResourceRevokeCert) nonces)
      = Done (body, requestKey, registration, None) ->
    json_Unmarshal_RevokeRequest (lib wfe) body = inl der ->
    x509_ParseCertificate (lib wfe) der = inl provided ->
    GetCertificate (SA wfe) (core_SerialToString (lib wfe) (SerialNumber provided))
      = inl stored ->
    cert_DER stored = der ->
    GetCertificateStatus (SA wfe) (core_SerialToString (lib wfe) (SerialNumber provided))
      = inl status ->
    cs_Status status <> OCSPStatusRevoked ->
    let final := snd (run (RevokeCertificate wfe request) nonces) in
    let keyMatches :=
      core_KeyDigestEquals (lib wfe) requestKey (x509_PublicKey provided) = true in
    let accountMatches := reg_ID registration = cert_RegistrationID stored in
    ((exists cert code regID,
         In (Call_RevokeCertificateWithReg cert code regID) (calls final))
     <-> (keyMatches \/ accountMatches))
    /\ (keyMatches \/ accountMatches ->
        authorityCalls final
          = [Call_RevokeCertificateWithReg provided 0 (reg_ID registration)])
    /\ (~ (keyMatches \/ accountMatches) ->
        authorityCalls final = []
        /\ resp_Code (response final) = Some StatusForbidden).
Proof.
  intros wfe request nonces body requestKey registration der provided stored status
         Hverify Hjson Hparse Hget Hder Hstatus Hgood final keyMatches accountMatches.
  assert (Hfwd : (keyMatches \/ accountMatches ->
                  authorityCalls final
                    = [Call_RevokeCertificateWithReg provided 0 (reg_ID registration)])
                 /\ (~ (keyMatches \/ accountMatches) ->
                     authorityCalls final = []
                     /\ resp_Code (response final) = Some StatusForbidden)).
  { subst keyMatches accountMatches.
    assert (Hfinal : final = snd (run (RevokeCertificate wfe request) nonces))
      by reflexivity.
    clearbody final. unfold run in *.
    destruct (verifyPOST_frame wfe request false ResourceRevokeCert (initState nonces))
      as [Hresp Hauth0].
    unfold RevokeCertificate, bind at 1 in Hfinal.
    destruct (verifyPOST wfe request false ResourceRevokeCert (initState nonces))
      as [o s1] eqn:Hv.
    cbn [fst snd] in Hverify, Hresp, Hauth0. subst o.
    destruct s1 as [ns1 resp1 [errs1 rq1 ct1 ex1] cs1].
    cbn [response initState] in Hresp. subst resp1.
    unfold authorityCalls in Hauth0. cbn [calls initState filter] in Hauth0.
    rewrite Hjson, Hparse in Hfinal. run_prims_in Hfinal.
    rewrite Hget, Hder, bytes_Equal_refl in Hfinal.
    cbn [negb] in Hfinal. rewrite Hparse in Hfinal. run_prims_in Hfinal.
    rewrite Hstatus in Hfinal. run_prims_in Hfinal.
    destruct (cs_Status status) eqn:Hcs; [ clear Hgood | congruence ].
    destruct (core_KeyDigestEquals (lib wfe) requestKey (x509_PublicKey provided)) eqn:Hkey;
      [ | destruct (Z.eqb_spec (reg_ID registration) (cert_RegistrationID stored))
            as [Hacc | Hacc] ];
      cbn [orb negb] in Hfinal; run_prims_in Hfinal.
    - (* the key matches *)
      split; [ intros _ | intros Hno; exfalso; apply Hno; left; reflexivity ].
      destruct (RevokeCertificateWithReg (RA wfe) provided 0 (reg_ID registration));
        run_prims_in Hfinal;
        [ use_sendError_spec Hfinal; rewrite Hauth
        | subst final; unfold authorityCalls; cbn [calls]; repeat rewrite filter_app ];
        rewrite Hauth0; reflexivity.
    - (* the account matches *)
      split; [ intros _ | intros Hno; exfalso; apply Hno; right; exact Hacc ].
      destruct (RevokeCertificateWithReg (RA wfe) provided 0 (reg_ID registration));
        run_prims_in Hfinal;
        [ use_sendError_spec Hfinal; rewrite Hauth
        | subst final; unfold authorityCalls; cbn [calls]; repeat rewrite filter_app ];
        rewrite Hauth0; reflexivity.
    - (* neither *)
      split; [ intros [H | H]; [ discriminate H | contradiction ] | intros _ ].
      use_sendError_spec Hfinal. rewrite Hauth, Hcode, Hauth0. split; reflexivity. }
  destruct Hfwd as [Hyes Hno]. split; [ | split; assumption ].
  split.
  - intros (c & code & regID & Hin).
    assert (Hdec : (keyMatches \/ accountMatches) \/ ~ (keyMatches \/ accountMatches)).
    { subst keyMatches accountMatches.
      destruct (core_KeyDigestEquals (lib wfe) requestKey (x509_PublicKey provided));
        [ left; left; reflexivity | ].
      destruct (Z.eq_dec (reg_ID registration) (cert_RegistrationID stored)) as [E | E];
        [ left; right; exact E | right; intros [H | H]; [ discriminate | contradiction ] ]. }
    destruct Hdec as [Hy | Hn]; [ exact Hy | exfalso ].
    destruct (Hno Hn) as [Hnil _].
    assert (Hf : In (Call_RevokeCertificateWithReg c code regID) (authorityCalls final)).
    { unfold authorityCalls. apply filter_In. split; [ exact Hin | reflexivity ]. }
    rewrite Hnil in Hf. exact Hf.
  - intros Hy. exists provided, 0, (reg_ID registration).
    assert (Hf : In (Call_RevokeCertificateWithReg provided 0 (reg_ID registration))
                    (authorityCalls final)).
    { rewrite (Hyes Hy). left. reflexivity. }
    unfold authorityCalls in Hf. apply filter_In in Hf. exact (proj1 Hf).
Qed.

Lemma C1_witness :
  authorityCalls (snd (run (RevokeCertificate Fixture.wfe
                              (Fixture.post RevokeCertPath true
                                 (Fixture.revokeBody x02 Fixture.storedDER)))
                           ["nonce1"%string])) = []
  /\ resp_Code (response (snd (run (RevokeCertificate Fixture.wfe
                                      (Fixture.post RevokeCertPath true
                                         (Fixture.revokeBody x02 Fixture.storedDER)))
                                   ["nonce1"%string]))) = Some StatusForbidden.
Proof.
  refine (proj2 (proj2 (C1_revocation_authorization Fixture.wfe
            (Fixture.post RevokeCertPath true (Fixture.revokeBody x02 Fixture.storedDER))
            ["nonce1"%string]
            (x04 :: Fixture.storedDER) (Some Fixture.key2) Fixture.noReg
            Fixture.storedDER
            (mkX509 10 (RSAPublicKey 3233 17) ["example.invalid"%string])
            (mkCertificate 1 Fixture.storedDER)
            (mkCertificateStatus OCSPStatusGood)
            eq_refl eq_refl eq_refl eq_refl eq_refl eq_refl _)) _).
  - discriminate.
  - intros [H | H]; discriminate H.
Defined.

(** The four combinations on the small deployment: the signer is the
    registered [key1] (account 1) or the unregistered [key2]; both stored
    certificates belong to account 1, the first carries the public key of
    [key1], the other that of [key2]. *)
Example revocation_truth_table :
  let forwarded signer der :=
    authorityCalls (snd (run (RevokeCertificate Fixture.wfe
                                (Fixture.post RevokeCertPath true
                                   (Fixture.revokeBody signer der)))
                             ["nonce1"%string])) in
  let status signer der :=
    resp_Code (response (snd (run (RevokeCertificate Fixture.wfe
                                     (Fixture.post RevokeCertPath true
                                        (Fixture.revokeBody signer der)))
                                  ["nonce1"%string]))) in
  (* key and account match *)
  (forwarded x01 Fixture.storedDER
     = [Call_RevokeCertificateWithReg
          (mkX509 10 (RSAPublicKey 3233 17) ["example.invalid"%string]) 0 1]
   /\ status x01 Fixture.storedDER = Some StatusOK)
  (* only the key matches *)
  /\ (forwarded x02 Fixture.otherDER
        = [Call_RevokeCertificateWithReg
             (mkX509 11 (RSAPublicKey 2773 17) ["example.invalid"%string]) 0 0]
      /\ status x02 Fixture.otherDER = Some StatusOK)
  (* only the account matches *)
  /\ (forwarded x01 Fixture.otherDER
        = [Call_RevokeCertificateWithReg
             (mkX509 11 (RSAPublicKey 2773 17) ["example.invalid"%string]) 0 1]
      /\ status x01 Fixture.otherDER = Some StatusOK)
  (* neither matches *)
  /\ (forwarded x02 Fixture.storedDER = []
      /\ status x02 Fixture.storedDER = Some StatusForbidden).
Proof. vm_compute. repeat split. Qed.

(** ** Account update *)

(** A successful verifyPOST that requires a known account returns the
    registration the storage holds for the submitted key. *)
Lemma verifyPOST_known_account wfe request resource s payload key reg :
  fst (verifyPOST wfe request true resource s) = Done (payload, key, reg, None) ->
  exists tr submittedKey,
    calls (snd (verifyPOST wfe request true resource s)) = calls s ++ tr
    /\ In (Call_GetRegistrationByKey submittedKey) tr
    /\ GetRegistrationByKey (SA wfe) submittedKey = (reg, None)
    /\ key = Some (reg_Key reg).
Proof.
  verify_paths s; intros Hres; try discriminate Hres;
    inversion Hres; subst; clear Hres;
    eexists; eexists;
    (split; [ repeat rewrite <- app_assoc; cbn [app]; reflexivity | ]);
    (split; [ left; reflexivity | ]);
    (split; [ eassumption | reflexivity ]).
Qed.

(** The signer of a request that [verifyPOST] accepts with regCheck true:
    the registration returned is the one the storage has for the key in the
    header of the envelope, and the envelope verifies under its stored
    key. *)
Lemma verifyPOST_signer wfe request resource s payload key reg :
  fst (verifyPOST wfe request true resource s) = Done (payload, key, reg, None) ->
  exists jws sig0 submittedKey,
    reachesLookup wfe request jws sig0 submittedKey
    /\ GetRegistrationByKey (SA wfe) submittedKey = (reg, None)
    /\ key = Some (reg_Key reg)
    /\ jose_Verify (lib wfe) jws (reg_Key reg) = inl payload.
Proof.
  intros Hres.
  destruct (verify_calls wfe request true resource s) as (tr & _ & _ & Hsuccess).
  destruct (Hsuccess payload key reg Hres)
    as (jws & sig0 & submittedKey & k & Hreach & Hkey & (Hreg & Hresolved) & _ & Hverify & _).
  exists jws, sig0, submittedKey.
  destruct Hresolved as [[Hnone Hk] | (e & _ & _ & Hfalse & _)]; [ | discriminate Hfalse ].
  subst k. split; [ exact Hreach | ].
  split; [ | split; [ exact Hkey | exact Hverify ] ].
  destruct (GetRegistrationByKey (SA wfe) submittedKey) as [r e].
  cbn [fst snd] in Hreg, Hnone. subst. reflexivity.
Qed.

(** Case analysis through a handler: as [split_scrutinee], with [sendError]
    replaced by what its specification says of the state it leaves. *)
Ltac handler_step :=
  match goal with
  | |- context [sendError ?w ?m ?d ?c ?S] =>
      let Hauth := fresh "Hauth" in
      let Hcalls := fresh "Hcalls" in
      let tr := fresh "tr" in
      destruct (sendError_spec w m d c S) as (_ & _ & _ & _ & _ & Hauth & (tr & Hcalls));
      destruct (sendError w m d c S) as [?o [?nsf ?respf ?lgf ?csf]];
      unfold authorityCalls in Hauth; cbn [fst snd calls] in Hauth, Hcalls
  | _ => split_scrutinee
  end.

Lemma Registration_forwards wfe request nonces :
  let r := verifyPOST wfe request true ResourceRegistration (initState nonces) in
  let final := snd (run (Registration_handler wfe request) nonces) in
  (exists more, calls final = calls (snd r) ++ more)
  /\ (authorityCalls final = []
      \/ exists body key currReg submitted,
           fst r = Done (body, key, currReg, None)
           /\ json_Unmarshal_Registration (lib wfe) body = inl submitted
           /\ authorityCalls final
              = [Call_UpdateRegistration currReg
                   (mkRegistration (reg_ID submitted) (reg_Key currReg)
                      (reg_Contact submitted) (reg_Agreement submitted)
                      (reg_InitialIP submitted))]).
Proof.
  cbv zeta. unfold run.
  destruct (verifyPOST_frame wfe request true ResourceRegistration (initState nonces))
    as [_ Hauth0].
  unfold Registration_handler, sendVerifyError. cbv [bind].
  destruct (verifyPOST wfe request true ResourceRegistration (initState nonces))
    as [o [ns1 resp1 [errs1 rq1 ct1 ex1] cs1]] eqn:Hv.
  unfold authorityCalls in Hauth0. cbn [snd calls initState filter] in Hauth0.
  repeat (run_prims; try handler_step).
  all: split;
    [ eexists; first [ rewrite Hcalls | idtac ];
      repeat rewrite <- app_assoc; cbn [app];
      first [ reflexivity | symmetry; apply app_nil_r ]
    | ].
  all: unfold authorityCalls; cbn [calls]; try rewrite Hauth;
    repeat rewrite filter_app; rewrite Hauth0; cbn [filter isAuthorityCall app].
  all: first
         [ left; reflexivity
         | right; do 4 eexists;
           split; [ reflexivity | split; [ eassumption | reflexivity ] ] ].
Qed.

(** C6. Whenever the account-update handler forwards an update to the
    registration authority, the registration it names as the account is the
    one the storage holds for the key that signed the request, and the update
    it forwards is the submitted one with its key replaced by the stored key
    of that account, whatever key the submitted update carried: the key of
    the update equals the key of the account. *)
Theorem C6_update_keeps_account_key :
  forall (wfe : WebFrontEndImpl) (request : Request) (nonces : list string)
         (base update : Registration),
    In (Call_UpdateRegistration base update)
       (calls (snd (run (Registration_handler wfe request) nonces))) ->
    reg_Key update = reg_Key base
    /\ (exists submittedKey,
           In (Call_GetRegistrationByKey submittedKey)
              (calls (snd (run (Registration_handler wfe request) nonces)))
           /\ GetRegistrationByKey (SA wfe) submittedKey = (base, None))
    /\ (exists body submitted,
           json_Unmarshal_Registration (lib wfe) body = inl submitted
           /\ update = mkRegistration (reg_ID submitted) (reg_Key base)
                         (reg_Contact submitted) (reg_Agreement submitted)
                         (reg_InitialIP submitted))
    /\ authorityCalls (snd (run (Registration_handler wfe request) nonces))
       = [Call_UpdateRegistration base update].
Proof.
  intros wfe request nonces base update Hin.
  destruct (Registration_forwards wfe request nonces) as [(more & Hmore) Hfwd].
  assert (Hf : In (Call_UpdateRegistration base update)
                  (authorityCalls (snd (run (Registration_handler wfe request) nonces)))).
  { unfold authorityCalls. apply filter_In. split; [ exact Hin | reflexivity ]. }
  destruct Hfwd as [Hnil | (body & key & currReg & submitted & Hres & Hjson & Hcalls)].
  - rewrite Hnil in Hf. contradiction.
  - rewrite Hcalls in Hf. destruct Hf as [Heq | []].
    inversion Heq; subst base update; clear Heq.
    destruct (verifyPOST_known_account wfe request ResourceRegistration
                (initState nonces) body key currReg Hres)
      as (tr & submittedKey & Htr & Hlook & Hstored & _).
    split; [ reflexivity | ].
    split.
    + exists submittedKey. split; [ | exact Hstored ].
      rewrite Hmore, Htr. apply in_or_app. left. apply in_or_app. right. exact Hlook.
    + split; [ exists body, submitted; split; [ exact Hjson | reflexivity ] | exact Hcalls ].
Qed.

Lemma C6_witness :
  reg_Key (mkRegistration 0 Fixture.key1 [] EmptyString None) = reg_Key Fixture.reg1
  /\ authorityCalls (snd (run (Registration_handler Fixture.wfe
                                 (Fixture.post "/acme/reg/1" true Fixture.updateBody))
                              ["nonce1"%string]))
     = [Call_UpdateRegistration Fixture.reg1
          (mkRegistration 0 Fixture.key1 [] EmptyString None)].
Proof.
  destruct (C6_update_keeps_account_key Fixture.wfe
              (Fixture.post "/acme/reg/1" true Fixture.updateBody) ["nonce1"%string]
              Fixture.reg1 (mkRegistration 0 Fixture.key1 [] EmptyString None))
    as (Hkey & _ & _ & Hcalls).
  - vm_compute. tauto.
  - split; [ exact Hkey | exact Hcalls ].
Defined.

(** ** The small deployment at work *)

(** A request signed under the registered key, submitted with another
    algorithm name: the signature is verified with the stored key, and the
    key-quality policy is not consulted. *)
Example verify_uses_stored_key :
  calls (snd (verifyPOST Fixture.wfe (Fixture.post "/acme/reg/1" true Fixture.updateBody)
                true ResourceRegistration (initState ["nonce1"%string])))
    = [Call_GetRegistrationByKey Fixture.key1Submitted;
       Call_checkAlgorithm Fixture.key1;
       Call_Verify Fixture.key1 true;
       NonceExtract "nonce1";
       Call_NonceValid "nonce1" true;
       ResourceCheck ResourceRegistration]
  /\ Fixture.key1 <> Fixture.key1Submitted.
Proof. split; [ reflexivity | discriminate ]. Qed.

(** A request signed under an unregistered key, where no account is
    required: the key-quality policy comes first, the submitted key verifies
    the signature, and the registration returned is the one the storage
    returned with its not-found error; the nonce is consumed. *)
Example verify_uses_submitted_key :
  calls (snd (verifyPOST Fixture.wfe (Fixture.post NewRegPath true Fixture.newRegBody)
                false ResourceNewReg (initState ["nonce1"%string])))
    = [Call_GetRegistrationByKey Fixture.key2;
       Call_GoodKey (Key Fixture.key2);
       Call_checkAlgorithm Fixture.key2;
       Call_Verify Fixture.key2 true;
       NonceExtract "nonce1";
       Call_NonceValid "nonce1" true;
       ResourceCheck ResourceNewReg]
  /\ fst (verifyPOST Fixture.wfe (Fixture.post NewRegPath true Fixture.newRegBody)
            false ResourceNewReg (initState ["nonce1"%string]))
     = Done ([x01], Some Fixture.key2, Fixture.noReg, None)
  /\ nonceService (snd (verifyPOST Fixture.wfe
                          (Fixture.post NewRegPath true Fixture.newRegBody)
                          false ResourceNewReg (initState ["nonce1"%string]))) = [].
Proof. repeat split. Qed.

(** A challenge read answers 202 with the challenge cleared. *)
Example challenge_read :
  answer (run (Challenge_handler Fixture.wfe (Fixture.get "/acme/challenge/valid/23")) [])
    = (Some StatusAccepted,
       [BodyChallenge
          (mkChallenge 0 "dns" "pending" "http://localhost/acme/challenge/valid/23"
                       "token" None)]).
Proof. reflexivity. Qed.

(** * Further properties of the front end *)

(** ** Decimal integers in URLs *)

Lemma digitValue_range (c : ascii) (d : Z) : digitValue c = Some d -> 0 <= d <= 9.
Proof.
  unfold digitValue.
  destruct ((48 <=? nat_of_ascii c)%nat && (nat_of_ascii c <=? 57)%nat) eqn:E;
    [ | discriminate ].
  intros H. inversion H; subst; clear H.
  apply andb_true_iff in E. destruct E as [E1 E2].
  apply Nat.leb_le in E1. apply Nat.leb_le in E2. lia.
Qed.

Lemma parseDigits_nonneg (s : string) :
  forall acc v, 0 <= acc -> parseDigits acc s = Some v -> acc <= v.
Proof.
  induction s as [ | c s IH]; simpl; intros acc v Hacc H.
  - inversion H. lia.
  - destruct (digitValue c) as [d | ] eqn:Hd; [ | discriminate ].
    apply digitValue_range in Hd.
    specialize (IH (10 * acc + d) v ltac:(lia) H). lia.
Qed.

Lemma strconv_ParseInt_range :
  forall (s : string) (z : Z),
    strconv_ParseInt s = Some z -> - 2 ^ 63 <= z <= 2 ^ 63 - 1.
Proof.
  intros s z. unfold strconv_ParseInt.
  destruct s as [ | c s']; [ discriminate | ].
  set (rest := if Ascii.eqb c (ascii_of_nat 43) || Ascii.eqb c (ascii_of_nat 45)
               then s' else String c s').
  destruct rest as [ | c0 r0] eqn:Hrest; [ discriminate | ].
  destruct (parseDigits 0 (String c0 r0)) as [un | ] eqn:Hp; [ | discriminate ].
  apply parseDigits_nonneg in Hp; [ | lia ].
  destruct (Ascii.eqb c (ascii_of_nat 45)).
  - destruct (Z.gtb_spec un (2 ^ 63)); [ discriminate | ].
    intros Hz. inversion Hz. lia.
  - destruct (Z.geb_spec un (2 ^ 63)); [ discriminate | ].
    intros Hz. inversion Hz. lia.
Qed.

Lemma parseDigits_of_uint_acc (d : Decimal.uint) :
  forall acc : positive,
    parseDigits (Z.pos acc) (NilEmpty.string_of_uint d)
      = Some (Z.pos (Pos.of_uint_acc d acc)).
Proof.
  induction d; intros acc; cbn [NilEmpty.string_of_uint parseDigits Pos.of_uint_acc];
    try reflexivity;
    match goal with
    | |- context [digitValue ?c] =>
        let v := eval vm_compute in (digitValue c) in
        change (digitValue c) with v
    end; cbv beta iota;
    match goal with
    | |- parseDigits ?a _ = Some (Z.pos (Pos.of_uint_acc _ ?b)) =>
        replace a with (Z.pos b) by lia
    end; apply IHd.
Qed.

Lemma parseDigits_of_uint (d : Decimal.uint) :
  parseDigits 0 (NilEmpty.string_of_uint d) = Some (Z.of_N (Pos.of_uint d)).
Proof.
  induction d; cbn [NilEmpty.string_of_uint parseDigits Pos.of_uint];
    try reflexivity;
    match goal with
    | |- context [digitValue ?c] =>
        let v := eval vm_compute in (digitValue c) in
        change (digitValue c) with v
    end; cbv beta iota;
    first [ exact IHd
          | match goal with
            | |- parseDigits ?a _ = Some (Z.of_N (N.pos (Pos.of_uint_acc _ ?b))) =>
                change a with (Z.pos b)
            end; apply parseDigits_of_uint_acc ].
Qed.

Lemma parseDigits_to_uint (p : positive) :
  parseDigits 0 (NilEmpty.string_of_uint (Pos.to_uint p)) = Some (Z.pos p).
Proof.
  rewrite parseDigits_of_uint, DecimalPos.Unsigned.of_to. reflexivity.
Qed.

(** The decimal text of a positive number starts with a digit. *)
Lemma to_uint_text (p : positive) :
  exists c r,
    NilZero.string_of_uint (Pos.to_uint p) = String c r
    /\ NilEmpty.string_of_uint (Pos.to_uint p) = String c r
    /\ Ascii.eqb c (ascii_of_nat 43) = false
    /\ Ascii.eqb c (ascii_of_nat 45) = false.
Proof.
  pose proof (DecimalPos.Unsigned.to_uint_nonnil p) as Hn.
  destruct (Pos.to_uint p); [ congruence | .. ];
    cbn [NilZero.string_of_uint NilEmpty.string_of_uint];
    eexists; eexists; repeat split; reflexivity.
Qed.

Lemma ParseInt_fmt_d :
  forall z : Z, - 2 ^ 63 <= z <= 2 ^ 63 - 1 -> strconv_ParseInt (fmt_d z) = Some z.
Proof.
  intros z Hz. unfold fmt_d. destruct z as [ | p | p].
  - reflexivity.
  - cbn [Z.to_int NilZero.string_of_int].
    destruct (to_uint_text p) as (c & r & H0 & H1 & Hplus & Hminus).
    pose proof (parseDigits_to_uint p) as Hp. rewrite H1 in Hp.
    rewrite H0. unfold strconv_ParseInt. rewrite Hplus, Hminus. cbn [orb].
    rewrite Hp.
    destruct (Z.geb_spec (Z.pos p) (2 ^ 63)); [ lia | reflexivity ].
  - cbn [Z.to_int NilZero.string_of_int].
    destruct (to_uint_text p) as (c & r & H0 & H1 & Hplus & Hminus).
    pose proof (parseDigits_to_uint p) as Hp. rewrite H1 in Hp.
    rewrite H0. unfold strconv_ParseInt.
    change (Ascii.eqb "-" (ascii_of_nat 43)) with false.
    change (Ascii.eqb "-" (ascii_of_nat 45)) with true. cbn [orb].
    rewrite Hp.
    destruct (Z.gtb_spec (Z.pos p) (2 ^ 63)); [ lia | reflexivity ].
Qed.

(** ** Paths *)

Lemma Split_nonempty (s : string) : strings_Split_slash s <> [].
Proof.
  destruct s as [ | c s]; simpl; [ discriminate | ].
  destruct (Ascii.eqb c slash); [ discriminate | ].
  destruct (strings_Split_slash s); discriminate.
Qed.

Lemma strings_Split_slash_spec :
  forall s : string,
    strings_Join_slash (strings_Split_slash s) = s
    /\ Forall (fun seg => hasChar slash seg = false) (strings_Split_slash s)
    /\ List.length (strings_Split_slash s) = S (countChar slash s).
Proof.
  induction s as [ | c s (IHj & IHf & IHl)].
  - simpl. repeat split. constructor; [ reflexivity | constructor ].
  - cbn [strings_Split_slash countChar].
    destruct (Ascii.eqb c slash) eqn:Hc.
    + apply Ascii.eqb_eq in Hc. subst c. repeat split.
      * pose proof (Split_nonempty s) as Hne.
        cbn [strings_Join_slash].
        destruct (strings_Split_slash s) as [ | h t]; [ congruence | ].
        cbn [append]. rewrite IHj. reflexivity.
      * constructor; [ reflexivity | exact IHf ].
      * cbn [List.length]. rewrite IHl. reflexivity.
    + pose proof (Split_nonempty s) as Hne.
      destruct (strings_Split_slash s) as [ | h t]; [ congruence | ].
      repeat split.
      * rewrite <- IHj. destruct t; reflexivity.
      * inversion IHf; subst. constructor; [ | assumption ].
        cbn [hasChar]. rewrite Hc. assumption.
      * cbn [List.length] in *. lia.
Qed.

Lemma Split_no_slash (s : string) :
  hasChar slash s = false -> strings_Split_slash s = [s].
Proof.
  induction s as [ | c s IH]; cbn [hasChar strings_Split_slash]; [ reflexivity | ].
  intros H. apply orb_false_iff in H. destruct H as [Hc Hs].
  rewrite Hc, (IH Hs). reflexivity.
Qed.

Lemma Split_two (a b : string) :
  hasChar slash a = false -> hasChar slash b = false ->
  strings_Split_slash (a ++ String slash b) = [a; b].
Proof.
  intros Ha Hb. induction a as [ | c a IH]; cbn [append strings_Split_slash].
  - rewrite Ascii.eqb_refl, (Split_no_slash b Hb). reflexivity.
  - cbn [hasChar] in Ha. apply orb_false_iff in Ha. destruct Ha as [Hc Ha].
    rewrite Hc, (IH Ha). reflexivity.
Qed.

Lemma afterLastSlash_none (s : string) :
  hasChar slash s = false -> afterLastSlash s = None.
Proof.
  induction s as [ | c s IH]; cbn [hasChar afterLastSlash]; [ reflexivity | ].
  intros H. apply orb_false_iff in H. destruct H as [Hc Hs].
  rewrite (IH Hs), Hc. destruct (Ascii.eqb c newline); reflexivity.
Qed.

Lemma afterLastSlash_app (p id : string) :
  hasChar newline p = false -> hasChar slash id = false ->
  afterLastSlash (p ++ String slash id) = Some id.
Proof.
  intros Hp Hid. induction p as [ | c p IH]; cbn [append afterLastSlash].
  - change (Ascii.eqb slash newline) with false.
    rewrite (afterLastSlash_none id Hid), Ascii.eqb_refl. reflexivity.
  - cbn [hasChar] in Hp. apply orb_false_iff in Hp. destruct Hp as [Hc Hp].
    rewrite Hc, (IH Hp). reflexivity.
Qed.

(** X1. The ID that [parseIDFromPath] reads from a path is its last
    slash-separated segment: for a path [p/id] whose [id] holds no slash (and
    whose [p] holds no line break, which the pattern's [.] does not cross) it
    returns exactly [id]. *)
Theorem parseIDFromPath_last_segment :
  forall p id : string,
    hasChar newline p = false -> hasChar slash id = false ->
    parseIDFromPath (p ++ String slash id) = id.
Proof.
  intros p id Hp Hid. unfold parseIDFromPath.
  rewrite (afterLastSlash_app p id Hp Hid). reflexivity.
Qed.

Lemma parseIDFromPath_last_segment_witness :
  parseIDFromPath ("/acme/reg" ++ String slash "17") = "17"%string.
Proof.
  apply (parseIDFromPath_last_segment "/acme/reg" "17"); reflexivity.
Defined.

Lemma uint_no_slash (d : Decimal.uint) :
  hasChar slash (NilEmpty.string_of_uint d) = false.
Proof. induction d; cbn [NilEmpty.string_of_uint hasChar]; try reflexivity; exact IHd. Qed.

Lemma fmt_d_no_slash (z : Z) : hasChar slash (fmt_d z) = false.
Proof.
  unfold fmt_d. destruct z as [ | p | p]; cbn [Z.to_int NilZero.string_of_int].
  - reflexivity.
  - unfold NilZero.string_of_uint.
    destruct (Pos.to_uint p) eqn:E; try reflexivity; rewrite <- E; apply uint_no_slash.
  - cbn [hasChar]. change (Ascii.eqb "-" slash) with false. cbn [orb].
    unfold NilZero.string_of_uint.
    destruct (Pos.to_uint p) eqn:E; try reflexivity; rewrite <- E; apply uint_no_slash.
Qed.

Lemma append_assoc (a b c : string) : ((a ++ b) ++ c = a ++ (b ++ c))%string.
Proof. induction a as [ | x a IH]; simpl; [ reflexivity | rewrite IH; reflexivity ]. Qed.

(** X2. The account URL that NewRegistration builds leads back to the
    account: the registration handler reads from a path made of the
    registration base path and the decimal text of a 64-bit account ID that
    same ID. *)
Theorem registration_path_round_trip :
  forall (prefix : string) (id : Z),
    hasChar newline prefix = false ->
    - 2 ^ 63 <= id <= 2 ^ 63 - 1 ->
    strconv_ParseInt (parseIDFromPath (prefix ++ RegPath ++ fmt_d id)) = Some id.
Proof.
  intros prefix id Hp Hid.
  change RegPath with ("/acme/reg" ++ String slash EmptyString)%string.
  replace (prefix ++ ("/acme/reg" ++ String slash EmptyString) ++ fmt_d id)%string
    with ((prefix ++ "/acme/reg") ++ String slash (fmt_d id))%string.
  - unfold parseIDFromPath. rewrite afterLastSlash_app.
    + apply ParseInt_fmt_d. exact Hid.
    + clear Hid. induction prefix as [ | c p IH]; cbn [append hasChar] in *.
      * reflexivity.
      * apply orb_false_iff in Hp. destruct Hp as [Hc Hp].
        rewrite Hc. apply IH. exact Hp.
    + apply fmt_d_no_slash.
  - rewrite !append_assoc. reflexivity.
Qed.

Lemma registration_path_round_trip_witness :
  strconv_ParseInt (parseIDFromPath ("http://localhost" ++ RegPath ++ fmt_d 7)) = Some 7.
Proof.
  apply (registration_path_round_trip "http://localhost" 7); [ reflexivity | lia ].
Defined.

Lemma challenge_path_parts :
  forall (authorizationID : string) (challengeID : Z),
    hasChar slash authorizationID = false ->
    - 2 ^ 63 <= challengeID <= 2 ^ 63 - 1 ->
    strings_Split_slash
      (string_drop (String.length ChallengePath)
         (ChallengePath ++ authorizationID ++ "/" ++ fmt_d challengeID))
      = [authorizationID; fmt_d challengeID]
    /\ strconv_ParseInt (fmt_d challengeID) = Some challengeID.
Proof.
  intros a n Ha Hn. split; [ | apply ParseInt_fmt_d; exact Hn ].
  rewrite string_drop_app.
  apply (Split_two a (fmt_d n) Ha (fmt_d_no_slash n)).
Qed.

(** ** What verifyPOST guarantees *)

(** X3. verifyPOST never ends in a run-time panic: on every request, for
    every behaviour of the storage and of the libraries, it returns. *)
Theorem verifyPOST_never_panics :
  forall (wfe : WebFrontEndImpl) (request : Request) (regCheck : bool)
         (resource : AcmeResource) (s : State),
  exists r, fst (verifyPOST wfe request regCheck resource s) = Done r.
Proof.
  intros wfe request regCheck resource s.
  verify_paths s; try (eexists; reflexivity).
  all: exfalso;
    match goal with
    | H : (Z.of_nat (Datatypes.length []) =? 0) = false |- _ => discriminate H
    end.
Qed.

(** X4. What a successful verifyPOST has checked: the request has a
    Content-Length header and a body that parses as an envelope with exactly
    one signature; the signature verifies under the returned key, whose
    algorithm was accepted, and yields the returned payload; the nonce in the
    envelope is not empty, was in the registry and has been consumed; and the
    payload names the expected resource, which is not empty. *)
Theorem verifyPOST_success :
  forall (wfe : WebFrontEndImpl) (request : Request) (regCheck : bool)
         (resource : AcmeResource) (s : State)
         (payload : bytes) (key : option JsonWebKey) (reg : Registration),
    fst (verifyPOST wfe request regCheck resource s) = Done (payload, key, reg, None) ->
    exists body jws sig0 k,
      Header_lookup (req_Header request) "Content-Length" <> None
      /\ Body request = ReadableBody body
      /\ jose_ParseSigned (lib wfe) body = inl jws
      /\ Signatures jws = [sig0]
      /\ key = Some k
      /\ snd (checkAlgorithm (lib wfe) k jws) = None
      /\ jose_Verify (lib wfe) jws k = inl payload
      /\ hdr_Nonce (Header sig0) <> EmptyString
      /\ In (hdr_Nonce (Header sig0)) (nonceService s)
      /\ nonceService (snd (verifyPOST wfe request regCheck resource s))
         = remove_nonce (hdr_Nonce (Header sig0)) (nonceService s)
      /\ json_Unmarshal_resource (lib wfe) payload = inl resource
      /\ resource <> EmptyString.
Proof.
  intros wfe request regCheck resource s payload key reg.
  verify_paths s; intros Hres; try discriminate Hres;
    inversion Hres; subst; clear Hres;
    match goal with
    | H : Signatures _ = _ :: ?l, G : (Z.of_nat (List.length (_ :: ?l)) >? 1) = false |- _ =>
        pose proof (one_signature _ _ G); subst l
    end;
    match goal with
    | H : String.eqb ?r ?p = true |- _ => apply String.eqb_eq in H; subst
    end;
    do 4 eexists;
    (split; [ congruence | ]);
    (split; [ reflexivity | ]);
    (split; [ eassumption | ]);
    (split; [ eassumption | ]);
    (split; [ reflexivity | ]);
    (split; [ match goal with H : checkAlgorithm _ _ _ = _ |- _ => rewrite H end;
              reflexivity | ]);
    (split; [ eassumption | ]);
    (split; [ intros Hn;
              match goal with
              | H : (String.length _ =? 0)%nat = false |- _ =>
                  rewrite Hn in H; discriminate H
              end | ]);
    (split; [ match goal with
              | H : existsb _ _ = true |- _ =>
                  apply existsb_exists in H;
                  let x := fresh in let Hin := fresh in let He := fresh in
                  destruct H as (x & Hin & He);
                  apply String.eqb_eq in He; subst; exact Hin
              end | ]);
    (split; [ reflexivity | ]);
    (split; [ assumption | ]);
    intros Hn; subst;
    match goal with
    | H : String.eqb EmptyString EmptyString = false |- _ => discriminate H
    end.
Qed.

Lemma verifyPOST_success_witness :
  exists body jws sig0 k,
    Header_lookup (req_Header (Fixture.post NewAuthzPath true Fixture.newAuthzBody))
      "Content-Length" <> None
    /\ Body (Fixture.post NewAuthzPath true Fixture.newAuthzBody) = ReadableBody body
    /\ jose_ParseSigned (lib Fixture.wfe) body = inl jws
    /\ Signatures jws = [sig0]
    /\ Some Fixture.key1 = Some k
    /\ snd (checkAlgorithm (lib Fixture.wfe) k jws) = None
    /\ jose_Verify (lib Fixture.wfe) jws k = inl [x02]
    /\ hdr_Nonce (Header sig0) <> EmptyString
    /\ In (hdr_Nonce (Header sig0)) (nonceService (initState ["nonce1"%string]))
    /\ nonceService (snd (verifyPOST Fixture.wfe
                            (Fixture.post NewAuthzPath true Fixture.newAuthzBody)
                            true ResourceNewAuthz (initState ["nonce1"%string])))
       = remove_nonce (hdr_Nonce (Header sig0)) (nonceService (initState ["nonce1"%string]))
    /\ json_Unmarshal_resource (lib Fixture.wfe) [x02] = inl ResourceNewAuthz
    /\ ResourceNewAuthz <> EmptyString.
Proof.
  apply (verifyPOST_success Fixture.wfe
           (Fixture.post NewAuthzPath true Fixture.newAuthzBody)
           true ResourceNewAuthz (initState ["nonce1"%string])
           [x02] (Some Fixture.key1) Fixture.reg1).
  reflexivity.
Defined.

(** X5. When the lookup of the submitted key fails and either an account is
    required or the failure is not the absence of the account, verifyPOST
    returns the lookup error with no key and the registration the storage
    gave, after the lookup and one counter increment and nothing else: the
    signature is not verified, no nonce is consumed and the requester is not
    recorded. *)
Theorem verifyPOST_lookup_error :
  forall (wfe : WebFrontEndImpl) (request : Request) (regCheck : bool)
         (resource : AcmeResource) (s : State)
         (jws : JsonWebSignature) (sig0 : Signature) (submittedKey : JsonWebKey)
         (reg0 : Registration) (e : error),
    reachesLookup wfe request jws sig0 submittedKey ->
    GetRegistrationByKey (SA wfe) submittedKey = (reg0, Some e) ->
    regCheck = true \/ isNoSuchRegistration e = false ->
    fst (verifyPOST wfe request regCheck resource s) = Done ([], None, reg0, Some e)
    /\ calls (snd (verifyPOST wfe request regCheck resource s))
       = calls s ++ [Call_GetRegistrationByKey submittedKey;
                     StatsInc "WFE.Errors.UnableToGetRegistrationByKey"]
    /\ nonceService (snd (verifyPOST wfe request regCheck resource s)) = nonceService s
    /\ Requester (logEvent (snd (verifyPOST wfe request regCheck resource s)))
       = Requester (logEvent s).
Proof.
  intros wfe request regCheck resource s jws sig0 submittedKey reg0 e
         (cl & body & HCL & HB & HP & HS & HK) Hlookup Hwhy.
  destruct s as [ns resp [errs rq ct ex] cs].
  unfold verifyPOST. rewrite HCL, HB, HP, HS.
  cbn [List.length Z.of_nat Z.gtb Z.eqb Z.compare Pos.compare Pos.compare_cont
       Pos.of_succ_nat].
  rewrite HK. run_prims. rewrite Hlookup.
  assert (Hc : isNoSuchRegistration e && negb regCheck = false).
  { destruct Hwhy as [-> | ->]; [ apply andb_false_r | reflexivity ]. }
  destruct (isNoSuchRegistration e); destruct regCheck; try discriminate Hc;
    run_prims; rewrite <- app_assoc; repeat split; reflexivity.
Qed.

Lemma verifyPOST_lookup_error_witness :
  fst (verifyPOST Fixture.wfe (Fixture.post NewAuthzPath true [x01; x02; x01; x02])
         true ResourceNewAuthz (initState ["nonce1"%string]))
    = Done ([], None, Fixture.noReg,
            Some (mkError NoSuchRegistrationError "reg not found"))
  /\ nonceService (snd (verifyPOST Fixture.wfe
                          (Fixture.post NewAuthzPath true [x01; x02; x01; x02])
                          true ResourceNewAuthz (initState ["nonce1"%string])))
     = ["nonce1"%string].
Proof.
  destruct (verifyPOST_lookup_error Fixture.wfe
              (Fixture.post NewAuthzPath true [x01; x02; x01; x02])
              true ResourceNewAuthz (initState ["nonce1"%string])
              (mkJWS [mkSignature (mkJoseHeader (Some Fixture.key2) "nonce1" "RS256")] [x02])
              (mkSignature (mkJoseHeader (Some Fixture.key2) "nonce1" "RS256"))
              Fixture.key2 Fixture.noReg
              (mkError NoSuchRegistrationError "reg not found"))
    as (Hres & _ & Hnonces & _).
  - exists "4"%string, [x01; x02; x01; x02]. repeat split; reflexivity.
  - reflexivity.
  - left. reflexivity.
  - split; [ exact Hres | exact Hnonces ].
Defined.

(** X6. verifyPOST writes nothing to the response and never calls the
    registration authority; of the storage it makes at most one call, the
    lookup of the registration by key. *)
Theorem verifyPOST_touches_only_the_lookup :
  forall (wfe : WebFrontEndImpl) (request : Request) (regCheck : bool)
         (resource : AcmeResource) (s : State),
    response (snd (verifyPOST wfe request regCheck resource s)) = response s
    /\ authorityCalls (snd (verifyPOST wfe request regCheck resource s))
       = authorityCalls s
    /\ (backendCalls (snd (verifyPOST wfe request regCheck resource s)) = backendCalls s
        \/ exists submittedKey,
             backendCalls (snd (verifyPOST wfe request regCheck resource s))
             = backendCalls s ++ [Call_GetRegistrationByKey submittedKey]).
Proof.
  intros wfe request regCheck resource s.
  unfold authorityCalls, backendCalls.
  verify_paths s;
    (split; [ reflexivity | ]);
    repeat rewrite filter_app; cbn [filter isAuthorityCall isBackendCall];
    repeat rewrite app_nil_r;
    (split; [ reflexivity | ]);
    first [ left; reflexivity | right; eexists; reflexivity ].
Qed.

(** ** More on the error classifier *)

Lemma classifyCode_not_sentinel (code : Z) : snd (classifyCode code) <> statusBadNonce.
Proof.
  unfold classifyCode, statusBadNonce, StatusPreconditionFailed, StatusForbidden,
    StatusConflict, StatusMethodNotAllowed, StatusNotFound, StatusBadRequest,
    StatusLengthRequired, StatusRateLimited.
  repeat match goal with
         | |- context [?a =? ?b] => destruct (Z.eqb_spec a b)
         end; cbn [orb snd]; lia.
Qed.

(** X7. The internal status 0400 that [statusCodeFromError] gives a
    BadNonce error is never written to a client: whatever code [sendError]
    is given, the status it writes on a fresh response is not that value, and
    for a BadNonce error classified by [statusCodeFromError] it writes 400
    with the badNonce problem type. *)
Theorem bad_nonce_sentinel_never_sent :
  forall (wfe : WebFrontEndImpl) (msg : string) (detail : Detail) (code : Z) (s : State),
    resp_Code (response s) = None ->
    (exists c,
        resp_Code (response (snd (sendError wfe msg detail code s))) = Some c
        /\ c <> statusBadNonce)
    /\ (forall e,
           detail = DetailError e -> etype e = BadNonceError ->
           code = statusCodeFromError detail ->
           resp_Code (response (snd (sendError wfe msg detail code s)))
             = Some StatusBadRequest
           /\ problemFor wfe msg detail code
              = mkProblem BadNonceProblem
                  (msg ++ " :: " ++ fmt_s (lib wfe) detail)%string).
Proof.
  intros wfe msg detail code s Hfresh.
  destruct (sendError_spec wfe msg detail code s) as (_ & Hc & _).
  rewrite Hfresh in Hc. split.
  - eexists. split; [ exact Hc | apply classifyCode_not_sentinel ].
  - intros e -> He ->. rewrite Hc. unfold problemFor.
    cbn [statusCodeFromError]. rewrite He. split; reflexivity.
Qed.

Lemma bad_nonce_sentinel_never_sent_witness :
  (exists c,
      resp_Code (response (snd (sendError Fixture.wfe "Bad nonce"
                                  (DetailError (mkError BadNonceError "stale"))
                                  statusBadNonce (initState [])))) = Some c
      /\ c <> statusBadNonce)
  /\ (forall e,
         DetailError (mkError BadNonceError "stale") = DetailError e ->
         etype e = BadNonceError ->
         statusBadNonce = statusCodeFromError (DetailError (mkError BadNonceError "stale")) ->
         resp_Code (response (snd (sendError Fixture.wfe "Bad nonce"
                                     (DetailError (mkError BadNonceError "stale"))
                                     statusBadNonce (initState []))))
           = Some StatusBadRequest
         /\ problemFor Fixture.wfe "Bad nonce" (DetailError (mkError BadNonceError "stale"))
              statusBadNonce
            = mkProblem BadNonceProblem
                ("Bad nonce" ++ " :: "
                 ++ fmt_s (lib Fixture.wfe) (DetailError (mkError BadNonceError "stale")))%string).
Proof.
  apply (bad_nonce_sentinel_never_sent Fixture.wfe "Bad nonce"
           (DetailError (mkError BadNonceError "stale")) statusBadNonce (initState [])).
  reflexivity.
Defined.

Lemma sendError_logs wfe msg detail code s :
  Errors (logEvent (snd (sendError wfe msg detail code s)))
    = Errors (logEvent s) ++ [fmt_Sprintf (lib wfe) msg].
Proof.
  destruct s as [ns [hd cd bd] [errs rq ct ex] cs].
  unfold sendError.
  cbv [bind AddError modifyLogEvent Header_Set WriteHeader Write modifyResponse
       stats_Inc emit ret nonceService response logEvent calls
       resp_Header resp_Code resp_Body Errors Requester Contacts Extra].
  destruct (ProblemType_eqb _ _); [ | destruct (negb _) ];
    destruct (json_Marshal _ _); reflexivity.
Qed.

(** X8. [sendError] writes exactly one problem document and records the
    message in the log event, as the text that formatting it without
    operands gives: the message itself when it holds no [%].  The detail
    text the client receives is the message alone when the problem is a
    server-internal one or the detail is not one of the typed errors; only
    for the other problems is the text of the error appended. *)
Theorem sendError_keeps_internal_detail_private :
  forall (wfe : WebFrontEndImpl) (msg : string) (detail : Detail) (code : Z) (s : State),
  exists body text,
    resp_Body (response (snd (sendError wfe msg detail code s)))
      = resp_Body (response s) ++ [body]
    /\ (body = BodyProblemFallback
        \/ body = BodyProblem (mkProblem (fst (classifyCode code)) text))
    /\ (fst (classifyCode code) = ServerInternalProblem
        \/ statusCodeFromError detail = StatusInternalServerError ->
        text = msg)
    /\ (fst (classifyCode code) <> ServerInternalProblem ->
        statusCodeFromError detail <> StatusInternalServerError ->
        text = (msg ++ " :: " ++ fmt_s (lib wfe) detail)%string)
    /\ Errors (logEvent (snd (sendError wfe msg detail code s)))
       = Errors (logEvent s) ++ [fmt_Sprintf (lib wfe) msg]
    /\ (hasChar percent msg = false ->
        Errors (logEvent (snd (sendError wfe msg detail code s)))
        = Errors (logEvent s) ++ [msg]).
Proof.
  intros wfe msg detail code s.
  destruct (sendError_spec wfe msg detail code s) as (_ & _ & Hb & _).
  exists (problemDocument wfe msg detail code),
         (prob_Detail (problemFor wfe msg detail code)).
  split; [ exact Hb | ].
  split.
  { unfold problemDocument. destruct (json_Marshal _ _); [ left | right ]; reflexivity. }
  split;
    [ | split;
        [ | split;
            [ apply sendError_logs
            | intros Hplain; rewrite sendError_logs; unfold fmt_Sprintf;
              rewrite Hplain; reflexivity ] ] ];
    unfold problemFor; cbn [prob_Detail];
    destruct (fst (classifyCode code)) eqn:Ht; cbn [ProblemType_eqb];
    destruct (Z.eqb_spec (statusCodeFromError detail) StatusInternalServerError)
      as [Hi | Hi]; cbn [negb];
    first [ intros [H | H]; first [ discriminate H | reflexivity | contradiction ]
          | intros H1 H2; first [ reflexivity | contradiction ] ].
Qed.

(** X9. [sendError] calls neither the storage nor the authority.  It writes
    an audit entry for a server-internal problem, and, when the problem
    document marshals, no audit entry for any other problem: a client cannot
    cause audit events through errors of its own. *)
Theorem sendError_audits_only_internal_errors :
  forall (wfe : WebFrontEndImpl) (msg : string) (detail : Detail) (code : Z) (s : State),
  exists tr,
    calls (snd (sendError wfe msg detail code s)) = calls s ++ tr
    /\ (forall e, In e tr -> isBackendCall e = false)
    /\ (fst (classifyCode code) = ServerInternalProblem ->
        In (LogAudit ("Internal error - " ++ msg ++ " - " ++ fmt_s (lib wfe) detail)%string)
           tr)
    /\ (fst (classifyCode code) <> ServerInternalProblem ->
        json_Marshal (lib wfe) (BodyProblem (problemFor wfe msg detail code)) = None ->
        forall m, ~ In (LogAudit m) tr).
Proof.
  intros wfe msg detail code s.
  destruct s as [ns [hd cd bd] [errs rq ct ex] cs].
  unfold sendError, problemFor.
  cbv [bind AddError modifyLogEvent Header_Set WriteHeader Write modifyResponse
       stats_Inc emit ret nonceService response logEvent calls
       resp_Header resp_Code resp_Body Errors Requester Contacts Extra].
  destruct (fst (classifyCode code)) eqn:Ht; cbn [ProblemType_eqb];
    try destruct (negb _);
    destruct (json_Marshal _ _) eqn:Hm; cbn [snd calls];
    repeat rewrite <- app_assoc; cbn [app];
    (eexists; split; [ reflexivity | ]);
    (split; [ intros ev Hin; cbn [In] in Hin;
              repeat (destruct Hin as [Hin | Hin]; [ subst ev; reflexivity | ]);
              contradiction | ]);
    (split; [ intros Hint; first [ discriminate Hint | left; reflexivity ] | ]);
    intros Hne Hok m Hin;
    first [ congruence | in_cases Hin ].
Qed.

(** ** What a handler checks before it calls the registration authority *)

(** The start of a proof about the authority calls of a handler [h] that
    begins with verifyPOST: case analysis over all its paths. *)
Ltac handler_paths h regCheck resource :=
  cbv zeta; unfold run;
  lazymatch goal with
  | |- context [verifyPOST ?w ?r regCheck resource (initState ?n)] =>
      let Hauth0 := fresh "Hauth0" in
      destruct (verifyPOST_frame w r regCheck resource (initState n)) as [_ Hauth0];
      unfold h, sendVerifyError; cbv [bind];
      destruct (verifyPOST w r regCheck resource (initState n))
        as [?o [?ns1 ?resp1 [?errs1 ?rq1 ?ct1 ?ex1] ?cs1]] eqn:?Hv;
      unfold authorityCalls in Hauth0; cbn [snd calls initState filter] in Hauth0;
      repeat (run_prims; try handler_step);
      unfold authorityCalls; cbn [calls];
      try match goal with
          | H : filter isAuthorityCall _ = filter isAuthorityCall _ |- _ => rewrite H
          end;
      repeat rewrite filter_app; rewrite Hauth0; cbn [filter isAuthorityCall app]
  end.

(** Find a call in the trace of a concrete run. *)
Ltac find_call := vm_compute; repeat (first [ left; reflexivity | right ]).

(** Rewriting with the tests recorded along a path decides a condition. *)
Ltac by_tests :=
  repeat match goal with
         | H : ?x = true |- context [?x] => rewrite H
         | H : ?x = false |- context [?x] => rewrite H
         end;
  reflexivity.

Lemma authority_call_in (e : Event) (s : State) :
  In e (calls s) -> isAuthorityCall e = true -> In e (authorityCalls s).
Proof. intros Hin He. unfold authorityCalls. apply filter_In. split; assumption. Qed.

Lemma NewAuthorization_forwards wfe request nonces :
  let r := verifyPOST wfe request true ResourceNewAuthz (initState nonces) in
  let final := snd (run (NewAuthorization wfe request) nonces) in
  authorityCalls final = []
  \/ exists body key currReg init,
       fst r = Done (body, key, currReg, None)
       /\ String.eqb (reg_Agreement currReg) EmptyString = false
       /\ json_Unmarshal_Authorization (lib wfe) body = inl init
       /\ authorityCalls final = [Call_NewAuthorization init (reg_ID currReg)].
Proof.
  handler_paths NewAuthorization true ResourceNewAuthz;
    first
      [ left; reflexivity
      | right; do 4 eexists;
        split; [ reflexivity | split; [ by_tests | split; [ eassumption | reflexivity ] ] ] ].
Qed.

(** X11. NewAuthorization forwards an authorization request to the
    registration authority only when the request carries an envelope whose
    signature verifies under the stored key of the registration that the
    storage has for the key in the envelope's header, and that registration
    has agreed to the subscriber agreement; the request forwarded is the one
    parsed from the verified payload, under that registration's ID, and it
    is the only call to the authority. *)
Theorem NewAuthorization_guard :
  forall (wfe : WebFrontEndImpl) (request : Request) (nonces : list string)
         (init : Authorization) (regID : Z),
    In (Call_NewAuthorization init regID)
       (calls (snd (run (NewAuthorization wfe request) nonces))) ->
    exists jws sig0 submittedKey currReg payload,
      reachesLookup wfe request jws sig0 submittedKey
      /\ GetRegistrationByKey (SA wfe) submittedKey = (currReg, None)
      /\ jose_Verify (lib wfe) jws (reg_Key currReg) = inl payload
      /\ json_Unmarshal_Authorization (lib wfe) payload = inl init
      /\ regID = reg_ID currReg
      /\ reg_Agreement currReg <> EmptyString
      /\ authorityCalls (snd (run (NewAuthorization wfe request) nonces))
         = [Call_NewAuthorization init regID].
Proof.
  intros wfe request nonces init regID Hin.
  apply authority_call_in in Hin; [ | reflexivity ].
  destruct (NewAuthorization_forwards wfe request nonces)
    as [Hnil | (body & key & currReg & init' & Hres & Hagree & Hjson & Hcalls)].
  - rewrite Hnil in Hin. contradiction.
  - rewrite Hcalls in Hin. destruct Hin as [Heq | []].
    inversion Heq; subst init' regID; clear Heq.
    destruct (verifyPOST_signer wfe request ResourceNewAuthz
                (initState nonces) body key currReg Hres)
      as (jws & sig0 & submittedKey & Hreach & Hstored & _ & Hverify).
    exists jws, sig0, submittedKey, currReg, body.
    split; [ exact Hreach | ]. split; [ exact Hstored | ].
    split; [ exact Hverify | ]. split; [ exact Hjson | ].
    split; [ reflexivity | ].
    split; [ | exact Hcalls ].
    intros Hempty. rewrite Hempty in Hagree. discriminate Hagree.
Qed.

Lemma NewAuthorization_guard_witness :
  exists jws sig0 submittedKey currReg payload,
    reachesLookup Fixture.wfe (Fixture.post NewAuthzPath true Fixture.newAuthzBody)
      jws sig0 submittedKey
    /\ GetRegistrationByKey (SA Fixture.wfe) submittedKey = (currReg, None)
    /\ jose_Verify (lib Fixture.wfe) jws (reg_Key currReg) = inl payload
    /\ json_Unmarshal_Authorization (lib Fixture.wfe) payload
       = inl (mkAuthorization EmptyString "example.invalid" 0 EmptyString None [])
    /\ 1 = reg_ID currReg
    /\ reg_Agreement currReg <> EmptyString
    /\ authorityCalls (snd (run (NewAuthorization Fixture.wfe
                                   (Fixture.post NewAuthzPath true Fixture.newAuthzBody))
                                ["nonce1"%string]))
       = [Call_NewAuthorization
            (mkAuthorization EmptyString "example.invalid" 0 EmptyString None []) 1].
Proof.
  apply (NewAuthorization_guard Fixture.wfe
           (Fixture.post NewAuthzPath true Fixture.newAuthzBody) ["nonce1"%string]
           (mkAuthorization EmptyString "example.invalid" 0 EmptyString None []) 1).
  find_call.
Defined.

Lemma NewCertificate_forwards wfe request nonces :
  let r := verifyPOST wfe request true ResourceNewCert (initState nonces) in
  let final := snd (run (NewCertificate wfe request) nonces) in
  authorityCalls final = []
  \/ exists body key reg csr,
       fst r = Done (body, key, reg, None)
       /\ String.eqb (reg_Agreement reg) EmptyString = false
       /\ json_Unmarshal_CertificateRequest (lib wfe) body = inl csr
       /\ core_GoodKey (lib wfe) (Some (csr_PublicKey csr)) = None
       /\ authorityCalls final = [Call_NewCertificate csr (reg_ID reg)].
Proof.
  handler_paths NewCertificate true ResourceNewCert;
    first
      [ left; reflexivity
      | right; do 4 eexists;
        split; [ reflexivity
               | split; [ by_tests
                        | split; [ eassumption | split; [ eassumption | reflexivity ] ] ] ] ].
Qed.

(** X12. NewCertificate forwards a certificate request to the registration
    authority only for a stored account that has agreed to the subscriber
    agreement, under that account's ID, and only when the key-quality policy
    accepts the public key of the request; it then makes no other call to
    the authority. *)
Theorem NewCertificate_guard :
  forall (wfe : WebFrontEndImpl) (request : Request) (nonces : list string)
         (csr : CertificateRequest) (regID : Z),
    In (Call_NewCertificate csr regID)
       (calls (snd (run (NewCertificate wfe request) nonces))) ->
    exists submittedKey reg,
      GetRegistrationByKey (SA wfe) submittedKey = (reg, None)
      /\ regID = reg_ID reg
      /\ reg_Agreement reg <> EmptyString
      /\ core_GoodKey (lib wfe) (Some (csr_PublicKey csr)) = None
      /\ authorityCalls (snd (run (NewCertificate wfe request) nonces))
         = [Call_NewCertificate csr regID].
Proof.
  intros wfe request nonces csr regID Hin.
  apply authority_call_in in Hin; [ | reflexivity ].
  destruct (NewCertificate_forwards wfe request nonces)
    as [Hnil | (body & key & reg & csr' & Hres & Hagree & _ & Hgood & Hcalls)].
  - rewrite Hnil in Hin. contradiction.
  - rewrite Hcalls in Hin. destruct Hin as [Heq | []].
    inversion Heq; subst csr' regID; clear Heq.
    destruct (verifyPOST_known_account wfe request ResourceNewCert
                (initState nonces) body key reg Hres)
      as (tr & submittedKey & _ & _ & Hstored & _).
    exists submittedKey, reg.
    split; [ exact Hstored | ]. split; [ reflexivity | ].
    split; [ | split; [ exact Hgood | exact Hcalls ] ].
    intros Hempty. rewrite Hempty in Hagree. discriminate Hagree.
Qed.

Lemma NewCertificate_guard_witness :
  exists submittedKey reg,
    GetRegistrationByKey (SA Fixture.wfe) submittedKey = (reg, None)
    /\ 1 = reg_ID reg
    /\ reg_Agreement reg <> EmptyString
    /\ core_GoodKey (lib Fixture.wfe)
         (Some (csr_PublicKey (mkCertificateRequest [] (RSAPublicKey 3233 17)
                                 ["example.invalid"%string]))) = None
    /\ authorityCalls (snd (run (NewCertificate Fixture.wfe
                                   (Fixture.post NewCertPath true [x01; x01; x01; x03]))
                                ["nonce1"%string]))
       = [Call_NewCertificate
            (mkCertificateRequest [] (RSAPublicKey 3233 17) ["example.invalid"%string]) 1].
Proof.
  apply (NewCertificate_guard Fixture.wfe
           (Fixture.post NewCertPath true [x01; x01; x01; x03]) ["nonce1"%string]
           (mkCertificateRequest [] (RSAPublicKey 3233 17) ["example.invalid"%string]) 1).
  find_call.
Defined.

Lemma postChallenge_forwards wfe request authz challengeIndex nonces :
  let r := verifyPOST wfe request true ResourceChallenge (initState nonces) in
  let final := snd (run (postChallenge wfe request authz challengeIndex) nonces) in
  authorityCalls final = []
  \/ exists body key currReg update,
       fst r = Done (body, key, currReg, None)
       /\ String.eqb (reg_Agreement currReg) EmptyString = false
       /\ (reg_ID currReg =? authz_RegistrationID authz) = true
       /\ json_Unmarshal_Challenge (lib wfe) body = inl update
       /\ authorityCalls final = [Call_UpdateAuthorization authz challengeIndex update].
Proof.
  handler_paths postChallenge true ResourceChallenge;
    first
      [ left; reflexivity
      | right; do 4 eexists;
        split; [ reflexivity
               | split; [ by_tests
                        | split; [ by_tests | split; [ eassumption | reflexivity ] ] ] ] ].
Qed.

(** X13. postChallenge asks the registration authority to update a
    challenge only of the authorization and at the index it was given, with
    the challenge parsed from the verified payload, and only when the signer
    owns the authorization: the request carries an envelope whose signature
    verifies under the stored key of the registration that the storage has
    for the key in the envelope's header, that registration's ID is the
    registration ID of the authorization, and it has agreed to the
    subscriber agreement. *)
Theorem postChallenge_guard :
  forall (wfe : WebFrontEndImpl) (request : Request) (authz : Authorization)
         (challengeIndex : Z) (nonces : list string)
         (forwarded : Authorization) (index : Z) (update : Challenge),
    In (Call_UpdateAuthorization forwarded index update)
       (calls (snd (run (postChallenge wfe request authz challengeIndex) nonces))) ->
    forwarded = authz /\ index = challengeIndex
    /\ exists jws sig0 submittedKey currReg payload,
         reachesLookup wfe request jws sig0 submittedKey
         /\ GetRegistrationByKey (SA wfe) submittedKey = (currReg, None)
         /\ jose_Verify (lib wfe) jws (reg_Key currReg) = inl payload
         /\ json_Unmarshal_Challenge (lib wfe) payload = inl update
         /\ reg_ID currReg = authz_RegistrationID authz
         /\ reg_Agreement currReg <> EmptyString.
Proof.
  intros wfe request authz challengeIndex nonces forwarded index update Hin.
  apply authority_call_in in Hin; [ | reflexivity ].
  destruct (postChallenge_forwards wfe request authz challengeIndex nonces)
    as [Hnil | (body & key & currReg & update' & Hres & Hagree & Hown & Hjson & Hcalls)].
  - rewrite Hnil in Hin. contradiction.
  - rewrite Hcalls in Hin. destruct Hin as [Heq | []].
    inversion Heq; subst; clear Heq.
    split; [ reflexivity | ]. split; [ reflexivity | ].
    destruct (verifyPOST_signer wfe request ResourceChallenge
                (initState nonces) body key currReg Hres)
      as (jws & sig0 & submittedKey & Hreach & Hstored & _ & Hverify).
    exists jws, sig0, submittedKey, currReg, body.
    split; [ exact Hreach | ]. split; [ exact Hstored | ].
    split; [ exact Hverify | ]. split; [ exact Hjson | ].
    split; [ apply Z.eqb_eq; exact Hown | ].
    intros Hempty. rewrite Hempty in Hagree. discriminate Hagree.
Qed.

Lemma postChallenge_guard_witness :
  Fixture.authzValid = Fixture.authzValid /\ 0 = 0
  /\ exists jws sig0 submittedKey currReg payload,
       reachesLookup Fixture.wfe
         (Fixture.post "/acme/challenge/valid/23" true [x01; x01; x01; x06])
         jws sig0 submittedKey
       /\ GetRegistrationByKey (SA Fixture.wfe) submittedKey = (currReg, None)
       /\ jose_Verify (lib Fixture.wfe) jws (reg_Key currReg) = inl payload
       /\ json_Unmarshal_Challenge (lib Fixture.wfe) payload
          = inl (mkChallenge 0 "dns" EmptyString EmptyString EmptyString None)
       /\ reg_ID currReg = authz_RegistrationID Fixture.authzValid
       /\ reg_Agreement currReg <> EmptyString.
Proof.
  apply (postChallenge_guard Fixture.wfe
           (Fixture.post "/acme/challenge/valid/23" true [x01; x01; x01; x06])
           Fixture.authzValid 0 ["nonce1"%string] Fixture.authzValid 0
           (mkChallenge 0 "dns" EmptyString EmptyString EmptyString None)).
  find_call.
Defined.




Lemma RevokeCertificate_forwards wfe request nonces :
  let r := verifyPOST wfe request false ResourceRevokeCert (initState nonces) in
  let final := snd (run (RevokeCertificate wfe request) nonces) in
  authorityCalls final = []
  \/ exists body requestKey registration der provided stored parsed status,
       fst r = Done (body, requestKey, registration, None)
       /\ json_Unmarshal_RevokeRequest (lib wfe) body = inl der
       /\ x509_ParseCertificate (lib wfe) der = inl provided
       /\ GetCertificate (SA wfe) (core_SerialToString (lib wfe) (SerialNumber provided))
          = inl stored
       /\ bytes_Equal (cert_DER stored) der = true
       /\ x509_ParseCertificate (lib wfe) (cert_DER stored) = inl parsed
       /\ GetCertificateStatus (SA wfe)
            (core_SerialToString (lib wfe) (SerialNumber provided)) = inl status
       /\ cs_Status status = OCSPStatusGood
       /\ (core_KeyDigestEquals (lib wfe) requestKey (x509_PublicKey parsed)
           || (reg_ID registration =? cert_RegistrationID stored)) = true
       /\ authorityCalls final
          = [Call_RevokeCertificateWithReg parsed 0 (reg_ID registration)].
Proof.
  handler_paths RevokeCertificate false ResourceRevokeCert;
    first
      [ left; reflexivity
      | right; do 8 eexists;
        split; [ reflexivity | ];
        split; [ eassumption | ];
        split; [ eassumption | ];
        split; [ eassumption | ];
        split; [ by_tests | ];
        split; [ eassumption | ];
        split; [ eassumption | ];
        split; [ eassumption | ];
        split; [ by_tests | reflexivity ] ].
Qed.

(** X14. RevokeCertificate asks the registration authority to revoke a
    certificate only with reason code 0 and under the ID of the registration
    verifyPOST returned, and only when the certificate in the request parses,
    is byte for byte the stored certificate of its serial, is not already
    revoked, and the request is signed by the certificate's key or by the
    account the certificate belongs to. *)
Theorem RevokeCertificate_guard :
  forall (wfe : WebFrontEndImpl) (request : Request) (nonces : list string)
         (cert : x509_Certificate) (code regID : Z),
    In (Call_RevokeCertificateWithReg cert code regID)
       (calls (snd (run (RevokeCertificate wfe request) nonces))) ->
    code = 0
    /\ exists body requestKey registration stored status,
         fst (verifyPOST wfe request false ResourceRevokeCert (initState nonces))
           = Done (body, requestKey, registration, None)
         /\ regID = reg_ID registration
         /\ json_Unmarshal_RevokeRequest (lib wfe) body = inl (cert_DER stored)
         /\ x509_ParseCertificate (lib wfe) (cert_DER stored) = inl cert
         /\ GetCertificate (SA wfe) (core_SerialToString (lib wfe) (SerialNumber cert))
            = inl stored
         /\ GetCertificateStatus (SA wfe)
              (core_SerialToString (lib wfe) (SerialNumber cert)) = inl status
         /\ cs_Status status <> OCSPStatusRevoked
         /\ (core_KeyDigestEquals (lib wfe) requestKey (x509_PublicKey cert) = true
             \/ reg_ID registration = cert_RegistrationID stored).
Proof.
  intros wfe request nonces cert code regID Hin.
  apply authority_call_in in Hin; [ | reflexivity ].
  destruct (RevokeCertificate_forwards wfe request nonces)
    as [Hnil | (body & requestKey & registration & der & provided & stored & parsed
                & status & Hres & Hjson & Hprov & Hget & Hsame & Hparsed & Hstatus
                & Hgood & Hauth & Hcalls)].
  - rewrite Hnil in Hin. contradiction.
  - rewrite Hcalls in Hin. destruct Hin as [Heq | []].
    inversion Heq; subst; clear Heq.
    apply bytes_Equal_eq in Hsame. subst der.
    assert (provided = cert) by congruence. subst provided.
    split; [ reflexivity | ].
    exists body, requestKey, registration, stored, status.
    repeat (split; [ first [ assumption | reflexivity ] | ]).
    split; [ rewrite Hgood; discriminate | ].
    apply orb_true_iff in Hauth. destruct Hauth as [Hk | Ha].
    + left. exact Hk.
    + right. apply Z.eqb_eq. exact Ha.
Qed.

Lemma RevokeCertificate_guard_witness :
  0 = 0
  /\ exists body requestKey registration stored status,
       fst (verifyPOST Fixture.wfe
              (Fixture.post RevokeCertPath true (Fixture.revokeBody x01 Fixture.storedDER))
              false ResourceRevokeCert (initState ["nonce1"%string]))
         = Done (body, requestKey, registration, None)
       /\ 1 = reg_ID registration
       /\ json_Unmarshal_RevokeRequest (lib Fixture.wfe) body = inl (cert_DER stored)
       /\ x509_ParseCertificate (lib Fixture.wfe) (cert_DER stored)
          = inl (mkX509 10 (RSAPublicKey 3233 17) ["example.invalid"%string])
       /\ GetCertificate (SA Fixture.wfe)
            (core_SerialToString (lib Fixture.wfe)
               (SerialNumber (mkX509 10 (RSAPublicKey 3233 17) ["example.invalid"%string])))
          = inl stored
       /\ GetCertificateStatus (SA Fixture.wfe)
            (core_SerialToString (lib Fixture.wfe)
               (SerialNumber (mkX509 10 (RSAPublicKey 3233 17) ["example.invalid"%string])))
          = inl status
       /\ cs_Status status <> OCSPStatusRevoked
       /\ (core_KeyDigestEquals (lib Fixture.wfe) requestKey
             (x509_PublicKey (mkX509 10 (RSAPublicKey 3233 17) ["example.invalid"%string]))
           = true
           \/ reg_ID registration = cert_RegistrationID stored).
Proof.
  apply (RevokeCertificate_guard Fixture.wfe
           (Fixture.post RevokeCertPath true (Fixture.revokeBody x01 Fixture.storedDER))
           ["nonce1"%string]
           (mkX509 10 (RSAPublicKey 3233 17) ["example.invalid"%string]) 0 1).
  find_call.
Defined.

Lemma Registration_path_forwards wfe request nonces :
  let r := verifyPOST wfe request true ResourceRegistration (initState nonces) in
  let final := snd (run (Registration_handler wfe request) nonces) in
  authorityCalls final = []
  \/ exists body key currReg submitted id,
       fst r = Done (body, key, currReg, None)
       /\ strconv_ParseInt (parseIDFromPath (URL_Path request)) = Some id
       /\ (id <=? 0) = false
       /\ (id =? reg_ID currReg) = true
       /\ json_Unmarshal_Registration (lib wfe) body = inl submitted
       /\ ((0 <? String.length (reg_Agreement submitted))%nat
           && negb (String.eqb (reg_Agreement submitted) (SubscriberAgreementURL wfe)))
          = false
       /\ authorityCalls final
          = [Call_UpdateRegistration currReg
               (mkRegistration (reg_ID submitted) (reg_Key currReg)
                  (reg_Contact submitted) (reg_Agreement submitted)
                  (reg_InitialIP submitted))].
Proof.
  handler_paths Registration_handler true ResourceRegistration;
    first
      [ left; reflexivity
      | right; do 5 eexists;
        split; [ reflexivity | ];
        split; [ reflexivity | ];
        split; [ by_tests | ];
        split; [ by_tests | ];
        split; [ eassumption | ];
        split; [ by_tests | reflexivity ] ].
Qed.

(** X15. The registration handler forwards an update to the registration
    authority only for the account whose ID is the decimal number at the end
    of the path, which is positive, and only when the agreement in the update
    is empty or the current subscriber agreement. *)
Theorem Registration_guard :
  forall (wfe : WebFrontEndImpl) (request : Request) (nonces : list string)
         (base update : Registration),
    In (Call_UpdateRegistration base update)
       (calls (snd (run (Registration_handler wfe request) nonces))) ->
    strconv_ParseInt (parseIDFromPath (URL_Path request)) = Some (reg_ID base)
    /\ 0 < reg_ID base
    /\ (reg_Agreement update = EmptyString
        \/ reg_Agreement update = SubscriberAgreementURL wfe).
Proof.
  intros wfe request nonces base update Hin.
  apply authority_call_in in Hin; [ | reflexivity ].
  destruct (Registration_path_forwards wfe request nonces)
    as [Hnil | (body & key & currReg & submitted & id
                & Hres & Hparse & Hpos & Hsame & _ & Hagree & Hcalls)].
  - rewrite Hnil in Hin. contradiction.
  - rewrite Hcalls in Hin. destruct Hin as [Heq | []].
    inversion Heq; subst base update; clear Heq. cbn [reg_Agreement].
    apply Z.eqb_eq in Hsame. subst id.
    split; [ exact Hparse | ].
    split; [ apply Z.leb_gt; exact Hpos | ].
    apply andb_false_iff in Hagree. destruct Hagree as [Hlen | Hurl].
    + left. destruct (reg_Agreement submitted); [ reflexivity | discriminate Hlen ].
    + right. apply negb_false_iff in Hurl. apply String.eqb_eq. exact Hurl.
Qed.

Lemma Registration_guard_witness :
  strconv_ParseInt (parseIDFromPath (URL_Path (Fixture.post "/acme/reg/1" true Fixture.updateBody)))
    = Some (reg_ID Fixture.reg1)
  /\ 0 < reg_ID Fixture.reg1
  /\ (reg_Agreement (mkRegistration 0 Fixture.key1 [] EmptyString None) = EmptyString
      \/ reg_Agreement (mkRegistration 0 Fixture.key1 [] EmptyString None)
         = SubscriberAgreementURL Fixture.wfe).
Proof.
  apply (Registration_guard Fixture.wfe
           (Fixture.post "/acme/reg/1" true Fixture.updateBody) ["nonce1"%string]
           Fixture.reg1 (mkRegistration 0 Fixture.key1 [] EmptyString None)).
  find_call.
Defined.

(** ** Unknown accounts *)

Ltac unknown_account_answer Hres Hno :=
  unfold run, bind;
  match goal with
  | |- context [verifyPOST ?w ?r ?c ?res (initState ?n)] =>
      let Hresp := fresh "Hresp" in
      destruct (verifyPOST_frame w r c res (initState n)) as [Hresp _];
      destruct (verifyPOST w r c res (initState n)) as [?o ?s1];
      cbn [fst snd] in Hres, Hresp; subst;
      unfold sendVerifyError; rewrite Hno;
      rewrite sendError_answer by exact Hresp; reflexivity
  end.

(** X16. A request signed by a key that has no account is answered 403 with
    an unauthorized problem whose detail is the fixed message alone, by each
    handler that requires an account: new-authorization, new-certificate,
    registration and challenge update. *)
Theorem unknown_account_is_forbidden :
  forall (wfe : WebFrontEndImpl) (request : Request) (nonces : list string)
         (body : bytes) (key : option JsonWebKey) (reg : Registration) (e : error),
    isNoSuchRegistration e = true ->
    let doc := problemDocument wfe unknownKey (DetailError e) StatusForbidden in
    problemFor wfe unknownKey (DetailError e) StatusForbidden
      = mkProblem UnauthorizedProblem unknownKey
    /\ (fst (verifyPOST wfe request true ResourceNewAuthz (initState nonces))
          = Done (body, key, reg, Some e) ->
        answer (run (NewAuthorization wfe request) nonces) = (Some StatusForbidden, [doc]))
    /\ (fst (verifyPOST wfe request true ResourceNewCert (initState nonces))
          = Done (body, key, reg, Some e) ->
        answer (run (NewCertificate wfe request) nonces) = (Some StatusForbidden, [doc]))
    /\ (fst (verifyPOST wfe request true ResourceRegistration (initState nonces))
          = Done (body, key, reg, Some e) ->
        answer (run (Registration_handler wfe request) nonces)
          = (Some StatusForbidden, [doc]))
    /\ (fst (verifyPOST wfe request true ResourceChallenge (initState nonces))
          = Done (body, key, reg, Some e) ->
        forall authz challengeIndex,
          answer (run (postChallenge wfe request authz challengeIndex) nonces)
            = (Some StatusForbidden, [doc])).
Proof.
  intros wfe request nonces body key reg e Hno doc. subst doc.
  split.
  { unfold problemFor, isNoSuchRegistration in *. cbn [statusCodeFromError].
    destruct (etype e); try discriminate Hno. reflexivity. }
  repeat split; intros Hres; intros;
    first [ unfold NewAuthorization; unknown_account_answer Hres Hno
          | unfold NewCertificate; unknown_account_answer Hres Hno
          | unfold Registration_handler; unknown_account_answer Hres Hno
          | unfold postChallenge; unknown_account_answer Hres Hno ].
Qed.

Lemma unknown_account_is_forbidden_witness :
  answer (run (NewAuthorization Fixture.wfe
                 (Fixture.post NewAuthzPath true [x01; x02; x01; x02])) ["nonce1"%string])
    = (Some StatusForbidden,
       [problemDocument Fixture.wfe unknownKey
          (DetailError (mkError NoSuchRegistrationError "reg not found")) StatusForbidden]).
Proof.
  refine (proj1 (proj2 (unknown_account_is_forbidden Fixture.wfe
                          (Fixture.post NewAuthzPath true [x01; x02; x01; x02])
                          ["nonce1"%string] [] None Fixture.noReg
                          (mkError NoSuchRegistrationError "reg not found") eq_refl)) _).
  reflexivity.
Defined.

(** ** Reading authorizations, challenges and certificates *)

(** Replace the state [sendError] leaves by what its specification says
    of it: the status, the bodies and the backend calls. *)
Ltac send_step :=
  match goal with
  | |- context [sendError ?w ?m ?d ?c ?S] =>
      let Hc := fresh "Hc" in
      let Hb := fresh "Hb" in
      let Hk := fresh "Hk" in
      let cdf := fresh "cdf" in
      let bdf := fresh "bdf" in
      let Ho := fresh "Ho" in
      let o := fresh "o" in
      destruct (sendError_spec w m d c S) as (Ho & Hc & Hb & Hk & _);
      destruct (sendError w m d c S) as [o [?nsf [?hdf cdf bdf] ?lgf ?csf]];
      unfold backendCalls in Hk;
      cbn [fst snd response resp_Code resp_Body calls app] in Ho, Hc, Hb, Hk;
      subst o cdf bdf
  end.

Ltac fresh_run :=
  unfold run, answer, backendCalls, initState, emptyResponse, emptyRequestEvent.

(** X17. The authorization handler makes exactly one backend call, the
    lookup of the ID at the end of the path.  A failed lookup is answered
    404; an authorization whose expiry lies before the current time is
    answered 404; any other authorization with an expiry is answered 200
    with the authorization prepared for display. *)
Theorem Authorization_read :
  forall (wfe : WebFrontEndImpl) (request : Request) (nonces : list string),
    let id := parseIDFromPath (URL_Path request) in
    let final := run (Authorization_handler wfe request) nonces in
    backendCalls (snd final) = [Call_GetAuthorization id]
    /\ (forall err,
           GetAuthorization (SA wfe) id = inr err ->
           answer final
             = (Some StatusNotFound,
                [problemDocument wfe "Unable to find authorization" (DetailError err)
                                 StatusNotFound]))
    /\ (forall authz expires,
           GetAuthorization (SA wfe) id = inl authz ->
           authz_Expires authz = Some expires ->
           (expires < clk_Now wfe ->
            exists msg,
              answer final
                = (Some StatusNotFound,
                   [problemDocument wfe "Expired authorization" (DetailString msg)
                                    StatusNotFound]))
           /\ (clk_Now wfe <= expires ->
               json_Marshal (lib wfe)
                 (BodyAuthorization (prepAuthorizationForDisplay wfe authz)) = None ->
               answer final
                 = (Some StatusOK,
                    [BodyAuthorization (prepAuthorizationForDisplay wfe authz)]))).
Proof.
  intros wfe request nonces id final. subst id final.
  fresh_run. unfold Authorization_handler, isExpired, rejectExpired.
  repeat split.
  - run_prims.
    destruct (GetAuthorization (SA wfe) (parseIDFromPath (URL_Path request)))
      as [authz | err]; run_prims.
    + destruct (authz_Expires authz) as [e | ]; run_prims;
        [ destruct (e <? clk_Now wfe); run_prims | reflexivity ].
      * send_step. run_prims. rewrite Hk. reflexivity.
      * destruct (json_Marshal _ _); run_prims; [ | reflexivity ].
        send_step. run_prims. rewrite Hk. reflexivity.
    + send_step. run_prims. rewrite Hk. reflexivity.
  - intros err Hget. run_prims. rewrite Hget. run_prims.
    send_step. reflexivity.
  - intros Hexp. run_prims. rewrite H, H0. run_prims.
    apply Z.ltb_lt in Hexp. rewrite Hexp. run_prims.
    eexists. send_step. reflexivity.
  - intros Hexp Hm. run_prims. rewrite H, H0. run_prims.
    apply Z.ltb_ge in Hexp. rewrite Hexp. run_prims. rewrite Hm. reflexivity.
Qed.

Lemma Authorization_read_witness :
  answer (run (Authorization_handler Fixture.wfe (Fixture.get "/acme/authz/valid")) [])
    = (Some StatusOK,
       [BodyAuthorization (prepAuthorizationForDisplay Fixture.wfe Fixture.authzValid)]).
Proof.
  refine (proj2 (proj2 (proj2 (Authorization_read Fixture.wfe
                                 (Fixture.get "/acme/authz/valid") []))
                   Fixture.authzValid 2000 eq_refl eq_refl) _ eq_refl).
  vm_compute. discriminate.
Defined.

Lemma FindChallenge_from_first (before after : list Challenge) (c : Challenge) :
  (forall c', In c' before -> chal_ID c' <> chal_ID c) ->
  forall i,
    FindChallenge_from i (before ++ c :: after) (chal_ID c)
      = i + Z.of_nat (List.length before).
Proof.
  induction before as [ | x before IH]; intros Hfirst i; cbn [app FindChallenge_from List.length].
  - rewrite Z.eqb_refl. cbn. lia.
  - destruct (Z.eqb_spec (chal_ID x) (chal_ID c)) as [E | _].
    + exfalso. apply (Hfirst x); [ left; reflexivity | exact E ].
    + rewrite IH; [ lia | ]. intros c' Hin. apply Hfirst. right. exact Hin.
Qed.

Lemma index_middle {A} (before after : list A) (c : A) (s : State) :
  index (before ++ c :: after) (Z.of_nat (List.length before)) s = (Done c, s).
Proof.
  unfold index.
  destruct (Z.ltb_spec (Z.of_nat (List.length before)) 0) as [Hneg | _]; [ lia | ].
  rewrite Nat2Z.id, nth_error_app2 by lia.
  rewrite Nat.sub_diag. reflexivity.
Qed.

(** X18. The URI that [prepChallengeForDisplay] gives a challenge leads
    back to that challenge: a GET on the challenge path followed by the
    authorization ID and the decimal challenge ID is answered 202 with that
    challenge prepared for display, after the one lookup of the
    authorization, provided the authorization exists, has not expired, and
    the challenge is the first of its ID in it. *)
Theorem challenge_uri_leads_back :
  forall (wfe : WebFrontEndImpl) (request : Request) (nonces : list string)
         (authz : Authorization) (before after : list Challenge) (c : Challenge)
         (expires : Z),
    Method request = "GET"%string ->
    URL_Path request
      = (ChallengePath ++ authz_ID authz ++ "/" ++ fmt_d (chal_ID c))%string ->
    hasChar slash (authz_ID authz) = false ->
    - 2 ^ 63 <= chal_ID c <= 2 ^ 63 - 1 ->
    GetAuthorization (SA wfe) (authz_ID authz) = inl authz ->
    authz_Expires authz = Some expires ->
    clk_Now wfe <= expires ->
    authz_Challenges authz = before ++ c :: after ->
    (forall c', In c' before -> chal_ID c' <> chal_ID c) ->
    json_Marshal (lib wfe) (BodyChallenge (prepChallengeForDisplay wfe authz c)) = None ->
    answer (run (Challenge_handler wfe request) nonces)
      = (Some StatusAccepted, [BodyChallenge (prepChallengeForDisplay wfe authz c)])
    /\ chal_URI (prepChallengeForDisplay wfe authz c)
       = (ChallengeBase wfe ++ authz_ID authz ++ "/" ++ fmt_d (chal_ID c))%string
    /\ backendCalls (snd (run (Challenge_handler wfe request) nonces))
       = [Call_GetAuthorization (authz_ID authz)].
Proof.
  intros wfe request nonces authz before after c expires
         Hmethod Hpath Hslash Hrange Hget Hexp Hnow Hchals Hfirst Hmarshal.
  destruct (challenge_path_parts (authz_ID authz) (chal_ID c) Hslash Hrange)
    as [Hsplit Hparse].
  assert (Hfind : FindChallenge authz (chal_ID c) = Z.of_nat (List.length before)).
  { unfold FindChallenge. rewrite Hchals.
    rewrite (FindChallenge_from_first before after c Hfirst 0). lia. }
  assert (Hrun : exists st,
             run (Challenge_handler wfe request) nonces = (Done tt, st)
             /\ resp_Code (response st) = Some StatusAccepted
             /\ resp_Body (response st)
                = [BodyChallenge (prepChallengeForDisplay wfe authz c)]
             /\ calls st = [Call_GetAuthorization (authz_ID authz)]).
  { fresh_run. unfold Challenge_handler, isExpired, getChallenge.
    rewrite Hpath, length_app_ge, Hsplit, Hparse.
    run_prims. rewrite Hget, Hexp.
    destruct (Z.ltb_spec expires (clk_Now wfe)) as [Hlt | _]; [ lia | ].
    rewrite Hfind.
    destruct (Z.eqb_spec (Z.of_nat (List.length before)) (-1)) as [Hm | _]; [ lia | ].
    destruct (Z.ltb_spec (Z.of_nat (List.length before)) 0) as [Hneg | _]; [ lia | ].
    rewrite Hchals, Nat2Z.id, nth_error_app2 by lia.
    rewrite Nat.sub_diag. cbn [nth_error]. run_prims.
    rewrite Hmethod. cbn [String.eqb Ascii.eqb Bool.eqb].
    rewrite Hmarshal. run_prims.
    eexists. repeat split. }
  destruct Hrun as (st & Hrun & Hcode & Hbody & Hcalls).
  unfold answer, backendCalls. rewrite Hrun. cbn [snd].
  rewrite Hcode, Hbody, Hcalls. repeat split.
Qed.

Lemma challenge_uri_leads_back_witness :
  answer (run (Challenge_handler Fixture.wfe (Fixture.get "/acme/challenge/valid/23")) [])
    = (Some StatusAccepted,
       [BodyChallenge (prepChallengeForDisplay Fixture.wfe Fixture.authzValid Fixture.chalA)])
  /\ chal_URI (prepChallengeForDisplay Fixture.wfe Fixture.authzValid Fixture.chalA)
     = (ChallengeBase Fixture.wfe ++ authz_ID Fixture.authzValid ++ "/"
        ++ fmt_d (chal_ID Fixture.chalA))%string
  /\ backendCalls (snd (run (Challenge_handler Fixture.wfe
                               (Fixture.get "/acme/challenge/valid/23")) []))
     = [Call_GetAuthorization (authz_ID Fixture.authzValid)].
Proof.
  apply (challenge_uri_leads_back Fixture.wfe (Fixture.get "/acme/challenge/valid/23") []
           Fixture.authzValid [] [] Fixture.chalA 2000);
    try reflexivity.
  - vm_compute. split; discriminate.
  - vm_compute. discriminate.
  - intros c' [].
Defined.

(** X19. The certificate handler answers 404 without any backend call when
    the path does not start with the certificate path or the serial after
    it is not valid.  Otherwise it makes exactly one backend call, the lookup
    of that serial: a certificate found is answered 200 with its DER bytes,
    a failed lookup 409 when the storage reports multiple rows and 404
    otherwise. *)
Theorem Certificate_read :
  forall (wfe : WebFrontEndImpl) (certCacheAge : string) (request : Request)
         (nonces : list string),
    let serial := string_drop (String.length CertPath) (URL_Path request) in
    let final := run (Certificate_handler wfe certCacheAge request) nonces in
    (strings_HasPrefix (URL_Path request) CertPath = false
     \/ core_ValidSerial (lib wfe) serial = false ->
     fst (answer final) = Some StatusNotFound /\ backendCalls (snd final) = [])
    /\ (strings_HasPrefix (URL_Path request) CertPath = true ->
        core_ValidSerial (lib wfe) serial = true ->
        backendCalls (snd final) = [Call_GetCertificate serial]
        /\ (forall cert,
               GetCertificate (SA wfe) serial = inl cert ->
               answer final = (Some StatusOK, [BodyDER (cert_DER cert)]))
        /\ (forall err,
               GetCertificate (SA wfe) serial = inr err ->
               fst (answer final)
               = Some (if strings_HasPrefix (emsg err) "gorp: multiple rows returned"
                       then StatusConflict else StatusNotFound))).
Proof.
  intros wfe certCacheAge request nonces serial final. subst serial final.
  fresh_run. unfold Certificate_handler, addNoCacheHeader, addCacheHeader.
  split.
  - intros Hbad.
    destruct (strings_HasPrefix (URL_Path request) CertPath) eqn:Hprefix; run_prims.
    + destruct Hbad as [Hbad | Hbad]; [ discriminate Hbad | ].
      rewrite Hbad. run_prims. send_step. run_prims. rewrite Hk. split; reflexivity.
    + send_step. run_prims. rewrite Hk. split; reflexivity.
  - intros Hprefix Hvalid. rewrite Hprefix, Hvalid. run_prims.
    destruct (GetCertificate (SA wfe)
                (string_drop (String.length CertPath) (URL_Path request)))
      as [cert | err]; run_prims.
    + repeat split; intros; try discriminate.
      match goal with H : inl _ = inl _ |- _ => inversion H; subst end. reflexivity.
    + destruct (strings_HasPrefix (emsg err) "gorp: multiple rows returned") eqn:Hrows;
        run_prims; send_step; run_prims; rewrite Hk;
        repeat split; intros; try discriminate;
        match goal with H : inr _ = inr _ |- _ => inversion H; subst end;
        rewrite Hrows; reflexivity.
Qed.

Lemma Certificate_read_witness :
  fst (answer (run (Certificate_handler Fixture.wfe "0" (Fixture.get "/acme/authz/valid")) []))
    = Some StatusNotFound
  /\ backendCalls (snd (run (Certificate_handler Fixture.wfe "0"
                               (Fixture.get "/acme/authz/valid")) [])) = [].
Proof.
  apply (proj1 (Certificate_read Fixture.wfe "0" (Fixture.get "/acme/authz/valid") [])).
  left. reflexivity.
Defined.

(** ** The generic wrapper and the CORS headers *)

Lemma sameButHeaders_refl (s : State) : sameButHeaders s s.
Proof. repeat split. Qed.

Lemma sameButHeaders_trans (a b c : State) :
  sameButHeaders a b -> sameButHeaders b c -> sameButHeaders a c.
Proof.
  intros (H1 & H2 & H3 & H4 & H5) (G1 & G2 & G3 & G4 & G5).
  repeat split; congruence.
Qed.

Lemma Header_Set_frame (k v : string) (s : State) :
  fst (Header_Set k v s) = Done tt /\ sameButHeaders s (snd (Header_Set k v s)).
Proof. repeat split. Qed.

Lemma Header_lookup_app (h1 h2 : list (string * string)) (k : string) :
  Header_lookup (h1 ++ h2) k
  = match Header_lookup h1 k with
    | Some v => Some v
    | None => Header_lookup h2 k
    end.
Proof.
  induction h1 as [ | [k' v'] h1 IH]; cbn [app Header_lookup]; [ reflexivity | ].
  destruct (String.eqb k' k); [ reflexivity | exact IH ].
Qed.

Lemma Header_lookup_removed (h : list (string * string)) (k k' : string) :
  Header_lookup (filter (fun kv => negb (String.eqb (fst kv) k)) h) k'
  = if String.eqb k k' then None else Header_lookup h k'.
Proof.
  induction h as [ | [k0 v0] h IH]; cbn [filter Header_lookup fst].
  - destruct (String.eqb k k'); reflexivity.
  - destruct (String.eqb_spec k0 k) as [-> | Hne]; cbn [negb Header_lookup].
    + rewrite IH. destruct (String.eqb k k'); reflexivity.
    + rewrite IH. destruct (String.eqb_spec k0 k') as [-> | Hne'].
      * destruct (String.eqb_spec k k'); [ congruence | reflexivity ].
      * reflexivity.
Qed.

(** The header map after [Header().Set(k, v)]. *)
Lemma Header_lookup_Set (k v k' : string) (s : State) :
  Header_lookup (resp_Header (response (snd (Header_Set k v s)))) k'
  = if String.eqb k k' then Some v else Header_lookup (resp_Header (response s)) k'.
Proof.
  cbn [Header_Set modifyResponse snd response resp_Header].
  rewrite Header_lookup_app, Header_lookup_removed.
  cbn [Header_lookup]. destruct (String.eqb k k'); [ reflexivity | ].
  destruct (Header_lookup (resp_Header (response s)) k'); reflexivity.
Qed.

Lemma matchOrigin_frame (allowOrigins : list string) (origin : string) (s : State) :
  exists allow,
    fst (matchOrigin allowOrigins origin s) = Done allow
    /\ sameButHeaders s (snd (matchOrigin allowOrigins origin s))
    /\ (allow = false -> snd (matchOrigin allowOrigins origin s) = s)
    /\ (allow = true ->
        Header_lookup (resp_Header (response (snd (matchOrigin allowOrigins origin s))))
          "Access-Control-Allow-Origin" = Some "*"%string
        \/ Header_lookup (resp_Header (response (snd (matchOrigin allowOrigins origin s))))
             "Access-Control-Allow-Origin" = Some origin)
    /\ (allow = true <->
        exists ao, In ao allowOrigins /\ (ao = "*"%string \/ ao = origin)).
Proof.
  induction allowOrigins as [ | ao rest IH]; cbn [matchOrigin].
  - exists false. repeat split; try discriminate.
    intros (ao & [] & _).
  - destruct (String.eqb_spec ao "*") as [Hstar | Hstar].
    + exists true. repeat split; try discriminate.
      * intros _. left. unfold bind. cbn [Header_Set modifyResponse ret snd].
        apply (Header_lookup_Set "Access-Control-Allow-Origin" "*"
                 "Access-Control-Allow-Origin" s).
      * intros _. exists ao. split; [ left; reflexivity | left; exact Hstar ].
    + destruct (String.eqb_spec ao origin) as [Horigin | Horigin].
      * exists true. repeat split; try discriminate.
        -- intros _. right. subst ao. unfold bind.
           cbn [Header_Set modifyResponse ret snd fst].
           apply (Header_lookup_Set "Access-Control-Allow-Origin" origin
                    "Access-Control-Allow-Origin"
                    (snd (Header_Set "Vary" "Origin" s))).
        -- intros _. exists ao. split; [ left; reflexivity | right; exact Horigin ].
      * destruct IH as (allow & Hd & Hf & Hs & Hh & Hiff).
        exists allow. repeat split; try apply Hf; try assumption.
        -- intros H. apply Hiff in H. destruct H as (x & Hin & Hx).
           exists x. split; [ right; exact Hin | exact Hx ].
        -- intros (x & [Hx | Hin] & Hm).
           ++ subst x. destruct Hm; contradiction.
           ++ apply Hiff. exists x. split; assumption.
Qed.

Lemma Header_lookup_Set_other (k v k' : string) (s : State) :
  k' <> k ->
  Header_lookup (resp_Header (response (snd (Header_Set k v s)))) k'
  = Header_lookup (resp_Header (response s)) k'.
Proof.
  intros Hne. rewrite Header_lookup_Set.
  destruct (String.eqb_spec k k') as [E | _]; [ | reflexivity ].
  symmetry in E. contradiction.
Qed.

Lemma matchOrigin_other_headers (allowOrigins : list string) (origin k' : string)
    (s : State) :
  k' <> "Vary"%string -> k' <> "Access-Control-Allow-Origin"%string ->
  Header_lookup (resp_Header (response (snd (matchOrigin allowOrigins origin s)))) k'
  = Header_lookup (resp_Header (response s)) k'.
Proof.
  intros Hv Ho. induction allowOrigins as [ | ao rest IH]; cbn [matchOrigin].
  - reflexivity.
  - destruct (String.eqb ao "*").
    + unfold bind. cbn [Header_Set modifyResponse ret snd].
      apply (Header_lookup_Set_other "Access-Control-Allow-Origin" "*" k' s Ho).
    + destruct (String.eqb ao origin); [ | exact IH ].
      unfold bind. cbn [Header_Set modifyResponse ret snd fst].
      etransitivity;
        [ apply (Header_lookup_Set_other "Access-Control-Allow-Origin" ao k'
                   (snd (Header_Set "Vary" "Origin" s)) Ho)
        | apply (Header_lookup_Set_other "Vary" "Origin" k' s Hv) ].
Qed.

Lemma setCORSHeaders_frame (allowOrigins : list string) (request : Request)
    (allowMethods : string) (s : State) :
  fst (setCORSHeaders allowOrigins request allowMethods s) = Done tt
  /\ sameButHeaders s (snd (setCORSHeaders allowOrigins request allowMethods s))
  /\ forall k',
       k' <> "Vary"%string -> k' <> "Access-Control-Allow-Origin"%string ->
       k' <> "Access-Control-Allow-Methods"%string ->
       k' <> "Access-Control-Expose-Headers"%string ->
       k' <> "Access-Control-Max-Age"%string ->
       Header_lookup
         (resp_Header (response (snd (setCORSHeaders allowOrigins request allowMethods s))))
         k'
       = Header_lookup (resp_Header (response s)) k'.
Proof.
  set (r := setCORSHeaders allowOrigins request allowMethods s).
  assert (Hr : r = setCORSHeaders allowOrigins request allowMethods s) by reflexivity.
  clearbody r. unfold setCORSHeaders in Hr.
  destruct (String.eqb (Header_Get (req_Header request) "Origin") EmptyString).
  { subst r. cbn [ret fst snd]. repeat split. }
  pose proof (matchOrigin_other_headers allowOrigins
                (Header_Get (req_Header request) "Origin")) as Hother.
  destruct (matchOrigin_frame allowOrigins
              (Header_Get (req_Header request) "Origin") s)
    as (allow & Hdone & Hframe & _).
  specialize (fun k' => Hother k' s).
  unfold bind at 1 in Hr.
  destruct (matchOrigin allowOrigins (Header_Get (req_Header request) "Origin") s)
    as [o s1].
  cbn [fst snd] in Hdone, Hframe, Hother. subst o.
  destruct allow; cbn [negb] in Hr.
  - set (s2 := snd ((if negb (String.eqb allowMethods EmptyString)
                     then Header_Set "Access-Control-Allow-Methods" allowMethods
                     else ret tt) s1)).
    assert (Hs2 : (if negb (String.eqb allowMethods EmptyString)
                   then Header_Set "Access-Control-Allow-Methods" allowMethods
                   else ret tt) s1 = (Done tt, s2)).
    { subst s2. destruct (negb (String.eqb allowMethods EmptyString)); reflexivity. }
    assert (Hrun :
      bind (if negb (String.eqb allowMethods EmptyString)
            then Header_Set "Access-Control-Allow-Methods" allowMethods
            else ret tt)
        (fun _ => bind (Header_Set "Access-Control-Expose-Headers" "Link, Replay-Nonce")
                    (fun _ => Header_Set "Access-Control-Max-Age" "86400")) s1
      = (Done tt,
         snd (Header_Set "Access-Control-Max-Age" "86400"
                (snd (Header_Set "Access-Control-Expose-Headers" "Link, Replay-Nonce"
                        s2))))).
    { unfold bind. rewrite Hs2. reflexivity. }
    rewrite Hrun in Hr. subst r. cbn [fst snd]. clear Hrun Hs2.
    assert (Hf2 : sameButHeaders s1 s2).
    { subst s2. destruct (negb (String.eqb allowMethods EmptyString));
        [ apply Header_Set_frame | apply sameButHeaders_refl ]. }
    assert (Hk2 : forall k', k' <> "Access-Control-Allow-Methods"%string ->
               Header_lookup (resp_Header (response s2)) k'
               = Header_lookup (resp_Header (response s1)) k').
    { intros k' Hne. subst s2. destruct (negb (String.eqb allowMethods EmptyString));
        [ apply Header_lookup_Set_other; exact Hne | reflexivity ]. }
    clearbody s2.
    split; [ reflexivity | ].
    split.
    { eapply sameButHeaders_trans; [ exact Hframe | ].
      eapply sameButHeaders_trans; [ exact Hf2 | ].
      eapply sameButHeaders_trans; apply Header_Set_frame. }
    intros k' H1 H2 H3 H4 H5.
    rewrite Header_lookup_Set_other by exact H5.
    rewrite Header_lookup_Set_other by exact H4.
    rewrite Hk2 by exact H3. apply Hother; assumption.
  - subst r. cbn [ret fst snd].
    split; [ reflexivity | ]. split; [ exact Hframe | ].
    intros k' H1 H2 _ _ _. apply Hother; assumption.
Qed.

(** X20. [setCORSHeaders] changes nothing but response headers.  It changes
    nothing at all when the request has no Origin header or no allowed origin
    is the wildcard or the request's origin.  Otherwise it sets
    Access-Control-Allow-Origin to the wildcard or to the request's origin,
    Access-Control-Expose-Headers to the Link and Replay-Nonce headers,
    Access-Control-Max-Age to 86400 and, when given methods,
    Access-Control-Allow-Methods to them. *)
Theorem setCORSHeaders_spec :
  forall (allowOrigins : list string) (request : Request) (allowMethods : string)
         (s : State),
    let origin := Header_Get (req_Header request) "Origin" in
    let final := snd (setCORSHeaders allowOrigins request allowMethods s) in
    fst (setCORSHeaders allowOrigins request allowMethods s) = Done tt
    /\ sameButHeaders s final
    /\ (origin = EmptyString
        \/ (forall ao, In ao allowOrigins -> ao <> "*"%string /\ ao <> origin) ->
        final = s)
    /\ (origin <> EmptyString ->
        (exists ao, In ao allowOrigins /\ (ao = "*"%string \/ ao = origin)) ->
        (Header_lookup (resp_Header (response final)) "Access-Control-Allow-Origin"
           = Some "*"%string
         \/ Header_lookup (resp_Header (response final)) "Access-Control-Allow-Origin"
            = Some origin)
        /\ Header_lookup (resp_Header (response final)) "Access-Control-Expose-Headers"
           = Some "Link, Replay-Nonce"%string
        /\ Header_lookup (resp_Header (response final)) "Access-Control-Max-Age"
           = Some "86400"%string
        /\ (allowMethods <> EmptyString ->
            Header_lookup (resp_Header (response final)) "Access-Control-Allow-Methods"
              = Some allowMethods)).
Proof.
  intros allowOrigins request allowMethods s origin final. subst final.
  set (r := setCORSHeaders allowOrigins request allowMethods s).
  assert (Hr : r = setCORSHeaders allowOrigins request allowMethods s) by reflexivity.
  clearbody r. unfold setCORSHeaders in Hr. fold origin in Hr.
  destruct (String.eqb_spec origin EmptyString) as [Hempty | Hnonempty].
  { subst r. cbn [ret fst snd]. split; [ reflexivity | ].
    split; [ apply sameButHeaders_refl | ].
    split; [ reflexivity | ]. intros H. contradiction. }
  destruct (matchOrigin_frame allowOrigins origin s)
    as (allow & Hdone & Hframe & Hsame & Hheader & Hiff).
  unfold bind at 1 in Hr.
  destruct (matchOrigin allowOrigins origin s) as [o s1].
  cbn [fst snd] in Hdone, Hframe, Hsame, Hheader. subst o.
  destruct allow; cbn [negb] in Hr.
  - (* the origin is allowed *)
    specialize (Hheader eq_refl).
    set (s2 := snd ((if negb (String.eqb allowMethods EmptyString)
                     then Header_Set "Access-Control-Allow-Methods" allowMethods
                     else ret tt) s1)).
    assert (Hs2 : (if negb (String.eqb allowMethods EmptyString)
                   then Header_Set "Access-Control-Allow-Methods" allowMethods
                   else ret tt) s1 = (Done tt, s2)).
    { subst s2. destruct (negb (String.eqb allowMethods EmptyString)); reflexivity. }
    assert (Hrun :
      bind (if negb (String.eqb allowMethods EmptyString)
            then Header_Set "Access-Control-Allow-Methods" allowMethods
            else ret tt)
        (fun _ => bind (Header_Set "Access-Control-Expose-Headers" "Link, Replay-Nonce")
                    (fun _ => Header_Set "Access-Control-Max-Age" "86400")) s1
      = (Done tt,
         snd (Header_Set "Access-Control-Max-Age" "86400"
                (snd (Header_Set "Access-Control-Expose-Headers" "Link, Replay-Nonce"
                        s2))))).
    { unfold bind. rewrite Hs2. reflexivity. }
    rewrite Hrun in Hr. subst r. cbn [fst snd]. clear Hrun Hs2.
    assert (Hf2 : sameButHeaders s1 s2).
    { subst s2. destruct (negb (String.eqb allowMethods EmptyString));
        [ apply Header_Set_frame | apply sameButHeaders_refl ]. }
    assert (Hacao : forall v,
               Header_lookup (resp_Header (response s1)) "Access-Control-Allow-Origin"
                 = Some v ->
               Header_lookup (resp_Header (response s2)) "Access-Control-Allow-Origin"
                 = Some v).
    { intros v Hv. subst s2. destruct (negb (String.eqb allowMethods EmptyString));
        [ rewrite Header_lookup_Set; exact Hv | exact Hv ]. }
    assert (Hacam : allowMethods <> EmptyString ->
               Header_lookup (resp_Header (response s2)) "Access-Control-Allow-Methods"
                 = Some allowMethods).
    { intros Hm. subst s2.
      destruct (String.eqb_spec allowMethods EmptyString) as [E | _]; [ contradiction | ].
      cbn [negb]. rewrite Header_lookup_Set. reflexivity. }
    clearbody s2.
    split; [ reflexivity | ].
    split.
    { eapply sameButHeaders_trans; [ exact Hframe | ].
      eapply sameButHeaders_trans; [ exact Hf2 | ].
      eapply sameButHeaders_trans; apply Header_Set_frame. }
    split.
    { intros [H | H]; [ contradiction | ].
      exfalso. destruct (proj1 Hiff eq_refl) as (ao & Hin & Hm).
      destruct (H ao Hin) as [H1 H2]. destruct Hm; contradiction. }
    intros _ _.
    repeat rewrite Header_lookup_Set. cbn [String.eqb Ascii.eqb Bool.eqb].
    split; [ destruct Hheader as [Hh | Hh]; [ left | right ]; apply Hacao; exact Hh | ].
    split; [ reflexivity | ]. split; [ reflexivity | ].
    exact Hacam.
  - (* the origin is not allowed *)
    subst r. rewrite (Hsame eq_refl). cbn [ret fst snd].
    split; [ reflexivity | ]. split; [ apply sameButHeaders_refl | ].
    split; [ reflexivity | ].
    intros _ Hex. apply Hiff in Hex. discriminate Hex.
Qed.

Lemma setCORSHeaders_spec_witness :
  Header_lookup
    (resp_Header (response (snd (setCORSHeaders ["*"%string]
       (mkRequest "GET" "/directory" [("Origin"%string, "https://client.invalid"%string)]
          NoBody "192.0.2.1:4000")
       "GET, HEAD" (initState []))))) "Access-Control-Allow-Methods"
  = Some "GET, HEAD"%string.
Proof.
  pose proof (setCORSHeaders_spec ["*"%string]
                (mkRequest "GET" "/directory"
                   [("Origin"%string, "https://client.invalid"%string)]
                   NoBody "192.0.2.1:4000")
                "GET, HEAD" (initState [])) as Hspec.
  cbv zeta in Hspec. destruct Hspec as (_ & _ & _ & Hallowed).
  destruct Hallowed as (_ & _ & _ & Hmethods).
  - discriminate.
  - exists "*"%string. split; [ left; reflexivity | left; reflexivity ].
  - apply Hmethods. discriminate.
Defined.

Lemma sendError_headers wfe msg detail code s :
  resp_Header (response (snd (sendError wfe msg detail code s)))
  = resp_Header
      (response (snd (Header_Set "Content-Type" "application/problem+json" s))).
Proof.
  destruct s as [ns [hd cd bd] lg cs].
  unfold sendError.
  cbv [bind AddError modifyLogEvent Header_Set WriteHeader Write modifyResponse
       stats_Inc emit ret nonceService response logEvent calls
       resp_Header resp_Code resp_Body].
  destruct (ProblemType_eqb _ _); [ | destruct (negb _) ];
    destruct (json_Marshal _ _); reflexivity.
Qed.

Lemma HandleFunc_run wfe allowOrigins fresh h methods request s :
  HandleFunc wfe allowOrigins fresh h methods request s
  = (if String.eqb (Method request) "OPTIONS" then
       Options allowOrigins request (strings_Join_comma (routeMethods methods))
         (routeMethods methods)
     else if negb (methodAllowed (routeMethods methods) (Method request)) then
       bind (Header_Set "Allow" (strings_Join_comma (routeMethods methods)))
         (fun _ =>
            (if String.eqb (Method request) "HEAD" then bodyless (A:=unit) else fun m => m)
              (sendError wfe "Method not allowed" (DetailString (Method request))
                 StatusMethodNotAllowed))
     else
       bind (setCORSHeaders allowOrigins request EmptyString)
         (fun _ =>
            (if String.eqb (Method request) "HEAD" then bodyless (A:=unit) else fun m => m)
              (h request)))
      (withNonce fresh s).
Proof.
  unfold HandleFunc, withNonce. unfold bind at 1 2.
  destruct fresh as [nonce | err]; cbn [nonceService_Nonce Header_Set modifyResponse ret];
    destruct (String.eqb (Method request) "OPTIONS"); try reflexivity;
    destruct (negb (methodAllowed (routeMethods methods) (Method request)));
    destruct (String.eqb (Method request) "HEAD"); reflexivity.
Qed.

Lemma withNonce_frame fresh s :
  nonceService (withNonce fresh s) = nonceService s ++ issued fresh
  /\ resp_Code (response (withNonce fresh s)) = resp_Code (response s)
  /\ resp_Body (response (withNonce fresh s)) = resp_Body (response s)
  /\ logEvent (withNonce fresh s) = logEvent s
  /\ calls (withNonce fresh s) = calls s
  /\ (forall nonce, fresh = inl nonce ->
      Header_lookup (resp_Header (response (withNonce fresh s))) "Replay-Nonce"
      = Some nonce).
Proof.
  destruct fresh as [nonce | err]; cbn [withNonce issued].
  - repeat split. intros n [= <-]. rewrite Header_lookup_Set. reflexivity.
  - rewrite app_nil_r. repeat split. intros n [=].
Qed.

Lemma routeMethods_keeps (methods : list string) (m : string) :
  methodAllowed methods m = true -> methodAllowed (routeMethods methods) m = true.
Proof.
  intros Hm. unfold routeMethods.
  destruct (methodAllowed methods "GET" && negb (methodAllowed methods "HEAD"));
    [ | exact Hm ].
  unfold methodAllowed in *. rewrite existsb_app, Hm. reflexivity.
Qed.

(** X21. The methods a route registered through [HandleFunc] accepts are
    the listed ones and, when GET is listed, HEAD. *)
Theorem routeMethods_spec :
  forall (methods : list string) (m : string),
    methodAllowed (routeMethods methods) m
    = methodAllowed methods m
      || (String.eqb m "HEAD" && methodAllowed methods "GET").
Proof.
  intros methods m. unfold routeMethods.
  destruct (methodAllowed methods "GET") eqn:Hget; cbn [andb].
  - destruct (methodAllowed methods "HEAD") eqn:Hhead; cbn [negb].
    + destruct (String.eqb_spec m "HEAD") as [-> | _].
      * rewrite Hhead. reflexivity.
      * cbn [andb]. rewrite orb_false_r. reflexivity.
    + unfold methodAllowed. rewrite existsb_app. cbn [existsb].
      rewrite orb_false_r, andb_true_r. reflexivity.
  - rewrite andb_false_r, orb_false_r. reflexivity.
Qed.

(** X22. A request (other than OPTIONS) whose method the route does not
    accept is answered 405 by the wrapper, with the Allow header listing the
    accepted methods, with the problem document as the only body (and no
    body for HEAD), and without any backend call; the wrapped handler plays
    no part in the answer. *)
Theorem HandleFunc_method_not_allowed :
  forall wfe allowOrigins fresh (h h' : Request -> M unit) methods request s,
    Method request <> "OPTIONS"%string ->
    methodAllowed (routeMethods methods) (Method request) = false ->
    resp_Code (response s) = None ->
    let r := HandleFunc wfe allowOrigins fresh h methods request s in
    fst r = Done tt
    /\ resp_Code (response (snd r)) = Some StatusMethodNotAllowed
    /\ Header_lookup (resp_Header (response (snd r))) "Allow"
       = Some (strings_Join_comma (routeMethods methods))
    /\ resp_Body (response (snd r))
       = resp_Body (response s)
         ++ (if String.eqb (Method request) "HEAD" then []
             else [problemDocument wfe "Method not allowed"
                     (DetailString (Method request)) StatusMethodNotAllowed])
    /\ backendCalls (snd r) = backendCalls s
    /\ HandleFunc wfe allowOrigins fresh h' methods request s = r.
Proof.
  intros wfe allowOrigins fresh h h' methods request s Hopt Hnot Hcode r.
  subst r. rewrite !HandleFunc_run.
  destruct (String.eqb_spec (Method request) "OPTIONS") as [E | _]; [ contradiction | ].
  rewrite Hnot. cbn [negb].
  destruct (withNonce_frame fresh s) as (Hn & Hc & Hb & Hl & Hk & _).
  rewrite <- Hc in Hcode. rewrite <- Hb.
  assert (Hbk : backendCalls (withNonce fresh s) = backendCalls s).
  { unfold backendCalls. rewrite Hk. reflexivity. }
  rewrite <- Hbk. clear Hn Hc Hb Hl Hk Hbk.
  generalize dependent (withNonce fresh s). intros s0 Hcode.
  unfold bind.
  set (s1 := snd (Header_Set "Allow" (strings_Join_comma (routeMethods methods)) s0)).
  change (Header_Set "Allow" (strings_Join_comma (routeMethods methods)) s0)
    with (Done tt, s1).
  pose proof (sendError_spec wfe "Method not allowed" (DetailString (Method request))
                StatusMethodNotAllowed s1) as Hspec.
  pose proof (sendError_headers wfe "Method not allowed" (DetailString (Method request))
                StatusMethodNotAllowed s1) as Hhd.
  cbv zeta in Hspec. destruct Hspec as (Ho & Hc & Hb & Hk & _).
  assert (Hcode1 : resp_Code (response s1) = None) by exact Hcode.
  rewrite Hcode1 in Hc.
  assert (Hallow : Header_lookup
            (resp_Header (response (snd (sendError wfe "Method not allowed"
               (DetailString (Method request)) StatusMethodNotAllowed s1)))) "Allow"
            = Some (strings_Join_comma (routeMethods methods))).
  { rewrite Hhd. rewrite Header_lookup_Set. cbn [String.eqb Ascii.eqb Bool.eqb].
    subst s1. rewrite Header_lookup_Set. rewrite String.eqb_refl. reflexivity. }
  destruct (String.eqb (Method request) "HEAD").
  - unfold bodyless. cbn [fst snd response resp_Code resp_Header resp_Body].
    unfold backendCalls in *. cbn [calls].
    rewrite app_nil_r.
    repeat split; try assumption.
  - repeat split; try assumption.
Qed.

Lemma HandleFunc_method_not_allowed_witness :
  let r := HandleFunc Fixture.wfe [] (inl "nonce2"%string) (NewRegistration Fixture.wfe)
             ["POST"%string] (Fixture.get NewRegPath) (initState []) in
  fst r = Done tt
  /\ resp_Code (response (snd r)) = Some StatusMethodNotAllowed
  /\ Header_lookup (resp_Header (response (snd r))) "Allow"
     = Some (strings_Join_comma (routeMethods ["POST"%string]))
  /\ resp_Body (response (snd r))
     = resp_Body (response (initState []))
       ++ (if String.eqb (Method (Fixture.get NewRegPath)) "HEAD" then []
           else [problemDocument Fixture.wfe "Method not allowed"
                   (DetailString (Method (Fixture.get NewRegPath)))
                   StatusMethodNotAllowed])
  /\ backendCalls (snd r) = backendCalls (initState [])
  /\ HandleFunc Fixture.wfe [] (inl "nonce2"%string) (Authorization_handler Fixture.wfe)
       ["POST"%string] (Fixture.get NewRegPath) (initState []) = r.
Proof.
  apply (HandleFunc_method_not_allowed Fixture.wfe [] (inl "nonce2"%string)
           (NewRegistration Fixture.wfe) (Authorization_handler Fixture.wfe)
           ["POST"%string] (Fixture.get NewRegPath) (initState [])).
  - discriminate.
  - reflexivity.
  - reflexivity.
Defined.

(** X23. An OPTIONS request is answered by the wrapper alone: it issues the
    nonce and sets the Allow header to the accepted methods, writes no status
    and no body, logs nothing, makes no call, and the wrapped handler plays
    no part in the answer. *)
Theorem HandleFunc_OPTIONS :
  forall wfe allowOrigins fresh (h h' : Request -> M unit) methods request s,
    Method request = "OPTIONS"%string ->
    let r := HandleFunc wfe allowOrigins fresh h methods request s in
    fst r = Done tt
    /\ Header_lookup (resp_Header (response (snd r))) "Allow"
       = Some (strings_Join_comma (routeMethods methods))
    /\ nonceService (snd r) = nonceService s ++ issued fresh
    /\ resp_Code (response (snd r)) = resp_Code (response s)
    /\ resp_Body (response (snd r)) = resp_Body (response s)
    /\ logEvent (snd r) = logEvent s
    /\ calls (snd r) = calls s
    /\ HandleFunc wfe allowOrigins fresh h' methods request s = r.
Proof.
  intros wfe allowOrigins fresh h h' methods request s Hopt r.
  subst r. rewrite !HandleFunc_run. rewrite Hopt. cbn [String.eqb Ascii.eqb Bool.eqb].
  destruct (withNonce_frame fresh s) as (Hn & Hc & Hb & Hl & Hk & _).
  rewrite <- Hn, <- Hc, <- Hb, <- Hl, <- Hk. clear Hn Hc Hb Hl Hk.
  generalize (withNonce fresh s). intros s0.
  unfold Options, bind.
  set (methodsStr := strings_Join_comma (routeMethods methods)).
  set (s1 := snd (Header_Set "Allow" methodsStr s0)).
  change (Header_Set "Allow" methodsStr s0) with (Done tt, s1).
  assert (Hallow : Header_lookup (resp_Header (response s1)) "Allow" = Some methodsStr).
  { subst s1. rewrite Header_lookup_Set. reflexivity. }
  assert (Hf1 : sameButHeaders s0 s1) by (subst s1; apply Header_Set_frame).
  clearbody s1.
  destruct (methodAllowed _ _).
  - destruct (setCORSHeaders_frame allowOrigins request methodsStr s1)
      as (Hd & Hf & Hother).
    split; [ exact Hd | ].
    split; [ rewrite Hother; [ exact Hallow | discriminate .. ] | ].
    destruct (sameButHeaders_trans _ _ _ Hf1 Hf) as (G1 & G2 & G3 & G4 & G5).
    repeat split; assumption.
  - cbn [ret fst snd]. destruct Hf1 as (G1 & G2 & G3 & G4 & G5).
    repeat split; assumption.
Qed.

Lemma HandleFunc_OPTIONS_witness :
  let r := HandleFunc Fixture.wfe ["*"%string] (inl "nonce2"%string)
             (Authorization_handler Fixture.wfe) ["GET"%string]
             (mkRequest "OPTIONS" "/acme/authz/valid" [] NoBody "192.0.2.1:4000")
             (initState []) in
  fst r = Done tt
  /\ Header_lookup (resp_Header (response (snd r))) "Allow"
     = Some (strings_Join_comma (routeMethods ["GET"%string]))
  /\ nonceService (snd r) = nonceService (initState []) ++ issued (inl "nonce2"%string)
  /\ resp_Code (response (snd r)) = resp_Code (response (initState []))
  /\ resp_Body (response (snd r)) = resp_Body (response (initState []))
  /\ logEvent (snd r) = logEvent (initState [])
  /\ calls (snd r) = calls (initState [])
  /\ HandleFunc Fixture.wfe ["*"%string] (inl "nonce2"%string)
       (NewRegistration Fixture.wfe) ["GET"%string]
       (mkRequest "OPTIONS" "/acme/authz/valid" [] NoBody "192.0.2.1:4000")
       (initState []) = r.
Proof.
  apply (HandleFunc_OPTIONS Fixture.wfe ["*"%string] (inl "nonce2"%string)
           (Authorization_handler Fixture.wfe) (NewRegistration Fixture.wfe)
           ["GET"%string]
           (mkRequest "OPTIONS" "/acme/authz/valid" [] NoBody "192.0.2.1:4000")
           (initState [])).
  reflexivity.
Defined.

(** X24. A HEAD request gets no body: whatever the wrapped handler does, and
    whether or not the method is accepted, the body of the response is left
    as it was. *)
Theorem HandleFunc_HEAD_sends_no_body :
  forall wfe allowOrigins fresh (h : Request -> M unit) methods request s,
    Method request = "HEAD"%string ->
    resp_Body (response (snd (HandleFunc wfe allowOrigins fresh h methods request s)))
    = resp_Body (response s).
Proof.
  intros wfe allowOrigins fresh h methods request s Hhead.
  rewrite HandleFunc_run. rewrite Hhead. cbn [String.eqb Ascii.eqb Bool.eqb].
  destruct (withNonce_frame fresh s) as (_ & _ & Hb & _).
  rewrite <- Hb. clear Hb. generalize (withNonce fresh s). intros s0.
  destruct (negb _); unfold bind.
  - reflexivity.
  - destruct (setCORSHeaders_frame allowOrigins request EmptyString s0)
      as (Hd & (_ & _ & Hb & _) & _).
    destruct (setCORSHeaders allowOrigins request EmptyString s0) as [o s1].
    cbn [fst snd] in Hd, Hb. subst o. rewrite <- Hb. reflexivity.
Qed.

Lemma HandleFunc_HEAD_sends_no_body_witness :
  resp_Body (response (snd (HandleFunc Fixture.wfe [] (inl "nonce2"%string)
                              (Authorization_handler Fixture.wfe) ["GET"%string]
                              (mkRequest "HEAD" "/acme/authz/valid" [] NoBody
                                 "192.0.2.1:4000")
                              (initState []))))
  = resp_Body (response (initState [])).
Proof.
  apply (HandleFunc_HEAD_sends_no_body Fixture.wfe [] (inl "nonce2"%string)
           (Authorization_handler Fixture.wfe) ["GET"%string]
           (mkRequest "HEAD" "/acme/authz/valid" [] NoBody "192.0.2.1:4000")
           (initState [])).
  reflexivity.
Defined.

(** X25. For an accepted method other than OPTIONS and HEAD the wrapper
    runs the wrapped handler on the request, in a state in which the issued
    nonce is registered and announced in the Replay-Nonce header, and in
    which no status, body, log entry or call has been added. *)
Theorem HandleFunc_calls_the_handler :
  forall wfe allowOrigins fresh (h : Request -> M unit) methods request s,
    Method request <> "OPTIONS"%string ->
    Method request <> "HEAD"%string ->
    methodAllowed methods (Method request) = true ->
    exists s',
      HandleFunc wfe allowOrigins fresh h methods request s = h request s'
      /\ nonceService s' = nonceService s ++ issued fresh
      /\ resp_Code (response s') = resp_Code (response s)
      /\ resp_Body (response s') = resp_Body (response s)
      /\ logEvent s' = logEvent s
      /\ calls s' = calls s
      /\ (forall nonce, fresh = inl nonce ->
          Header_lookup (resp_Header (response s')) "Replay-Nonce" = Some nonce).
Proof.
  intros wfe allowOrigins fresh h methods request s Hopt Hhead Hallowed.
  rewrite HandleFunc_run.
  destruct (String.eqb_spec (Method request) "OPTIONS") as [E | _]; [ contradiction | ].
  rewrite (routeMethods_keeps methods (Method request) Hallowed). cbn [negb].
  destruct (String.eqb_spec (Method request) "HEAD") as [E | _]; [ contradiction | ].
  destruct (withNonce_frame fresh s) as (Hn & Hc & Hb & Hl & Hk & Hrn).
  destruct (setCORSHeaders_frame allowOrigins request EmptyString (withNonce fresh s))
    as (Hd & (G1 & G2 & G3 & G4 & G5) & Hother).
  unfold bind.
  destruct (setCORSHeaders allowOrigins request EmptyString (withNonce fresh s))
    as [o s1].
  cbn [fst snd] in *. subst o.
  exists s1. split; [ reflexivity | ].
  repeat split; try congruence.
  intros nonce Hfresh. rewrite Hother; [ apply Hrn; exact Hfresh | discriminate .. ].
Qed.

Lemma HandleFunc_calls_the_handler_witness :
  exists s',
    HandleFunc Fixture.wfe [] (inl "nonce2"%string) (Authorization_handler Fixture.wfe)
      ["GET"%string] (Fixture.get "/acme/authz/valid") (initState [])
    = Authorization_handler Fixture.wfe (Fixture.get "/acme/authz/valid") s'
    /\ nonceService s' = nonceService (initState []) ++ issued (inl "nonce2"%string)
    /\ resp_Code (response s') = resp_Code (response (initState []))
    /\ resp_Body (response s') = resp_Body (response (initState []))
    /\ logEvent s' = logEvent (initState [])
    /\ calls s' = calls (initState [])
    /\ (forall nonce, inl "nonce2"%string = @inl string error nonce ->
        Header_lookup (resp_Header (response s')) "Replay-Nonce" = Some nonce).
Proof.
  apply (HandleFunc_calls_the_handler Fixture.wfe [] (inl "nonce2"%string)
           (Authorization_handler Fixture.wfe) ["GET"%string]
           (Fixture.get "/acme/authz/valid") (initState [])).
  - discriminate.
  - discriminate.
  - reflexivity.
Defined.

